(** * Skill-gap analysis service: credential resolution, quota fallback
      and the cron freshness check

    A shallow embedding of the decision logic of
    [app/services/gemini_service.py] ([get_user_gemini_key],
    [get_api_key_for_user], [analyze_skill_gap]) and of
    [app/services/data_service.py] ([check_if_analysis_needed]).

    The network is not part of the program: every HTTP round trip and the
    call of the generative model are inputs of the model (what the
    collaborator answered), and the Python code that inspects the answers
    is translated line by line. *)

From Stdlib Require Import Bool Arith ZArith List String Ascii Lia.
Import ListNotations.
Open Scope string_scope.

#[local] Set Warnings "-register-all".

(** ** Python values decoded from JSON *)

(** What [response.json()] and [json.loads] hand back.  Numbers are kept
    as integers (the fields read here are text or null); an object is an
    association list in document order, looked up by first match. *)
Inductive json : Type :=
| JNull : json
| JBool : bool -> json
| JNum : Z -> json
| JStr : string -> json
| JArr : list json -> json
| JObj : list (string * json) -> json.

(** Python truth value of a string: [bool(s)]. *)
Definition str_truthy (s : string) : bool :=
  match s with
  | EmptyString => false
  | String _ _ => true
  end.

(** Python truth value of a decoded value: [bool(v)]. *)
Definition truthy (v : json) : bool :=
  match v with
  | JNull => false
  | JBool b => b
  | JNum n => negb (Z.eqb n 0)
  | JStr s => str_truthy s
  | JArr l => match l with [] => false | _ :: _ => true end
  | JObj l => match l with [] => false | _ :: _ => true end
  end.

(** [d.get(k)] on a dict held as an association list. *)
Fixpoint assoc_get (k : string) (l : list (string * json)) : option json :=
  match l with
  | [] => None
  | (k', v) :: r => if String.eqb k k' then Some v else assoc_get k r
  end.

(** [d[k] = v] on a dict: overwrite in place, else append. *)
Fixpoint assoc_set (k : string) (v : json) (l : list (string * json))
  : list (string * json) :=
  match l with
  | [] => [(k, v)]
  | (k', v') :: r =>
      if String.eqb k k' then (k, v) :: r else (k', v') :: assoc_set k v r
  end.

(** ** Exceptions *)

(** The exception classes met in the translated code.  [PyValueError]
    and [PyException] carry [str(e)]; the others are only ever caught by
    a blanket [except Exception] that does not look at them. *)
Inductive exn : Type :=
| PyValueError : string -> exn
| PyException : string -> exn
| PyRequestException : exn
| PyJSONDecodeError : exn
| PyKeyError : exn
| PyIndexError : exn
| PyTypeError : exn
| PyAttributeError : exn.

(** Result of running a piece of Python: it returns or it raises. *)
Inductive outcome (A : Type) : Type :=
| Returned : A -> outcome A
| Raised : exn -> outcome A.
Arguments Returned {A} _.
Arguments Raised {A} _.

Definition bind {A B : Type} (c : outcome A) (k : A -> outcome B)
  : outcome B :=
  match c with
  | Returned a => k a
  | Raised e => Raised e
  end.

Notation "x <- c ;; k" := (bind c (fun x => k))
  (at level 61, c at next level, right associativity).

(** ** HTTP answers *)

(** One [requests.get]: the call itself raises (connection refused,
    timeout), or a response comes back with a status code and a body on
    which [.json()] either decodes or raises. *)
Inductive http_result : Type :=
| ConnectionFailed : http_result
| Response : Z -> option json -> http_result.

(** [requests.get(url, headers=HEADERS, timeout=...)] seen from the
    caller: the status code and the body, or the exception. *)
Definition requests_get (r : http_result) : outcome (Z * option json) :=
  match r with
  | ConnectionFailed => Raised PyRequestException
  | Response status body => Returned (status, body)
  end.

(** [resp.json()] *)
Definition resp_json (body : option json) : outcome json :=
  match body with
  | Some v => Returned v
  | None => Raised PyJSONDecodeError
  end.

(** [v[0]] *)
Definition index0 (v : json) : outcome json :=
  match v with
  | JArr (x :: _) => Returned x
  | JArr [] => Raised PyIndexError
  | JObj _ => Raised PyKeyError
  | JStr (String c _) => Returned (JStr (String c EmptyString))
  | _ => Raised PyTypeError
  end.

(** [row[k]] *)
Definition getitem (row : json) (k : string) : outcome json :=
  match row with
  | JObj l => match assoc_get k l with
              | Some v => Returned v
              | None => Raised PyKeyError
              end
  | _ => Raised PyTypeError
  end.

(** [row.get(k)] *)
Definition dict_get (row : json) (k : string) : outcome json :=
  match row with
  | JObj l => match assoc_get k l with
              | Some v => Returned v
              | None => Returned JNull
              end
  | _ => Raised PyAttributeError
  end.

(** The idiom shared by every lookup of the two services:
    [if resp.status_code == 200 and resp.json(): row = resp.json()[0]].
    [Returned None] is the branch not taken. *)
Definition first_row (status : Z) (body : option json)
  : outcome (option json) :=
  if Z.eqb status 200 then
    v <- resp_json body ;;
    if truthy v then
      r <- index0 v ;; Returned (Some r)
    else Returned None
  else Returned None.

(** ** Text helpers *)

(** [c.lower()] on the ASCII range. *)
Definition lower_ascii (c : ascii) : ascii :=
  let n := nat_of_ascii c in
  if (65 <=? n)%nat && (n <=? 90)%nat then ascii_of_nat (n + 32) else c.

(** [s.lower()] *)
Fixpoint lower (s : string) : string :=
  match s with
  | EmptyString => EmptyString
  | String c r => String (lower_ascii c) (lower r)
  end.

(** [needle in hay] *)
Fixpoint contains (needle hay : string) : bool :=
  if String.prefix needle hay then true
  else match hay with
       | EmptyString => false
       | String _ r => contains needle r
       end.

(** ** gemini_service.py *)

(** [app.core.config.Settings], the two fields read here.  Both are
    declared [str] with defaults, so an unset key is the empty string. *)
Record Settings : Type := mkSettings {
  GEMINI_API_KEY : string;
  GEMINI_MODEL : string
}.

(** [get_user_gemini_key]: the row filter ([is_active=eq.true]) is part of
    the query, so the answer holds active keys only.  [JNull] stands for
    Python's [None].  Every exception is swallowed. *)
Definition get_user_gemini_key (answer : http_result) : json :=
  let body :=
    resp <- requests_get answer ;;
    row <- first_row (fst resp) (snd resp) ;;
    match row with
    | Some r => dict_get r "api_key_encrypted"
    | None => Returned JNull
    end in
  match body with
  | Returned encrypted_key => encrypted_key
  | Raised _ => JNull
  end.

Definition no_key_message : string :=
  "No API key available. Please add your Gemini API key in settings.".

(** [get_api_key_for_user]: returns [(api_key, source)]. *)
Definition get_api_key_for_user (settings : Settings) (answer : http_result)
  : outcome (json * string) :=
  let user_key := get_user_gemini_key answer in
  if truthy user_key then Returned (user_key, "user")
  else if str_truthy (GEMINI_API_KEY settings) then
    Returned (JStr (GEMINI_API_KEY settings), "system")
  else Raised (PyValueError no_key_message).

(** What [model.generate_content(...)] followed by [response.text] gives:
    the text, or an exception of which the code only reads [str(e)]. *)
Inductive gen_outcome : Type :=
| GenText : string -> gen_outcome
| GenRaises : string -> gen_outcome.

(** Outcome of the [try] block of [analyze_skill_gap]: the analysis, or
    [error_msg = str(e)] of whatever was raised inside. *)
Inductive try_result : Type :=
| TryOk : json -> try_result
| TryFailed : string -> try_result.

(** [str(e)] of the [TypeError] of [analysis["api_key_source"] = ...] when
    [json.loads] gave something that is not a dict. *)
Definition setitem_error (v : json) : string :=
  match v with
  | JNull => "'NoneType' object does not support item assignment"
  | JBool _ => "'bool' object does not support item assignment"
  | JNum _ => "'int' object does not support item assignment"
  | JStr _ => "'str' object does not support item assignment"
  | JArr _ => "list indices must be integers or slices, not str"
  | JObj _ => ""
  end.

(** [analysis[k] = v] *)
Definition setitem (analysis : json) (k : string) (v : json) : try_result :=
  match analysis with
  | JObj l => TryOk (JObj (assoc_set k v l))
  | other => TryFailed (setitem_error other)
  end.

(** The quota test of the handler:
    ["quota" in error_msg.lower() or "limit" in error_msg.lower()]. *)
Definition is_quota_error (error_msg : string) : bool :=
  contains "quota" (lower error_msg) || contains "limit" (lower error_msg).

Definition failure_prefix : string := "Gemini analysis failed: ".

(** The process-wide state the function touches: how many key lookups
    were sent, the key last given to [genai.configure], and the key in
    force at each [generate_content] call so far, oldest first. *)
Record genai_state : Type := mkState {
  lookups : nat;
  configured : option json;
  calls : list json
}.

Definition initial_state : genai_state := mkState 0 None [].

(** [genai.configure(api_key=k)] *)
Definition configure (k : json) (st : genai_state) : genai_state :=
  mkState (lookups st) (Some k) (calls st).

(** A run either finishes (returning or raising) or is cut by the
    recursion budget of the model. *)
Inductive run (A : Type) : Type :=
| Done : outcome A -> genai_state -> run A
| OutOfFuel : genai_state -> run A.
Arguments Done {A} _ _.
Arguments OutOfFuel {A} _.

Section AnalyzeSkillGap.

(** [json.loads]: [None] is [JSONDecodeError]. *)
Variable json_loads : string -> option json.
Variable settings : Settings.
(** Answer of the key store to the n-th lookup of this run. *)
Variable user_api_keys : nat -> http_result.
(** Behaviour of the n-th model call under the key then configured. *)
Variable generate_content : nat -> option json -> gen_outcome.

(** Lines 221-248: the body of the [try]. *)
Definition try_block (key_source : string) (st : genai_state)
  : try_result :=
  match generate_content (List.length (calls st)) (configured st) with
  | GenRaises error_msg => TryFailed error_msg
  | GenText analysis_text =>
      let analysis :=
        match json_loads analysis_text with
        | Some v => v
        | None => JObj [("raw_analysis", JStr analysis_text);
                        ("parse_error", JBool true)]
        end in
      match setitem analysis "api_key_source" (JStr key_source) with
      | TryFailed m => TryFailed m
      | TryOk a1 => setitem a1 "model_used" (JStr (GEMINI_MODEL settings))
      end
  end.

(** The state after the model call of the [try] block. *)
Definition after_call (st : genai_state) : genai_state :=
  mkState (lookups st) (configured st)
          (calls st ++ [match configured st with
                        | Some k => k
                        | None => JNull
                        end]).

(** [analyze_skill_gap].  [fuel] bounds the depth of the recursion of
    line 260; the prompt is built from the arguments and does not
    change between the recursive calls, so it is left in the oracle.
    The function is followed from the resolution of line 72 to the
    model call and its handler: creating the client and building the
    prompt (lines 75-219, outside the [try]) are taken to succeed, and
    the statements below say so by speaking of the model call having
    been reached.  [OutOfFuel] is the recursion going on beyond the
    budget given; the interpreter has a budget of its own, whose
    [RecursionError] is not followed here. *)
Fixpoint analyze_skill_gap (fuel : nat) (st : genai_state) : run json :=
  match fuel with
  | O => OutOfFuel st
  | S fuel' =>
      let st0 := mkState (S (lookups st)) (configured st) (calls st) in
      match get_api_key_for_user settings (user_api_keys (lookups st)) with
      | Raised e => Done (Raised e) st0
      | Returned (api_key, key_source) =>
          let st1 := configure api_key st0 in
          let st2 := after_call st1 in
          match try_block key_source st1 with
          | TryOk analysis => Done (Returned analysis) st2
          | TryFailed error_msg =>
              if is_quota_error error_msg then
                if String.eqb key_source "user"
                   && str_truthy (GEMINI_API_KEY settings) then
                  analyze_skill_gap fuel'
                    (configure (JStr (GEMINI_API_KEY settings)) st2)
                else
                  Done (Raised (PyException (failure_prefix ++ error_msg)))
                       st2
              else
                Done (Raised (PyException (failure_prefix ++ error_msg)))
                     st2
          end
      end
  end.

End AnalyzeSkillGap.

(** ** data_service.py *)

(** A [datetime] value: the wall-clock reading in microseconds since
    0001-01-01T00:00:00, and the UTC offset in microseconds when the
    value is timezone-aware ([None]: naive). *)
Record datetime : Type := mkDatetime {
  wall_us : Z;
  utcoffset : option Z
}.

(** [a > b] on datetimes: aware values are compared as instants, naive
    ones by wall clock, and mixing the two raises [TypeError]. *)
Definition dt_gt (a b : datetime) : outcome bool :=
  match utcoffset a, utcoffset b with
  | None, None => Returned (wall_us a >? wall_us b)%Z
  | Some oa, Some ob => Returned (wall_us a - oa >? wall_us b - ob)%Z
  | _, _ => Raised PyTypeError
  end.

(** [s.replace('Z', '+00:00')] *)
Fixpoint replace_Z (s : string) : string :=
  match s with
  | EmptyString => EmptyString
  | String c r =>
      if Ascii.eqb c "Z"%char then "+00:00" ++ replace_Z r
      else String c (replace_Z r)
  end.

Section CheckIfAnalysisNeeded.

(** [datetime.fromisoformat]; it raises [ValueError] on text it does
    not accept. *)
Variable fromisoformat : string -> outcome datetime.

(** Steps 2 and 3 of [check_if_analysis_needed] are the same block run
    on two tables: [Returned true] is the early [return True] of the
    block, [Returned false] is falling through to the next step. *)
Definition newer_than_last_analysis (answer : http_result)
    (field : string) (last_analysis_dt : datetime) : outcome bool :=
  resp <- requests_get answer ;;
  row <- first_row (fst resp) (snd resp) ;;
  match row with
  | None => Returned false
  | Some r =>
      stamp <- dict_get r field ;;
      if truthy stamp then
        match stamp with
        | JStr s =>
            stamp_dt <- fromisoformat (replace_Z s) ;;
            dt_gt stamp_dt last_analysis_dt
        | _ => Raised PyAttributeError
        end
      else Returned false
  end.

(** Lines 222-261: the body of the [try]. *)
Definition check_if_analysis_needed_body
    (analyses profiles github_connections : http_result) : outcome bool :=
  resp <- requests_get analyses ;;
  row <- first_row (fst resp) (snd resp) ;;
  last_analysis <- match row with
                   | Some r => getitem r "analyzed_at"
                   | None => Returned JNull
                   end ;;
  if negb (truthy last_analysis) then Returned true
  else
    match last_analysis with
    | JStr s =>
        last_analysis_dt <- fromisoformat (replace_Z s) ;;
        resume <- newer_than_last_analysis profiles "resume_uploaded_at"
                    last_analysis_dt ;;
        if resume then Returned true
        else
          sync <- newer_than_last_analysis github_connections
                    "last_sync_at" last_analysis_dt ;;
          if sync then Returned true else Returned false
    | _ => Returned true
    end.

(** [check_if_analysis_needed]: the three arguments are what the store
    answers to the three queries for this user.  [except Exception]
    turns every exception of the body into [return True]. *)
Definition check_if_analysis_needed
    (analyses profiles github_connections : http_result) : outcome bool :=
  match check_if_analysis_needed_body analyses profiles
          github_connections with
  | Returned b => Returned b
  | Raised _ => Returned true
  end.

End CheckIfAnalysisNeeded.

(** ** A reader for fixed-width ISO timestamps

    [YYYY-MM-DDTHH:MM:SS], optionally followed by [+HH:MM] or [-HH:MM]:
    the forms the store emits once the fraction is dropped.  It is used to
    run the model on examples; the theorems below hold for any reader. *)
Module Iso.

Definition digit (c : ascii) : option Z :=
  let n := nat_of_ascii c in
  if (48 <=? n)%nat && (n <=? 57)%nat then Some (Z.of_nat (n - 48))
  else None.

Fixpoint digits (n : nat) (acc : Z) (s : string) : option (Z * string) :=
  match n with
  | O => Some (acc, s)
  | S n' =>
      match s with
      | String c r =>
          match digit c with
          | Some d => digits n' (10 * acc + d)%Z r
          | None => None
          end
      | EmptyString => None
      end
  end.

Definition expect (c : ascii) (s : string) : option string :=
  match s with
  | String c' r => if Ascii.eqb c c' then Some r else None
  | EmptyString => None
  end.

Definition is_leap (y : Z) : bool :=
  ((y mod 4 =? 0) && negb (y mod 100 =? 0) || (y mod 400 =? 0))%Z.

Definition days_in_month (y m : Z) : Z :=
  if (m =? 2)%Z then (if is_leap y then 29 else 28)%Z
  else if ((m =? 4) || (m =? 6) || (m =? 9) || (m =? 11))%Z then 30%Z
  else 31%Z.

(** Days from 0001-01-01 to the given date of the proleptic Gregorian
    calendar. *)
Definition days_from_civil (y m d : Z) : Z :=
  let y' := (if m <=? 2 then y - 1 else y)%Z in
  let era := (y' / 400)%Z in
  let yoe := (y' - era * 400)%Z in
  let mp := ((m + 9) mod 12)%Z in
  let doy := ((153 * mp + 2) / 5 + d - 1)%Z in
  let doe := (yoe * 365 + yoe / 4 - yoe / 100 + doy)%Z in
  (era * 146097 + doe - 306)%Z.

Notation "' p <- c ;;; k" :=
  (match c with Some p => k | None => None end)
  (at level 61, p pattern, c at next level, right associativity).

Definition parse_offset (s : string) : option (option Z) :=
  match s with
  | EmptyString => Some None
  | String sign r =>
      ' (hh, r1) <- digits 2 0 r ;;;
      ' r2 <- expect ":" r1 ;;;
      ' (mm, r3) <- digits 2 0 r2 ;;;
      let off := ((hh * 3600 + mm * 60) * 1000000)%Z in
      match r3 with
      | EmptyString =>
          if (hh <=? 23)%Z && (mm <=? 59)%Z then
            if Ascii.eqb sign "+" then Some (Some off)
            else if Ascii.eqb sign "-" then Some (Some (- off)%Z)
            else None
          else None
      | String _ _ => None
      end
  end.

Definition parse (s : string) : option datetime :=
  ' (y, s1) <- digits 4 0 s ;;;
  ' s2 <- expect "-" s1 ;;;
  ' (m, s3) <- digits 2 0 s2 ;;;
  ' s4 <- expect "-" s3 ;;;
  ' (d, s5) <- digits 2 0 s4 ;;;
  ' s6 <- expect "T" s5 ;;;
  ' (hh, s7) <- digits 2 0 s6 ;;;
  ' s8 <- expect ":" s7 ;;;
  ' (mi, s9) <- digits 2 0 s8 ;;;
  ' s10 <- expect ":" s9 ;;;
  ' (ss, s11) <- digits 2 0 s10 ;;;
  ' off <- parse_offset s11 ;;;
  if ((1 <=? y) && (1 <=? m) && (m <=? 12) && (1 <=? d)
      && (d <=? days_in_month y m)
      && (hh <=? 23) && (mi <=? 59) && (ss <=? 59))%Z then
    Some (mkDatetime
            ((((days_from_civil y m d * 24 + hh) * 60 + mi) * 60 + ss)
             * 1000000)%Z off)
  else None.

Definition invalid_isoformat : string := "Invalid isoformat string".

Definition fromisoformat (s : string) : outcome datetime :=
  match parse s with
  | Some dt => Returned dt
  | None => Raised (PyValueError invalid_isoformat)
  end.

End Iso.

(** ** Vocabulary of the statements *)

(** The class of an exception, which is all an [except] clause of a
    caller can select on. *)
Inductive exn_class : Type :=
| ValueError | GenericException | RequestException | JSONDecodeError
| KeyError | IndexError | TypeError | AttributeError.

Definition class_of (e : exn) : exn_class :=
  match e with
  | PyValueError _ => ValueError
  | PyException _ => GenericException
  | PyRequestException => RequestException
  | PyJSONDecodeError => JSONDecodeError
  | PyKeyError => KeyError
  | PyIndexError => IndexError
  | PyTypeError => TypeError
  | PyAttributeError => AttributeError
  end.

(** [str(e)] of what a finished run raised, if it raised one of the two
    exceptions that carry a message. *)
Definition raised_message (r : run json) : option string :=
  match r with
  | Done (Raised (PyValueError m)) _ => Some m
  | Done (Raised (PyException m)) _ => Some m
  | _ => None
  end.

Definition raised_class (r : run json) : option exn_class :=
  match r with
  | Done (Raised e) _ => Some (class_of e)
  | _ => None
  end.

(** The condition under which the handler of [analyze_skill_gap] calls
    the function again instead of raising. *)
Definition retried (settings : Settings) (error_msg key_source : string)
  : bool :=
  is_quota_error error_msg
  && (String.eqb key_source "user" && str_truthy (GEMINI_API_KEY settings)).

(** Number of model calls made by the end of a run. *)
Definition invocations (r : run json) : nat :=
  match r with
  | Done _ st => List.length (calls st)
  | OutOfFuel st => List.length (calls st)
  end.

(** [a == b] on datetimes: a naive and an aware value are never equal. *)
Definition dt_eqb (a b : datetime) : bool :=
  match utcoffset a, utcoffset b with
  | None, None => (wall_us a =? wall_us b)%Z
  | Some oa, Some ob => (wall_us a - oa =? wall_us b - ob)%Z
  | _, _ => false
  end.

(** A change-signal lookup that yields no timestamp without raising: a
    status other than 200, an empty result list, or a first row whose
    field is null or missing. *)
Inductive no_stamp (field : string) : http_result -> Prop :=
| no_stamp_status : forall status body,
    status <> 200%Z -> no_stamp field (Response status body)
| no_stamp_empty : no_stamp field (Response 200 (Some (JArr [])))
| no_stamp_null : forall row rest,
    assoc_get field row = Some JNull \/ assoc_get field row = None ->
    no_stamp field (Response 200 (Some (JArr (JObj row :: rest)))).

(** A lookup answered with rows, the first of which carries the
    non-empty text [s] in [field]. *)
Definition has_text (field s : string) (answer : http_result) : Prop :=
  exists row rest,
    answer = Response 200 (Some (JArr (JObj row :: rest)))
    /\ assoc_get field row = Some (JStr s) /\ s <> "".

(** A change signal that is absent or ties with the last analysis. *)
Definition absent_or_tie (fromisoformat : string -> outcome datetime)
    (field : string) (last_analysis_dt : datetime) (answer : http_result)
  : Prop :=
  no_stamp field answer
  \/ exists s dt, has_text field s answer
                  /\ fromisoformat (replace_Z s) = Returned dt
                  /\ dt_eqb dt last_analysis_dt = true.

(** Steps 2 and 3 of [check_if_analysis_needed] once the time of the last
    analysis is known: what is left of the body after line 235. *)
Definition change_steps (fromisoformat : string -> outcome datetime)
    (profiles github_connections : http_result) (last : datetime)
  : outcome bool :=
  resume <- newer_than_last_analysis fromisoformat profiles
              "resume_uploaded_at" last ;;
  if resume then Returned true
  else
    sync <- newer_than_last_analysis fromisoformat github_connections
              "last_sync_at" last ;;
    if sync then Returned true else Returned false.

(** A retrieval that fails: the request raises, the body of a 200 answer
    does not decode, or the timestamp text is rejected by the reader. *)
Definition retrieval_failure (fromisoformat : string -> outcome datetime)
    (field : string) (answer : http_result) : Prop :=
  answer = ConnectionFailed
  \/ answer = Response 200 None
  \/ exists s e, has_text field s answer
                 /\ fromisoformat (replace_Z s) = Raised e.

(** [not s.strip()]: the text is empty or white space only. *)
Definition is_space (c : ascii) : bool :=
  let n := nat_of_ascii c in
  (n =? 32)%nat || ((9 <=? n)%nat && (n <=? 13)%nat).

Fixpoint is_blank (s : string) : bool :=
  match s with
  | EmptyString => true
  | String c r => is_space c && is_blank r
  end.

(** ** Inputs used to run the model *)
Module Sample.

Definition json_loads (s : string) : option json :=
  if String.eqb s "{}" then Some (JObj []) else None.

Definition both_keys : Settings := mkSettings "system-key" "gemini-1.5-pro".
Definition no_system_key : Settings := mkSettings "" "gemini-1.5-pro".

(** One row of a table with a single text column. *)
Definition one_row (field value : string) : http_result :=
  Response 200 (Some (JArr [JObj [(field, JStr value)]])).

Definition no_rows : http_result := Response 200 (Some (JArr [])).

(** The key store keeps answering with the user's active key. *)
Definition user_key_stored (n : nat) : http_result :=
  one_row "api_key_encrypted" "user-key".

(** The key store has no key for the user. *)
Definition no_user_key (n : nat) : http_result := no_rows.

(** The user's key is found by the first lookup only; the second one
    times out. *)
Definition user_key_then_timeout (n : nat) : http_result :=
  match n with
  | O => one_row "api_key_encrypted" "user-key"
  | S _ => ConnectionFailed
  end.

Definition quota_message : string := "429 Quota exceeded for this key".
Definition upstream_message : string := "500 internal error".

(** The model rejects the first call for quota, then answers. *)
Definition quota_then_ok (n : nat) (k : option json) : gen_outcome :=
  match n with
  | O => GenRaises quota_message
  | S _ => GenText "{}"
  end.

Definition always_quota (n : nat) (k : option json) : gen_outcome :=
  GenRaises quota_message.

Definition always_upstream (n : nat) (k : option json) : gen_outcome :=
  GenRaises upstream_message.

(** The user's key is out of quota, any other key is served. *)
Definition quota_for_user_key (n : nat) (k : option json) : gen_outcome :=
  match k with
  | Some (JStr key) =>
      if String.eqb key "user-key" then GenRaises quota_message
      else GenText "{}"
  | _ => GenText "{}"
  end.

(** Quota on the user's call, an unrelated failure on the next one. *)
Definition quota_then_upstream (n : nat) (k : option json) : gen_outcome :=
  match n with
  | O => GenRaises quota_message
  | S _ => GenRaises upstream_message
  end.

(** The text of a rejected request, which is not about quota: the
    prompt is too large. *)
Definition payload_message : string :=
  "400 Request payload size exceeds the limit: 20971520 bytes.".

(** The first call is rejected for its size, the next one is answered. *)
Definition payload_then_ok (n : nat) (k : option json) : gen_outcome :=
  match n with
  | O => GenRaises payload_message
  | S _ => GenText "{}"
  end.

End Sample.

(** * The rest of data_service.py *)

(** ** More of Python *)

(** A text is held as the bytes of its UTF-8 encoding, which is how a
    literal of this file is read; Python counts and cuts a [str] by
    character.  A character is one leading byte followed by its
    continuation bytes, the bytes [10xxxxxx]. *)
Definition is_continuation (c : ascii) : bool :=
  let n := nat_of_ascii c in ((128 <=? n)%nat && (n <? 192)%nat)%bool.

(** [len(s)] on a text: the number of characters. *)
Fixpoint str_len (s : string) : nat :=
  match s with
  | EmptyString => 0
  | String c r => if is_continuation c then str_len r else S (str_len r)
  end.

(** [sep.join(parts)] *)
Definition join (sep : string) (parts : list string) : string :=
  String.concat sep parts.

(** [s[:n]]: the first [n] characters, each with its continuation
    bytes. *)
Fixpoint str_prefix (n : nat) (s : string) : string :=
  match s with
  | EmptyString => EmptyString
  | String c r =>
      if is_continuation c then String c (str_prefix n r)
      else match n with
           | O => EmptyString
           | S n' => String c (str_prefix n' r)
           end
  end.

(** The characters of a text, as [for c in s] yields them: the first
    component holds the continuation bytes met before the first leading
    byte. *)
Fixpoint str_chars_from (s : string) : string * list string :=
  match s with
  | EmptyString => (EmptyString, [])
  | String c r =>
      let (k, l) := str_chars_from r in
      if is_continuation c then (String c k, l)
      else (EmptyString, String c k :: l)
  end.

Definition str_chars (s : string) : list string :=
  match str_chars_from s with
  | (EmptyString, l) => l
  | (k, l) => k :: l
  end.

(** What a [for] loop or a comprehension walks over: the items of a
    list, the keys of a dict, the characters of a text; anything else is
    not iterable. *)
Definition py_iter (v : json) : outcome (list json) :=
  match v with
  | JArr l => Returned l
  | JObj l => Returned (List.map (fun kv => JStr (fst kv)) l)
  | JStr s => Returned (List.map JStr (str_chars s))
  | _ => Raised PyTypeError
  end.

(** [row.get(k, default)] *)
Definition dict_get_default (row : json) (k : string) (default : json)
  : outcome json :=
  match row with
  | JObj l => match assoc_get k l with
              | Some v => Returned v
              | None => Returned default
              end
  | _ => Raised PyAttributeError
  end.

(** [[f(x) for x in l]]: the first exception ends the comprehension. *)
Fixpoint map_outcome {A B : Type} (f : A -> outcome B) (l : list A)
  : outcome (list B) :=
  match l with
  | [] => Returned []
  | x :: r => y <- f x ;; ys <- map_outcome f r ;; Returned (y :: ys)
  end.

(** [status in [200, 201]] *)
Definition ok_or_created (status : Z) : bool :=
  (Z.eqb status 200 || Z.eqb status 201)%bool.

(** [requests.post], [requests.patch] and [requests.delete] seen from the
    caller, like [requests.get]. *)
Definition requests_send (r : http_result) : outcome (Z * option json) :=
  requests_get r.

(** The idiom of the two [store_*] functions:
    [if response.status_code in [200, 201] and response.json():
         return response.json()[0].get("id", "")]
    and [return ""] otherwise. *)
Definition stored_id (status : Z) (body : option json) : outcome json :=
  if ok_or_created status then
    v <- resp_json body ;;
    if truthy v then
      r <- index0 v ;; dict_get_default r "id" (JStr "")
    else Returned (JStr "")
  else Returned (JStr "").

(** A request that changes the store, as sent. *)
Inductive store_request : Type :=
| DeleteRows : string -> string -> store_request
| PostRow : string -> list (string * json) -> store_request
| PatchRow : string -> json -> list (string * json) -> store_request.

(** ** The fetchers *)

(** [get_user_profile]: the first row, or the empty dict. *)
Definition get_user_profile (answer : http_result) : outcome json :=
  resp <- requests_get answer ;;
  row <- first_row (fst resp) (snd resp) ;;
  match row with
  | Some r => Returned r
  | None => Returned (JObj [])
  end.

(** [get_user_preferred_roles]: the list of role names, in the order
    of the answer. *)
Definition get_user_preferred_roles (answer : http_result)
  : outcome (list json) :=
  resp <- requests_get answer ;;
  if Z.eqb (fst resp) 200 then
    v <- resp_json (snd resp) ;;
    if truthy v then
      rows <- py_iter v ;;
      map_outcome (fun r => getitem r "role_name") rows
    else Returned []
  else Returned [].

(** [get_user_skills], [get_skill_trends], [get_recent_jobs],
    [get_recent_discussions] and [get_all_users_for_cron] share one
    body: the decoded payload of a 200 answer, or the empty list. *)
Definition fetch_list (answer : http_result) : outcome json :=
  resp <- requests_get answer ;;
  if Z.eqb (fst resp) 200 then resp_json (snd resp)
  else Returned (JArr []).

Definition get_user_skills := fetch_list.
Definition get_skill_trends := fetch_list.
Definition get_recent_jobs := fetch_list.
Definition get_recent_discussions := fetch_list.
Definition get_all_users_for_cron := fetch_list.

(** ** set_preferred_roles *)

(** [str.strip] on ASCII text, where it is what Python computes; with
    [lower] it serves to run the functions below on such text. *)
Module AsciiText.

Definition isspace (c : ascii) : bool :=
  let n := nat_of_ascii c in
  (n =? 32)%nat || ((9 <=? n)%nat && (n <=? 13)%nat)
  || ((28 <=? n)%nat && (n <=? 31)%nat).

Fixpoint lstrip (s : string) : string :=
  match s with
  | EmptyString => EmptyString
  | String c r => if isspace c then lstrip r else s
  end.

Fixpoint rstrip (s : string) : string :=
  match s with
  | EmptyString => EmptyString
  | String c r =>
      match rstrip r with
      | EmptyString => if isspace c then EmptyString
                       else String c EmptyString
      | String c' r' => String c (String c' r')
      end
  end.

Definition strip (s : string) : string := rstrip (lstrip s).

End AsciiText.

Section SetPreferredRoles.

(** [s.lower()] and [s.strip()] of Python's [str], which follow the
    Unicode tables: they are taken as they are. *)
Variable str_lower : string -> string.
Variable str_strip : string -> string.

(** The dict of line 164. *)
Definition role_data (user_id role : string) (i : nat)
  : list (string * json) :=
  [("user_id", JStr user_id);
   ("role_name", JStr role);
   ("role_name_normalized", JStr (str_strip (str_lower role)));
   ("priority", JNum (Z.of_nat i))].

(** The loop of lines 163-173, from priority [i] on, with the roles
    inserted so far and the requests sent so far. *)
Fixpoint insert_roles (post : list (string * json) -> http_result)
    (user_id : string) (i : nat) (roles : list string)
    (inserted : list string) (sent : list store_request)
  : outcome (list string) * list store_request :=
  match roles with
  | [] => (Returned inserted, sent)
  | role :: rest =>
      let row := role_data user_id role i in
      let sent' := (sent ++ [PostRow "user_preferred_roles" row])%list in
      match requests_send (post row) with
      | Raised e => (Raised e, sent')
      | Returned response =>
          insert_roles post user_id (S i) rest
            (if ok_or_created (fst response)
             then (inserted ++ [role])%list else inserted)
            sent'
      end
  end.

(** The dict returned by [set_preferred_roles]. *)
Record roles_result : Type := mkRolesResult {
  inserted : list string;
  count : nat
}.

(** [set_preferred_roles]: [delete] is the store's answer to the delete,
    [post] its answer to the insertion of a row.  The second component
    is the list of requests sent, in order. *)
Definition set_preferred_roles (delete : http_result)
    (post : list (string * json) -> http_result)
    (user_id : string) (roles : list string)
  : outcome roles_result * list store_request :=
  let sent := [DeleteRows "user_preferred_roles" user_id] in
  match requests_send delete with
  | Raised e => (Raised e, sent)
  | Returned _ =>
      match insert_roles post user_id 1 (firstn 3 roles) [] sent with
      | (Returned done, sent') =>
          (Returned (mkRolesResult done (List.length done)), sent')
      | (Raised e, sent') => (Raised e, sent')
      end
  end.

End SetPreferredRoles.

(** ** save_user_api_key *)

(** Line 185: [api_key[:8] + "..." if len(api_key) > 8 else api_key]. *)
Definition key_prefix (api_key : string) : string :=
  if (8 <? str_len api_key)%nat then str_prefix 8 api_key ++ "..."
  else api_key.

(** The dict returned by [save_user_api_key]. *)
Record save_result : Type := mkSaveResult {
  save_status : string;
  save_prefix : string
}.

Section SaveUserApiKey.

(** [hashlib.sha256(s.encode()).hexdigest()] *)
Variable sha256_hexdigest : string -> string.

(** The dict of line 191. *)
Definition key_data (user_id api_key : string) : list (string * json) :=
  [("user_id", JStr user_id);
   ("provider", JStr "google_ai_studio");
   ("api_key_hash", JStr (sha256_hexdigest api_key));
   ("api_key_encrypted", JStr api_key);
   ("api_key_prefix", JStr (key_prefix api_key));
   ("is_active", JBool true)].

(** [save_user_api_key]: [existing] is the store's answer to the lookup
    of line 189, [write] its answer to the patch or post that follows
    (only whether it raises matters: the response is not read). *)
Definition save_user_api_key (existing write : http_result)
    (user_id api_key : string)
  : outcome save_result * list store_request :=
  match (resp <- requests_get existing ;;
         first_row (fst resp) (snd resp)) with
  | Raised e => (Raised e, [])
  | Returned (Some row) =>
      match getitem row "id" with
      | Raised e => (Raised e, [])
      | Returned key_id =>
          let sent := [PatchRow "user_api_keys" key_id
                         (key_data user_id api_key)] in
          match requests_send write with
          | Raised e => (Raised e, sent)
          | Returned _ =>
              (Returned (mkSaveResult "updated" (key_prefix api_key)), sent)
          end
      end
  | Returned None =>
      let sent := [PostRow "user_api_keys" (key_data user_id api_key)] in
      match requests_send write with
      | Raised e => (Raised e, sent)
      | Returned _ =>
          (Returned (mkSaveResult "created" (key_prefix api_key)), sent)
      end
  end.

End SaveUserApiKey.

(** ** store_analysis_result and store_report_record *)

(** [sep.join(parts)] on decoded values: anything that is not text
    raises [TypeError]. *)
Fixpoint texts (parts : list json) : outcome (list string) :=
  match parts with
  | [] => Returned []
  | JStr s :: r => ss <- texts r ;; Returned (s :: ss)
  | _ :: _ => Raised PyTypeError
  end.

Definition py_join (sep : string) (parts : list json) : outcome string :=
  ss <- texts parts ;; Returned (join sep ss).

(** The dict of line 84, its values computed in the order written.
    [now_iso] is [datetime.now(timezone.utc).isoformat()]. *)
Definition analysis_data (user_id : json) (preferred_roles : list json)
    (analysis : json) (now_iso : string) : outcome (list (string * json)) :=
  target_job_title <- py_join ", " preferred_roles ;;
  model_version <- dict_get_default analysis "model_used"
                     (JStr "gemini-2.5-pro") ;;
  gap_percentage <- dict_get_default analysis "overall_gap_percentage"
                      (JNum 0) ;;
  role_fit_score <- dict_get_default analysis "overall_fit_score" (JNum 0) ;;
  assessment <- dict_get_default analysis "skill_assessment" (JObj []) ;;
  matched_skills <- dict_get_default assessment "strong_skills" (JArr []) ;;
  critical <- dict_get_default analysis "critical_missing_skills" (JArr []) ;;
  items <- py_iter critical ;;
  missing_skills <- map_outcome (fun s => dict_get s "skill") items ;;
  assessment' <- dict_get_default analysis "skill_assessment" (JObj []) ;;
  partial_skills <- dict_get_default assessment' "needs_improvement"
                      (JArr []) ;;
  recommendations <- dict_get_default analysis "recommendations" (JObj []) ;;
  scores <- dict_get analysis "competitiveness_scores" ;;
  market_demand_score <-
    (if truthy scores then
       scores' <- dict_get_default analysis "competitiveness_scores"
                    (JArr [JObj []]) ;;
       first <- index0 scores' ;;
       dict_get_default first "score" (JNum 0)
     else Returned (JNum 0)) ;;
  Returned [("user_id", user_id);
            ("target_job_title", JStr target_job_title);
            ("model_version", model_version);
            ("gap_percentage", gap_percentage);
            ("role_fit_score", role_fit_score);
            ("matched_skills", matched_skills);
            ("missing_skills", JArr missing_skills);
            ("partial_skills", partial_skills);
            ("recommendations", recommendations);
            ("market_demand_score", market_demand_score);
            ("trend_direction", JStr "stable");
            ("status", JStr "completed");
            ("analyzed_at", JStr now_iso)].

(** [store_analysis_result]: the id of the stored row, or [""]; with the
    requests sent. *)
Definition store_analysis_result (post : http_result) (user_id : json)
    (preferred_roles : list json) (analysis : json) (now_iso : string)
  : outcome json * list store_request :=
  match analysis_data user_id preferred_roles analysis now_iso with
  | Raised e => (Raised e, [])
  | Returned data =>
      let sent := [PostRow "skill_gap_analyses" data] in
      match requests_send post with
      | Raised e => (Raised e, sent)
      | Returned response =>
          (stored_id (fst response) (snd response), sent)
      end
  end.

(** The dict of line 121. *)
Definition report_data (user_id analysis_id : json)
    (report_filename report_url : string) (report_size : Z)
    (now_iso : string) : list (string * json) :=
  [("user_id", user_id);
   ("analysis_id", analysis_id);
   ("report_filename", JStr report_filename);
   ("report_url", JStr report_url);
   ("report_size_bytes", JNum report_size);
   ("report_type", JStr "skill_gap_analysis");
   ("status", JStr "generated");
   ("generated_at", JStr now_iso)].

(** [store_report_record] *)
Definition store_report_record (post : http_result)
    (user_id analysis_id : json) (report_filename report_url : string)
    (report_size : Z) (now_iso : string)
  : outcome json * list store_request :=
  let sent := [PostRow "reports"
                 (report_data user_id analysis_id report_filename
                    report_url report_size now_iso)] in
  match requests_send post with
  | Raised e => (Raised e, sent)
  | Returned response => (stored_id (fst response) (snd response), sent)
  end.

(** * pdf_service.py: the uploads *)

Definition public_report_url (supabase_url filename : string) : string :=
  supabase_url ++ "/storage/v1/object/public/reports/" ++ filename.

(** [upload_to_supabase_storage]: the public URL, or [""] when the
    storage refuses the file or the request raises. *)
Definition upload_to_supabase_storage (supabase_url filename : string)
    (answer : http_result) : string :=
  match requests_send answer with
  | Returned response =>
      if ok_or_created (fst response)
      then public_report_url supabase_url filename
      else ""
  | Raised _ => ""
  end.

(** [upload_to_s3]: [s3] is what the three boto3 calls of the [try]
    give, the presigned URL or an exception; any exception falls back to
    the storage upload. *)
Definition upload_to_s3 (s3 : outcome string)
    (supabase_url filename : string) (answer : http_result) : string :=
  match s3 with
  | Returned url => url
  | Raised _ => upload_to_supabase_storage supabase_url filename answer
  end.

(** * key_service.py *)

(** The two module globals. *)
Record key_cache : Type := mkKeyCache {
  _key_cache : list (string * json);
  _cache_timestamp : option Z
}.

(** [timedelta(minutes=5)], in microseconds. *)
Definition CACHE_DURATION : Z := 300000000.

(** [_cache_timestamp and (datetime.now() - _cache_timestamp) <
    CACHE_DURATION], clock readings in microseconds. *)
Definition cache_is_fresh (now : Z) (st : key_cache) : bool :=
  match _cache_timestamp st with
  | Some stamp => (now - stamp <? CACHE_DURATION)%Z
  | None => false
  end.

(** [a or b] *)
Definition py_or (a b : json) : json := if truthy a then a else b.

(** [clear_cache] *)
Definition clear_cache (st : key_cache) : key_cache := mkKeyCache [] None.

Section KeyService.

(** [format(v, "")], what an f-string puts for a value. *)
Variable py_format : json -> string.

(** [f"{a}_{b}"] *)
Definition key_identifier (a b : json) : string :=
  py_format a ++ "_" ++ py_format b.

(** The loop of lines 44-46 over the rows left, writing into the global
    dict: the second component is the dict as the loop leaves it, also
    when a row raises. *)
Fixpoint load_keys (rows : list json) (cache : list (string * json))
  : outcome unit * list (string * json) :=
  match rows with
  | [] => (Returned tt, cache)
  | key :: rest =>
      match (service_name <- getitem key "service_name" ;;
             key_name <- getitem key "key_name" ;;
             key_value <- getitem key "key_value" ;;
             Returned (key_identifier service_name key_name, key_value)) with
      | Raised e => (Raised e, cache)
      | Returned (identifier, key_value) =>
          load_keys rest (assoc_set identifier key_value cache)
      end
  end.

(** [_fetch_all_keys]: [now] is the clock at line 24, [now'] the clock at
    line 47, [answer] what the store would answer.  Returns the dict
    handed back, the globals afterwards, and whether a request was
    sent. *)
Definition _fetch_all_keys (now now' : Z) (answer : http_result)
    (st : key_cache) : list (string * json) * key_cache * bool :=
  if cache_is_fresh now st then (_key_cache st, st, false)
  else
    match requests_get answer with
    | Raised _ => (_key_cache st, st, true)
    | Returned response =>
        if Z.eqb (fst response) 200 then
          match resp_json (snd response) with
          | Raised _ => (_key_cache st, st, true)
          | Returned keys =>
              match py_iter keys with
              | Raised _ => ([], mkKeyCache [] (_cache_timestamp st), true)
              | Returned rows =>
                  match load_keys rows [] with
                  | (Returned _, cache) =>
                      (cache, mkKeyCache cache (Some now'), true)
                  | (Raised _, cache) =>
                      (cache, mkKeyCache cache (_cache_timestamp st), true)
                  end
              end
          end
        else (_key_cache st, st, true)
    end.

(** [get_api_key]: [keys.get(key_identifier) or fallback or ""]. *)
Definition get_api_key (now now' : Z) (answer : http_result)
    (st : key_cache) (service_name key_name : string) (fallback : json)
  : json * key_cache :=
  let '(keys, st', _) := _fetch_all_keys now now' answer st in
  let stored := match assoc_get
                        (key_identifier (JStr service_name) (JStr key_name))
                        keys with
                | Some v => v
                | None => JNull
                end in
  (py_or (py_or stored fallback) (JStr ""), st').

(** [get_gemini_key] *)
Definition get_gemini_key (now now' : Z) (answer : http_result)
    (st : key_cache) (fallback : json) : json * key_cache :=
  get_api_key now now' answer st "gemini" "GEMINI_API_KEY" fallback.

End KeyService.

(** * core/auth.py *)

(** What [jwt.decode] does with the token: the payload, or one of the
    exceptions the three handlers tell apart ([str(e)] kept where it is
    read). *)
Inductive jwt_outcome : Type :=
| JwtPayload : list (string * json) -> jwt_outcome
| JwtExpiredSignature : jwt_outcome
| JwtInvalidToken : string -> jwt_outcome
| JwtOtherError : string -> jwt_outcome.

(** [fastapi.HTTPException(status_code, detail)] *)
Inductive http_exception : Type :=
| HTTPException : Z -> string -> http_exception.

(** What can be raised inside the [try] of [verify_token]. *)
Inductive auth_raised : Type :=
| RaisedExpiredSignature : auth_raised
| RaisedInvalidToken : string -> auth_raised
| RaisedHTTPException : Z -> string -> auth_raised
| RaisedOther : string -> auth_raised.

(** The dict returned by [verify_token]. *)
Record token_data : Type := mkTokenData {
  user_id : json;
  email : json;
  role : json;
  exp : json
}.

Definition payload_get (payload : list (string * json)) (k : string)
    (default : json) : json :=
  match assoc_get k payload with
  | Some v => v
  | None => default
  end.

(** Lines 31-46: the body of the [try]. *)
Definition verify_token_body (decoded : jwt_outcome)
  : auth_raised + token_data :=
  match decoded with
  | JwtExpiredSignature => inl RaisedExpiredSignature
  | JwtInvalidToken msg => inl (RaisedInvalidToken msg)
  | JwtOtherError msg => inl (RaisedOther msg)
  | JwtPayload payload =>
      let sub := payload_get payload "sub" JNull in
      if negb (truthy sub) then
        inl (RaisedHTTPException 401 "Invalid token: no user ID")
      else
        inr (mkTokenData sub
               (payload_get payload "email" JNull)
               (payload_get payload "role" (JStr "authenticated"))
               (payload_get payload "exp" JNull))
  end.

Section VerifyToken.

(** [str(e)] of an [HTTPException] with the given status and detail. *)
Variable str_http_exception : Z -> string -> string.

(** [verify_token]: the three handlers, in order; an [HTTPException]
    raised in the body is an [Exception] and lands in the last one. *)
Definition verify_token (decoded : jwt_outcome)
  : http_exception + token_data :=
  match verify_token_body decoded with
  | inr data => inr data
  | inl RaisedExpiredSignature => inl (HTTPException 401 "Token has expired")
  | inl (RaisedInvalidToken msg) =>
      inl (HTTPException 401 ("Invalid token: " ++ msg))
  | inl (RaisedHTTPException status detail) =>
      inl (HTTPException 401
             ("Authentication failed: " ++ str_http_exception status detail))
  | inl (RaisedOther msg) =>
      inl (HTTPException 401 ("Authentication failed: " ++ msg))
  end.

(** [get_current_user_id] *)
Definition get_current_user_id (data : token_data) : json := user_id data.

End VerifyToken.

(** ** Vocabulary for key_service.py *)

(** A well-formed row of [admin_api_keys]. *)
Definition key_row (t : string * string * json) : json :=
  let '(service_name, key_name, key_value) := t in
  JObj [("service_name", JStr service_name);
        ("key_name", JStr key_name);
        ("key_value", key_value)].

(** The identifier under which a well-formed row is cached. *)
Definition row_identifier (t : string * string * json) : string :=
  let '(service_name, key_name, _) := t in service_name ++ "_" ++ key_name.

(** What caching one well-formed row does to the dict. *)
Definition cache_row (cache : list (string * json))
    (t : string * string * json) : list (string * json) :=
  assoc_set (row_identifier t) (snd t) cache.

(** The value of the last row cached under [identifier], if any. *)
Definition last_value (identifier : string)
    (rows : list (string * string * json)) : option json :=
  option_map (fun t => snd t)
    (find (fun t => String.eqb identifier (row_identifier t)) (rev rows)).

(** A row on which the loop of lines 44-46 raises: one of the three
    fields cannot be read. *)
Definition malformed_key_row (row : json) : Prop :=
  (exists e, getitem row "service_name" = Raised e)
  \/ (exists e, getitem row "key_name" = Raised e)
  \/ (exists e, getitem row "key_value" = Raised e).

(** A storage upload that is accepted. *)
Definition upload_accepted (answer : http_result) : Prop :=
  exists status payload,
    answer = Response status payload /\ ok_or_created status = true.

(** * routers/cron.py *)

(** [str(e)]: the text of the two exceptions built by this code, and
    [describe] for those raised by libraries. *)
Definition str_exn (describe : exn -> string) (e : exn) : string :=
  match e with
  | PyValueError m => m
  | PyException m => m
  | other => describe other
  end.

(** What the collaborators answer while one user is processed. *)
Record cron_world : Type := mkCronWorld {
  cw_analyses : http_result;
  cw_profiles : http_result;
  cw_github_connections : http_result;
  cw_preferred_roles : http_result;
  cw_skills : http_result;
  (** what [analyze_skill_gap] returns or raises for the user *)
  cw_analysis : outcome json;
  cw_analysis_now : string;
  cw_store_analysis : http_result;
  (** [generate_pdf_report]: it raises, or the buffer has that size *)
  cw_pdf_size : outcome Z;
  (** [datetime.now(timezone.utc).strftime("%Y%m%d_%H%M%S")] *)
  cw_timestamp : string;
  cw_upload : http_result;
  cw_report_now : string;
  cw_store_report : http_result
}.

(** An entry of [results]. *)
Inductive result_entry : Type :=
| Skipped : json -> string -> result_entry
| Succeeded : json -> json -> json -> json -> result_entry.

(** An entry of [errors]. *)
Record error_entry : Type := mkErrorEntry {
  error_user_id : json;
  error_text : string
}.

Definition is_skipped (r : result_entry) : bool :=
  match r with
  | Skipped _ _ => true
  | Succeeded _ _ _ _ => false
  end.

Definition no_new_data : string := "No new data (Resume/GitHub unchanged)".

(** The dict returned by [run_weekly_analysis] after the loop. *)
Record cron_summary : Type := mkCronSummary {
  processed : nat;
  skipped : nat;
  errors : nat;
  results : list result_entry;
  error_details : option (list error_entry)
}.

Inductive cron_response : Type :=
| NoUsersToProcess : cron_response
| Completed : cron_summary -> cron_response.

Section Cron.

Variable fromisoformat : string -> outcome datetime.
Variable py_format : json -> string.
Variable describe : exn -> string.
(** [settings.SUPABASE_URL] *)
Variable SUPABASE_URL : string.

(** [f"skill_gap_report_{user_id}_{timestamp}.pdf"] *)
Definition report_filename (user_id : json) (timestamp : string) : string :=
  "skill_gap_report_" ++ py_format user_id ++ "_" ++ timestamp ++ ".pdf".

(** Lines 53-130: the body of the [try] for one user. *)
Definition process_user (user_id : json) (w : cron_world)
  : outcome result_entry :=
  needed <- check_if_analysis_needed fromisoformat (cw_analyses w)
              (cw_profiles w) (cw_github_connections w) ;;
  if negb needed then Returned (Skipped user_id no_new_data)
  else
    preferred_roles <- get_user_preferred_roles (cw_preferred_roles w) ;;
    match preferred_roles with
    | [] => Returned (Skipped user_id "No preferred roles set")
    | _ :: _ =>
        user_skills <- get_user_skills (cw_skills w) ;;
        if negb (truthy user_skills) then
          Returned (Skipped user_id "No skills found")
        else
          analysis <- cw_analysis w ;;
          analysis_id <- fst (store_analysis_result (cw_store_analysis w)
                                user_id preferred_roles analysis
                                (cw_analysis_now w)) ;;
          pdf_size <- cw_pdf_size w ;;
          let filename := report_filename user_id (cw_timestamp w) in
          let report_url :=
            upload_to_supabase_storage SUPABASE_URL filename (cw_upload w) in
          report_id <- fst (store_report_record (cw_store_report w) user_id
                              analysis_id filename report_url pdf_size
                              (cw_report_now w)) ;;
          fit <- dict_get_default analysis "overall_fit_score" (JNum 0) ;;
          Returned (Succeeded user_id analysis_id report_id fit)
    end.

(** The [for] loop of lines 47-139 over the users left, the [i]-th user
    being processed under [world i]. *)
Fixpoint cron_loop (world : nat -> cron_world) (i : nat) (users : list json)
    (done : list result_entry) (failed : list error_entry)
  : outcome (list result_entry * list error_entry) :=
  match users with
  | [] => Returned (done, failed)
  | user :: rest =>
      user_id <- dict_get user "id" ;;
      user_name <- dict_get_default user "full_name" (JStr "User") ;;
      user_email <- dict_get_default user "email" (JStr "") ;;
      match process_user user_id (world i) with
      | Returned entry =>
          cron_loop world (S i) rest (done ++ [entry])%list failed
      | Raised e =>
          let error_msg := str_prefix 100 (str_exn describe e) in
          cron_loop world (S i) rest done
            (failed ++ [mkErrorEntry user_id error_msg])%list
      end
  end.

(** [run_weekly_analysis]: the three answers are those of the lookups
    made before the loop.  An exception that escapes is FastAPI's
    business. *)
Definition run_weekly_analysis (users_answer trends_answer
    discussions_answer : http_result) (world : nat -> cron_world)
  : outcome cron_response :=
  users <- get_all_users_for_cron users_answer ;;
  if negb (truthy users) then Returned NoUsersToProcess
  else
    skill_trends <- get_skill_trends trends_answer ;;
    recent_discussions <- get_recent_discussions discussions_answer ;;
    rows <- py_iter users ;;
    lists <- cron_loop world 0 rows [] [] ;;
    let done := fst lists in
    let failed := snd lists in
    Returned (Completed
      (mkCronSummary (List.length done)
         (List.length (List.filter is_skipped done))
         (List.length failed)
         done
         (match failed with
          | [] => None
          | _ :: _ => Some (firstn 5 failed)
          end))).

End Cron.

(** ** Inputs used to run the cron model *)
Module CronSample.

(** Never analyzed, and no preferred role on record. *)
Definition without_roles : cron_world :=
  mkCronWorld Sample.no_rows Sample.no_rows Sample.no_rows
    Sample.no_rows Sample.no_rows
    (Raised (PyValueError no_key_message)) "2024-01-07T04:00:00+00:00"
    ConnectionFailed (Raised PyTypeError) "20240107_040000"
    ConnectionFailed "2024-01-07T04:00:01+00:00" ConnectionFailed.

(** Roles and skills on record, but no key to call the model with. *)
Definition without_key : cron_world :=
  mkCronWorld Sample.no_rows Sample.no_rows Sample.no_rows
    (Sample.one_row "role_name" "SRE") (Sample.one_row "skill_name" "go")
    (Raised (PyValueError no_key_message)) "2024-01-07T04:00:00+00:00"
    ConnectionFailed (Raised PyTypeError) "20240107_040000"
    ConnectionFailed "2024-01-07T04:00:01+00:00" ConnectionFailed.

(** Everything works. *)
Definition all_fine : cron_world :=
  mkCronWorld Sample.no_rows Sample.no_rows Sample.no_rows
    (Sample.one_row "role_name" "SRE") (Sample.one_row "skill_name" "go")
    (Returned (JObj [("overall_fit_score", JNum 70);
                     ("api_key_source", JStr "system");
                     ("model_used", JStr "gemini-1.5-pro")]))
    "2024-01-07T04:00:00+00:00"
    (Response 201 (Some (JArr [JObj [("id", JStr "a1")]])))
    (Returned 20480%Z) "20240107_040000"
    (Response 200 None) "2024-01-07T04:00:01+00:00"
    (Response 201 (Some (JArr [JObj [("id", JStr "r1")]]))).

Definition world (i : nat) : cron_world :=
  match i with
  | 0 => without_roles
  | 1 => without_key
  | _ => all_fine
  end.

Definition users : json :=
  JArr [JObj [("id", JStr "u0")]; JObj [("id", JStr "u1")];
        JObj [("id", JStr "u2")]].

Definition py_format (v : json) : string :=
  match v with
  | JStr s => s
  | _ => ""
  end.

Definition describe (e : exn) : string := "".

End CronSample.

(** * routers/analysis.py *)

(** What an endpoint gives to FastAPI: a response body, an
    [HTTPException] it raised, or another exception it let escape. *)
Inductive endpoint (A : Type) : Type :=
| Respond : A -> endpoint A
| HttpError : Z -> string -> endpoint A
| Unhandled : exn -> endpoint A.
Arguments Respond {A} _.
Arguments HttpError {A} _ _.
Arguments Unhandled {A} _.

(** What can be raised inside the [try] of [generate_analysis]. *)
Inductive endpoint_raised : Type :=
| RaisedHTTP : Z -> string -> endpoint_raised
| RaisedExn : exn -> endpoint_raised.

Definition lift {A : Type} (c : outcome A) : endpoint_raised + A :=
  match c with
  | Returned a => inr a
  | Raised e => inl (RaisedExn e)
  end.

Definition ebind {A B : Type} (c : endpoint_raised + A)
    (k : A -> endpoint_raised + B) : endpoint_raised + B :=
  match c with
  | inr a => k a
  | inl r => inl r
  end.

Notation "x <~ c ;; k" := (ebind c (fun x => k))
  (at level 61, c at next level, right associativity).

(** [len(v)] *)
Definition py_len (v : json) : outcome Z :=
  match v with
  | JArr l => Returned (Z.of_nat (List.length l))
  | JObj l => Returned (Z.of_nat (List.length l))
  | JStr s => Returned (Z.of_nat (str_len s))
  | _ => Raised PyTypeError
  end.

(** ** POST /roles *)

Section SetUserPreferredRoles.

Variable str_lower : string -> string.
Variable str_strip : string -> string.

(** [set_user_preferred_roles]: [user_id] is what the token gave. *)
Definition set_user_preferred_roles (delete : http_result)
    (post : list (string * json) -> http_result)
    (user_id : string) (roles : list string)
  : endpoint roles_result * list store_request :=
  if (3 <? List.length roles)%nat then
    (HttpError 400 "Maximum 3 roles allowed", [])
  else
    match set_preferred_roles str_lower str_strip delete post user_id
            roles with
    | (Returned result, sent) => (Respond result, sent)
    | (Raised e, sent) => (Unhandled e, sent)
    end.

End SetUserPreferredRoles.

(** ** POST /api-key *)

(** The body of the response of [set_gemini_api_key]. *)
Record api_key_response : Type := mkApiKeyResponse {
  response_message : string;
  response_key_prefix : string
}.

Section SetGeminiApiKey.

Variable sha256_hexdigest : string -> string.

(** [set_gemini_api_key]: line 215 is
    [if not request.api_key or len(request.api_key) < 10]. *)
Definition set_gemini_api_key (existing write : http_result)
    (user_id api_key : string)
  : endpoint api_key_response * list store_request :=
  if negb (str_truthy api_key) || (str_len api_key <? 10)%nat then
    (HttpError 400 "Invalid API key format", [])
  else
    match save_user_api_key sha256_hexdigest existing write user_id
            api_key with
    | (Returned result, sent) =>
        (Respond (mkApiKeyResponse ("API key " ++ save_status result)
                    (save_prefix result)), sent)
    | (Raised e, sent) => (Unhandled e, sent)
    end.

End SetGeminiApiKey.

(** ** POST /generate *)

(** What the collaborators answer during one call. *)
Record analysis_world : Type := mkAnalysisWorld {
  aw_profile : http_result;
  aw_delete_roles : http_result;
  aw_post_role : list (string * json) -> http_result;
  aw_preferred_roles : http_result;
  aw_skills : http_result;
  aw_trends : http_result;
  aw_jobs : http_result;
  aw_discussions : http_result;
  (** what [analyze_skill_gap] returns or raises *)
  aw_analysis : outcome json;
  aw_analysis_now : string;
  aw_store_analysis : http_result;
  (** [generate_pdf_report]: it raises, or the buffer has that size *)
  aw_pdf_size : outcome Z;
  aw_timestamp : string;
  aw_upload : http_result;
  aw_report_now : string;
  aw_store_report : http_result
}.

(** The ["summary"] of the response. *)
Record analysis_summary : Type := mkAnalysisSummary {
  summary_fit_score : json;
  summary_gap_percentage : json;
  summary_market_readiness : json;
  summary_critical_missing_skills : Z;
  summary_api_key_source : json
}.

(** The response of [generate_analysis]. *)
Record analysis_response : Type := mkAnalysisResponse {
  response_analysis_id : json;
  response_report_id : json;
  response_report_url : string;
  response_summary : analysis_summary;
  response_analysis : json
}.

Definition no_roles_detail : string :=
  "No preferred roles set. Please set your target roles first.".
Definition no_skills_detail : string :=
  "No skills found. Please connect GitHub or upload resume first.".

Section GenerateAnalysis.

Variable str_lower : string -> string.
Variable str_strip : string -> string.
Variable describe : exn -> string.
Variable SUPABASE_URL : string.

(** Lines 71-141: the rest of the [try] once the roles are known. *)
Definition generate_analysis_steps (user_id : string) (w : analysis_world)
    (preferred_roles : list json) : endpoint_raised + analysis_response :=
  user_skills <~ lift (get_user_skills (aw_skills w)) ;;
  if negb (truthy user_skills) then inl (RaisedHTTP 400 no_skills_detail)
  else
    skill_trends <~ lift (get_skill_trends (aw_trends w)) ;;
    recent_jobs <~ lift (get_recent_jobs (aw_jobs w)) ;;
    recent_discussions <~ lift (get_recent_discussions (aw_discussions w)) ;;
    analysis <~ lift (aw_analysis w) ;;
    analysis_id <~ lift (fst (store_analysis_result (aw_store_analysis w)
                                (JStr user_id) preferred_roles analysis
                                (aw_analysis_now w))) ;;
    pdf_size <~ lift (aw_pdf_size w) ;;
    let filename :=
      "skill_gap_report_" ++ user_id ++ "_" ++ aw_timestamp w ++ ".pdf" in
    let report_url :=
      upload_to_supabase_storage SUPABASE_URL filename (aw_upload w) in
    report_id <~ lift (fst (store_report_record (aw_store_report w)
                              (JStr user_id) analysis_id filename
                              report_url pdf_size (aw_report_now w))) ;;
    fit <~ lift (dict_get_default analysis "overall_fit_score" (JNum 0)) ;;
    gap <~ lift (dict_get_default analysis "overall_gap_percentage"
                   (JNum 0)) ;;
    assessment <~ lift (dict_get_default analysis "skill_assessment"
                          (JObj [])) ;;
    readiness <~ lift (dict_get_default assessment
                         "market_readiness_score" (JNum 0)) ;;
    critical <~ lift (dict_get_default analysis "critical_missing_skills"
                        (JArr [])) ;;
    n_critical <~ lift (py_len critical) ;;
    source <~ lift (dict_get_default analysis "api_key_source"
                      (JStr "system")) ;;
    inr (mkAnalysisResponse analysis_id report_id report_url
           (mkAnalysisSummary fit gap readiness n_critical source)
           analysis).

(** Lines 50-141: the body of the [try].  [request_roles] is
    [request.preferred_roles] when there is a request, [None] otherwise. *)
Definition generate_analysis_body (request_roles : option (list string))
    (user_id : string) (w : analysis_world)
  : endpoint_raised + analysis_response :=
  profile <~ lift (get_user_profile (aw_profile w)) ;;
  if negb (truthy profile) then inl (RaisedHTTP 404 "User profile not found")
  else
    user_name <~ lift (dict_get_default profile "full_name" (JStr "User")) ;;
    user_email <~ lift (dict_get_default profile "email" (JStr "")) ;;
    preferred_roles <~
      match request_roles with
      | Some (r :: rs) =>
          let roles := firstn 3 (r :: rs) in
          saved <~ lift (fst (set_preferred_roles str_lower str_strip
                                (aw_delete_roles w) (aw_post_role w)
                                user_id roles)) ;;
          inr (List.map JStr roles)
      | _ =>
          roles <~ lift (get_user_preferred_roles (aw_preferred_roles w)) ;;
          match roles with
          | [] => inl (RaisedHTTP 400 no_roles_detail)
          | _ :: _ => inr roles
          end
      end ;;
    generate_analysis_steps user_id w preferred_roles.

(** [generate_analysis]: an [HTTPException] passes, anything else
    becomes a 500. *)
Definition generate_analysis (request_roles : option (list string))
    (user_id : string) (w : analysis_world) : endpoint analysis_response :=
  match generate_analysis_body request_roles user_id w with
  | inr response => Respond response
  | inl (RaisedHTTP status detail) => HttpError status detail
  | inl (RaisedExn e) =>
      HttpError 500 ("Analysis failed: " ++ str_exn describe e)
  end.

End GenerateAnalysis.

(** * Theorems *)

(** ** get_api_key_for_user *)

(** An active row with non-empty key text is what [get_user_gemini_key]
    returns. *)
Lemma get_user_gemini_key_active_row (row : list (string * json))
    (rest : list json) (key : string) :
  assoc_get "api_key_encrypted" row = Some (JStr key) ->
  get_user_gemini_key (Response 200 (Some (JArr (JObj row :: rest))))
  = JStr key.
Proof.
  intros Hrow. unfold get_user_gemini_key. cbn. now rewrite Hrow.
Qed.

(** A failed or empty lookup gives [None]. *)
Lemma get_user_gemini_key_swallows_errors :
  get_user_gemini_key ConnectionFailed = JNull
  /\ get_user_gemini_key (Response 200 None) = JNull
  /\ get_user_gemini_key (Response 200 (Some (JArr []))) = JNull
  /\ forall status body,
      status <> 200%Z -> get_user_gemini_key (Response status body) = JNull.
Proof.
  repeat split; try reflexivity.
  intros status body Hs. unfold get_user_gemini_key, first_row. cbn.
  apply Z.eqb_neq in Hs. now rewrite Hs.
Qed.

(** C7: when the key store answers with an active row holding a
    non-empty key, that key is returned with source "user" whatever the
    system key is; and a result with source "system" is only produced
    when the user lookup gave nothing usable, in which case it is the
    configured, non-empty system key. *)
Theorem get_api_key_for_user_prefers_user_key (settings : Settings)
    (answer : http_result) :
  (forall key, has_text "api_key_encrypted" key answer ->
     get_api_key_for_user settings answer = Returned (JStr key, "user"))
  /\ (forall k, get_api_key_for_user settings answer = Returned (k, "system") ->
        truthy (get_user_gemini_key answer) = false
        /\ k = JStr (GEMINI_API_KEY settings)
        /\ str_truthy (GEMINI_API_KEY settings) = true).
Proof.
  unfold get_api_key_for_user. split.
  - intros key [row [rest [-> [Hrow Hkey]]]].
    rewrite (get_user_gemini_key_active_row row rest key Hrow). cbn.
    destruct key; [contradiction|reflexivity].
  - intros k. destruct (truthy (get_user_gemini_key answer)).
    + intros H. inversion H.
    + destruct (str_truthy (GEMINI_API_KEY settings)).
      * intros H. inversion H. auto.
      * intros H. inversion H.
Qed.

Lemma get_api_key_for_user_prefers_user_key_witness :
  has_text "api_key_encrypted" "user-key" (Sample.user_key_stored 0)
  /\ get_api_key_for_user Sample.both_keys (Sample.user_key_stored 0)
     = Returned (JStr "user-key", "user").
Proof.
  assert (Hrow : has_text "api_key_encrypted" "user-key"
                   (Sample.user_key_stored 0)).
  { exists [("api_key_encrypted", JStr "user-key")], [].
    repeat split. discriminate. }
  split; [exact Hrow|].
  exact (proj1 (get_api_key_for_user_prefers_user_key
                  Sample.both_keys (Sample.user_key_stored 0))
           "user-key" Hrow).
Defined.

(** C8 (amended): with no usable user key and an empty system key
    ([GEMINI_API_KEY] unset, hence the empty string, or set to it) the
    resolver raises the no-key-available [ValueError]; and whatever it
    does return is truthy, so an empty key is never handed out. *)
Theorem get_api_key_for_user_no_key_raises (settings : Settings)
    (answer : http_result) :
  (truthy (get_user_gemini_key answer) = false ->
   GEMINI_API_KEY settings = "" ->
   get_api_key_for_user settings answer = Raised (PyValueError no_key_message))
  /\ (forall k source,
        get_api_key_for_user settings answer = Returned (k, source) ->
        truthy k = true /\ k <> JStr "").
Proof.
  unfold get_api_key_for_user. split.
  - intros Hu Hs. now rewrite Hu, Hs.
  - intros k source.
    destruct (truthy (get_user_gemini_key answer)) eqn:Hu.
    + intros H. inversion H. subst. split; [assumption|].
      intros Hk. rewrite Hk in Hu. discriminate.
    + destruct (str_truthy (GEMINI_API_KEY settings)) eqn:Hs.
      * intros H. inversion H. subst. split; [assumption|].
        intros Hk. inversion Hk as [Hk']. rewrite Hk' in Hs. discriminate.
      * intros H. inversion H.
Qed.

Lemma get_api_key_for_user_no_key_raises_witness :
  truthy (get_user_gemini_key Sample.no_rows) = false
  /\ GEMINI_API_KEY Sample.no_system_key = ""
  /\ get_api_key_for_user Sample.no_system_key Sample.no_rows
     = Raised (PyValueError no_key_message).
Proof.
  split; [reflexivity|]. split; [reflexivity|].
  apply (proj1 (get_api_key_for_user_no_key_raises
                  Sample.no_system_key Sample.no_rows)); reflexivity.
Defined.

(** C8 as stated fails on a blank key: the test of line 50 is Python's
    truth test, which accepts any non-empty text, so a system key made of
    white space only is returned as the fallback instead of an error. *)
Lemma get_api_key_for_user_returns_blank_system_key :
  is_blank " " = true
  /\ truthy (get_user_gemini_key Sample.no_rows) = false
  /\ get_api_key_for_user (mkSettings " " "gemini-1.5-pro") Sample.no_rows
     = Returned (JStr " ", "system").
Proof. repeat split. Qed.

(** ** analyze_skill_gap *)

Section AnalyzeFacts.

Variable json_loads : string -> option json.
Variable settings : Settings.
Variable user_api_keys : nat -> http_result.
Variable generate_content : nat -> option json -> gen_outcome.

Local Abbreviation analyze :=
  (analyze_skill_gap json_loads settings user_api_keys generate_content).

(** The state in which the handler runs: one more lookup, the resolved
    key configured, one more model call under it. *)
Local Abbreviation attempted st api_key :=
  (mkState (S (lookups st)) (Some api_key) (calls st ++ [api_key])).

Lemma try_block_model_raises (st : genai_state) (api_key : json)
    (key_source error_msg : string) :
  generate_content (List.length (calls st)) (Some api_key)
  = GenRaises error_msg ->
  try_block json_loads settings generate_content key_source
    (configure api_key (mkState (S (lookups st)) (configured st) (calls st)))
  = TryFailed error_msg.
Proof.
  intros Hgen. unfold try_block, configure. cbn. now rewrite Hgen.
Qed.

(** A failed call that the handler does not retry ends the run with the
    wrapped message. *)
Lemma analyze_raises_when_not_retried (fuel : nat) (st : genai_state)
    (api_key : json) (key_source error_msg : string) :
  get_api_key_for_user settings (user_api_keys (lookups st))
  = Returned (api_key, key_source) ->
  generate_content (List.length (calls st)) (Some api_key)
  = GenRaises error_msg ->
  retried settings error_msg key_source = false ->
  analyze (S fuel) st
  = Done (Raised (PyException (failure_prefix ++ error_msg)))
         (attempted st api_key).
Proof.
  intros Hkey Hgen Hretry. cbn [analyze_skill_gap]. rewrite Hkey.
  rewrite (try_block_model_raises _ _ _ _ Hgen).
  unfold retried in Hretry.
  destruct (is_quota_error error_msg); [|reflexivity].
  cbn in Hretry. now rewrite Hretry.
Qed.

(** A failed call that the handler retries: the system key is
    configured and the whole function runs again. *)
Lemma analyze_recurses_when_retried (fuel : nat) (st : genai_state)
    (api_key : json) (key_source error_msg : string) :
  get_api_key_for_user settings (user_api_keys (lookups st))
  = Returned (api_key, key_source) ->
  generate_content (List.length (calls st)) (Some api_key)
  = GenRaises error_msg ->
  retried settings error_msg key_source = true ->
  analyze (S fuel) st
  = analyze fuel
      (configure (JStr (GEMINI_API_KEY settings)) (attempted st api_key)).
Proof.
  intros Hkey Hgen Hretry. cbn [analyze_skill_gap]. rewrite Hkey.
  rewrite (try_block_model_raises _ _ _ _ Hgen).
  unfold retried in Hretry.
  apply andb_true_iff in Hretry as [Hq Hc]. now rewrite Hq, Hc.
Qed.

Lemma try_block_model_answers (st : genai_state) (api_key : json)
    (key_source analysis_text : string) (fields : list (string * json)) :
  generate_content (List.length (calls st)) (Some api_key)
  = GenText analysis_text ->
  json_loads analysis_text = Some (JObj fields) ->
  try_block json_loads settings generate_content key_source
    (configure api_key (mkState (S (lookups st)) (configured st) (calls st)))
  = TryOk (JObj (assoc_set "model_used" (JStr (GEMINI_MODEL settings))
                   (assoc_set "api_key_source" (JStr key_source) fields))).
Proof.
  intros Hgen Hjson. unfold try_block, configure. cbn.
  now rewrite Hgen, Hjson.
Qed.

(** A call that the model answers with a JSON object ends the run with
    that object, tagged with the source of the key just resolved. *)
Lemma analyze_returns_when_model_answers (fuel : nat) (st : genai_state)
    (api_key : json) (key_source analysis_text : string)
    (fields : list (string * json)) :
  get_api_key_for_user settings (user_api_keys (lookups st))
  = Returned (api_key, key_source) ->
  generate_content (List.length (calls st)) (Some api_key)
  = GenText analysis_text ->
  json_loads analysis_text = Some (JObj fields) ->
  analyze (S fuel) st
  = Done (Returned
            (JObj (assoc_set "model_used" (JStr (GEMINI_MODEL settings))
                     (assoc_set "api_key_source" (JStr key_source) fields))))
         (attempted st api_key).
Proof.
  intros Hkey Hgen Hjson. cbn [analyze_skill_gap]. rewrite Hkey.
  now rewrite (try_block_model_answers _ _ _ _ _ Hgen Hjson).
Qed.

(** After a retried first failure the key of the second model call, and
    the tag of its result, are those of the second resolution: the system
    key configured by the handler plays no part. *)
Lemma analyze_retry_tagged_by_second_resolution (fuel : nat)
    (k1 k2 : json) (source1 msg1 source2 analysis_text : string)
    (fields : list (string * json)) :
  get_api_key_for_user settings (user_api_keys 0) = Returned (k1, source1) ->
  generate_content 0 (Some k1) = GenRaises msg1 ->
  retried settings msg1 source1 = true ->
  get_api_key_for_user settings (user_api_keys 1) = Returned (k2, source2) ->
  generate_content 1 (Some k2) = GenText analysis_text ->
  json_loads analysis_text = Some (JObj fields) ->
  analyze (S (S fuel)) initial_state
  = Done (Returned
            (JObj (assoc_set "model_used" (JStr (GEMINI_MODEL settings))
                     (assoc_set "api_key_source" (JStr source2) fields))))
         (mkState 2 (Some k2) [k1; k2]).
Proof.
  intros Hk1 Hg1 Hr1 Hk2 Hg2 Hjson.
  rewrite (analyze_recurses_when_retried (S fuel) initial_state
             k1 source1 msg1 Hk1 Hg1 Hr1).
  exact (analyze_returns_when_model_answers fuel
           (mkState 1 (Some (JStr (GEMINI_API_KEY settings))) [k1])
           k2 source2 analysis_text fields Hk2 Hg2 Hjson).
Qed.

(** Every run consumes one lookup per level of recursion and at most
    one model call per lookup. *)
Lemma analyze_calls_bounded_by_fuel (fuel : nat) (st : genai_state) :
  invocations (analyze fuel st) <= List.length (calls st) + fuel.
Proof.
  revert st. induction fuel as [|fuel IH]; intros st.
  - cbn. lia.
  - cbn [analyze_skill_gap].
    destruct (get_api_key_for_user settings (user_api_keys (lookups st)))
      as [[api_key key_source]|e].
    + destruct (try_block _ _ _ _ _) as [analysis|error_msg].
      * cbn. rewrite length_app. cbn. lia.
      * destruct (is_quota_error error_msg);
          [destruct (_ && _)|]; try (cbn; rewrite length_app; cbn; lia).
        eapply Nat.le_trans; [apply IH|]. cbn. rewrite length_app. cbn. lia.
    + cbn. lia.
Qed.

(** As long as the store keeps answering with a usable user key and the
    model keeps rejecting it for quota, every level of the recursion
    resolves the user key again, calls the model under it and recurses:
    no recursion budget is enough, and the number of model calls grows
    with it (the interpreter's recursion limit is what ends it). *)
Lemma analyze_persistent_quota_never_finishes (api_key : json)
    (error_msg : string) :
  (forall n, get_api_key_for_user settings (user_api_keys n)
             = Returned (api_key, "user")) ->
  (forall n, generate_content n (Some api_key) = GenRaises error_msg) ->
  is_quota_error error_msg = true ->
  str_truthy (GEMINI_API_KEY settings) = true ->
  forall fuel st, exists st',
    analyze fuel st = OutOfFuel st'
    /\ calls st' = (calls st ++ repeat api_key fuel)%list.
Proof.
  intros Hkey Hgen Hq Hsys.
  induction fuel as [|fuel IH]; intros st.
  - exists st. cbn. now rewrite app_nil_r.
  - rewrite (analyze_recurses_when_retried fuel st api_key "user" error_msg
               (Hkey _) (Hgen _)).
    + destruct (IH (configure (JStr (GEMINI_API_KEY settings))
                      (attempted st api_key))) as [st' [Hrun Hcalls]].
      exists st'. split; [assumption|].
      rewrite Hcalls. cbn. now rewrite <- app_assoc.
    + unfold retried. now rewrite Hq, Hsys.
Qed.

End AnalyzeFacts.

(** C3 as stated fails: whether a failure is a quota failure is judged
    from its text alone.  The model rejects the first call because the
    request is too large, which has nothing to do with quota, but the
    text names a limit: with the user's key stored and a system key set
    the failure is not raised, the function runs again and the model is
    called a second time. *)
Lemma analyze_skill_gap_retries_failure_naming_a_limit :
  Sample.payload_then_ok 0 (Some (JStr "user-key"))
  = GenRaises "400 Request payload size exceeds the limit: 20971520 bytes."
  /\ is_quota_error
       "400 Request payload size exceeds the limit: 20971520 bytes." = true
  /\ analyze_skill_gap Sample.json_loads Sample.both_keys
       Sample.user_key_stored Sample.payload_then_ok 3 initial_state
     = Done (Returned (JObj [("api_key_source", JStr "user");
                             ("model_used", JStr "gemini-1.5-pro")]))
            (mkState 2 (Some (JStr "user-key"))
                     [JStr "user-key"; JStr "user-key"])
  /\ invocations
       (analyze_skill_gap Sample.json_loads Sample.both_keys
          Sample.user_key_stored Sample.payload_then_ok 3 initial_state)
     = 2.
Proof. repeat split. Qed.

(** C3 (amended): when the key is resolved and the first model call
    fails with a message that holds neither "quota" nor "limit" in any
    letter case, the failure is raised to the caller at once: the run
    ends after exactly one model call, whatever recursion budget is
    left. *)
Theorem analyze_skill_gap_non_quota_failure_no_retry
    (json_loads : string -> option json) (settings : Settings)
    (user_api_keys : nat -> http_result)
    (generate_content : nat -> option json -> gen_outcome)
    (fuel : nat) (api_key : json) (key_source error_msg : string) :
  get_api_key_for_user settings (user_api_keys 0)
  = Returned (api_key, key_source) ->
  generate_content 0 (Some api_key) = GenRaises error_msg ->
  is_quota_error error_msg = false ->
  analyze_skill_gap json_loads settings user_api_keys generate_content
    (S fuel) initial_state
  = Done (Raised (PyException (failure_prefix ++ error_msg)))
         (mkState 1 (Some api_key) [api_key])
  /\ invocations
       (analyze_skill_gap json_loads settings user_api_keys
          generate_content (S fuel) initial_state) = 1.
Proof.
  intros Hkey Hgen Hq.
  assert (Hrun := analyze_raises_when_not_retried json_loads settings
                    user_api_keys generate_content fuel initial_state
                    api_key key_source error_msg Hkey Hgen).
  unfold retried in Hrun. rewrite Hq in Hrun. specialize (Hrun eq_refl).
  rewrite Hrun. split; reflexivity.
Qed.

Lemma analyze_skill_gap_non_quota_failure_no_retry_witness :
  get_api_key_for_user Sample.both_keys (Sample.user_key_stored 0)
  = Returned (JStr "user-key", "user")
  /\ Sample.always_upstream 0 (Some (JStr "user-key"))
     = GenRaises Sample.upstream_message
  /\ is_quota_error Sample.upstream_message = false
  /\ invocations
       (analyze_skill_gap Sample.json_loads Sample.both_keys
          Sample.user_key_stored Sample.always_upstream 7 initial_state) = 1.
Proof.
  split; [reflexivity|]. split; [reflexivity|]. split; [reflexivity|].
  apply (analyze_skill_gap_non_quota_failure_no_retry
           Sample.json_loads Sample.both_keys Sample.user_key_stored
           Sample.always_upstream 6 (JStr "user-key") "user"
           Sample.upstream_message); reflexivity.
Defined.

(** C1, on the code: the user's key is stored, a system key is set, the
    first model call fails for quota and the second succeeds.  The model
    is called twice, but the second call runs under the user's key again
    and the result is tagged "user": the recursive call of line 260
    resolves the key afresh, which undoes the [genai.configure] of
    line 258. *)
Theorem analyze_skill_gap_retry_reuses_user_key :
  analyze_skill_gap Sample.json_loads Sample.both_keys
    Sample.user_key_stored Sample.quota_then_ok 3 initial_state
  = Done (Returned (JObj [("api_key_source", JStr "user");
                          ("model_used", JStr "gemini-1.5-pro")]))
         (mkState 2 (Some (JStr "user-key"))
                  [JStr "user-key"; JStr "user-key"]).
Proof. reflexivity. Qed.

(** The case the fallback exists for: the user's key is out of quota and
    the system key would be served.  The system key is never tried: each
    level resolves the user's key again, and the run only stops when the
    recursion budget does. *)
Example fallback_never_reaches_system_key :
  forall fuel, exists st,
    analyze_skill_gap Sample.json_loads Sample.both_keys
      Sample.user_key_stored Sample.quota_for_user_key fuel initial_state
    = OutOfFuel st
    /\ calls st = repeat (JStr "user-key") fuel.
Proof.
  intros fuel.
  apply (analyze_persistent_quota_never_finishes Sample.json_loads
           Sample.both_keys Sample.user_key_stored
           Sample.quota_for_user_key (JStr "user-key")
           Sample.quota_message); reflexivity.
Qed.

(** C2 as stated fails: a failure that is not retried does not reach the
    caller unchanged.  Here the only key is the system key and the model
    fails with an upstream message; the caller receives a generic
    exception whose text is the handler's prefix followed by that
    message. *)
Lemma analyze_skill_gap_failure_is_reworded :
  Sample.always_upstream 0 (Some (JStr "system-key"))
  = GenRaises "500 internal error"
  /\ raised_message
       (analyze_skill_gap Sample.json_loads Sample.both_keys
          Sample.no_user_key Sample.always_upstream 4 initial_state)
     = Some "Gemini analysis failed: 500 internal error"
  /\ raised_message
       (analyze_skill_gap Sample.json_loads Sample.both_keys
          Sample.no_user_key Sample.always_upstream 4 initial_state)
     <> Some "500 internal error".
Proof.
  split; [reflexivity|]. split; [reflexivity|]. cbn. discriminate.
Qed.

(** C2 (amended): a failed model call is retried only when its message is
    a quota message, the key came from the user and a system key is set.
    A first failure of any other kind ends the run after one model call,
    and a failure of any other kind on the call made after one retry ends
    it after two; in both cases the caller gets a generic exception whose
    text is "Gemini analysis failed: " followed by the original message. *)
Theorem analyze_skill_gap_unretried_failure_ends_run
    (json_loads : string -> option json) (settings : Settings)
    (user_api_keys : nat -> http_result)
    (generate_content : nat -> option json -> gen_outcome) (fuel : nat) :
  (forall k1 source1 msg1,
     get_api_key_for_user settings (user_api_keys 0) = Returned (k1, source1) ->
     generate_content 0 (Some k1) = GenRaises msg1 ->
     retried settings msg1 source1 = false ->
     analyze_skill_gap json_loads settings user_api_keys generate_content
       (S fuel) initial_state
     = Done (Raised (PyException (failure_prefix ++ msg1)))
            (mkState 1 (Some k1) [k1]))
  /\ (forall k1 source1 msg1 k2 source2 msg2,
        get_api_key_for_user settings (user_api_keys 0)
        = Returned (k1, source1) ->
        generate_content 0 (Some k1) = GenRaises msg1 ->
        retried settings msg1 source1 = true ->
        get_api_key_for_user settings (user_api_keys 1)
        = Returned (k2, source2) ->
        generate_content 1 (Some k2) = GenRaises msg2 ->
        retried settings msg2 source2 = false ->
        analyze_skill_gap json_loads settings user_api_keys generate_content
          (S (S fuel)) initial_state
        = Done (Raised (PyException (failure_prefix ++ msg2)))
               (mkState 2 (Some k2) [k1; k2])).
Proof.
  split.
  - intros k1 source1 msg1 Hkey Hgen Hretry.
    now rewrite (analyze_raises_when_not_retried json_loads settings
                   user_api_keys generate_content fuel initial_state
                   k1 source1 msg1 Hkey Hgen Hretry).
  - intros k1 source1 msg1 k2 source2 msg2 Hk1 Hg1 Hr1 Hk2 Hg2 Hr2.
    rewrite (analyze_recurses_when_retried json_loads settings
               user_api_keys generate_content (S fuel) initial_state
               k1 source1 msg1 Hk1 Hg1 Hr1).
    exact (analyze_raises_when_not_retried json_loads settings
             user_api_keys generate_content fuel
             (configure (JStr (GEMINI_API_KEY settings))
                (mkState 1 (Some k1) [k1]))
             k2 source2 msg2 Hk2 Hg2 Hr2).
Qed.

Lemma analyze_skill_gap_unretried_failure_ends_run_witness :
  (get_api_key_for_user Sample.both_keys (Sample.user_key_then_timeout 0)
   = Returned (JStr "user-key", "user")
   /\ Sample.quota_then_upstream 0 (Some (JStr "user-key"))
      = GenRaises Sample.quota_message
   /\ retried Sample.both_keys Sample.quota_message "user" = true
   /\ get_api_key_for_user Sample.both_keys (Sample.user_key_then_timeout 1)
      = Returned (JStr "system-key", "system")
   /\ Sample.quota_then_upstream 1 (Some (JStr "system-key"))
      = GenRaises Sample.upstream_message
   /\ retried Sample.both_keys Sample.upstream_message "system" = false)
  /\ analyze_skill_gap Sample.json_loads Sample.both_keys
       Sample.user_key_then_timeout Sample.quota_then_upstream 5
       initial_state
     = Done (Raised (PyException
                       (failure_prefix ++ Sample.upstream_message)))
            (mkState 2 (Some (JStr "system-key"))
                     [JStr "user-key"; JStr "system-key"]).
Proof.
  split; [repeat split|].
  apply (proj2 (analyze_skill_gap_unretried_failure_ends_run
                  Sample.json_loads Sample.both_keys
                  Sample.user_key_then_timeout Sample.quota_then_upstream 3)
           (JStr "user-key") "user" Sample.quota_message
           (JStr "system-key") "system" Sample.upstream_message);
    reflexivity.
Defined.

(** C9 as stated fails: a quota failure that persists after the retry
    under the system key and a failure that has nothing to do with quota
    reach the caller as the same exception class. *)
Lemma quota_and_upstream_failures_share_class :
  invocations
    (analyze_skill_gap Sample.json_loads Sample.both_keys
       Sample.user_key_then_timeout Sample.always_quota 5 initial_state) = 2
  /\ raised_class
       (analyze_skill_gap Sample.json_loads Sample.both_keys
          Sample.user_key_then_timeout Sample.always_quota 5 initial_state)
     = Some GenericException
  /\ raised_class
       (analyze_skill_gap Sample.json_loads Sample.both_keys
          Sample.no_user_key Sample.always_upstream 5 initial_state)
     = Some GenericException.
Proof. repeat split. Qed.

(** C9 (amended): the two failures [analyze_skill_gap] signals itself.
    From any attempt on: when no usable credential exists, the resolver's
    [ValueError] with the no-key message reaches the caller untouched,
    no model call having been made; and when the model call fails with a
    message the handler does not retry, be it a quota message or not,
    the caller gets a generic [Exception] whose text is "Gemini analysis
    failed: " followed by that message.  The missing credential is thus
    told apart by class; quota and other upstream failures share one
    class and differ in text only. *)
Theorem analyze_skill_gap_error_kinds
    (json_loads : string -> option json) (settings : Settings)
    (user_api_keys : nat -> http_result)
    (generate_content : nat -> option json -> gen_outcome)
    (fuel : nat) (st : genai_state) :
  (truthy (get_user_gemini_key (user_api_keys (lookups st))) = false ->
   GEMINI_API_KEY settings = "" ->
   analyze_skill_gap json_loads settings user_api_keys generate_content
     (S fuel) st
   = Done (Raised (PyValueError no_key_message))
          (mkState (S (lookups st)) (configured st) (calls st))
   /\ class_of (PyValueError no_key_message) = ValueError)
  /\ (forall api_key key_source error_msg,
        get_api_key_for_user settings (user_api_keys (lookups st))
        = Returned (api_key, key_source) ->
        generate_content (List.length (calls st)) (Some api_key)
        = GenRaises error_msg ->
        retried settings error_msg key_source = false ->
        analyze_skill_gap json_loads settings user_api_keys
          generate_content (S fuel) st
        = Done (Raised (PyException (failure_prefix ++ error_msg)))
               (mkState (S (lookups st)) (Some api_key)
                        (calls st ++ [api_key]))
        /\ class_of (PyException (failure_prefix ++ error_msg))
           = GenericException).
Proof.
  split.
  - intros Hnone Hsys. split; [|reflexivity].
    cbn [analyze_skill_gap]. unfold get_api_key_for_user.
    rewrite Hnone, Hsys. reflexivity.
  - intros api_key key_source error_msg Hkey Hgen Hretry.
    split; [|reflexivity].
    exact (analyze_raises_when_not_retried json_loads settings
             user_api_keys generate_content fuel st api_key key_source
             error_msg Hkey Hgen Hretry).
Qed.

Lemma analyze_skill_gap_error_kinds_witness :
  (get_api_key_for_user Sample.both_keys (Sample.no_user_key 0)
   = Returned (JStr "system-key", "system")
   /\ Sample.always_quota 0 (Some (JStr "system-key"))
      = GenRaises Sample.quota_message
   /\ is_quota_error Sample.quota_message = true
   /\ retried Sample.both_keys Sample.quota_message "system" = false)
  /\ analyze_skill_gap Sample.json_loads Sample.both_keys
       Sample.no_user_key Sample.always_quota 4 initial_state
     = Done (Raised (PyException
                       (failure_prefix ++ Sample.quota_message)))
            (mkState 1 (Some (JStr "system-key")) [JStr "system-key"])
  /\ class_of (PyException (failure_prefix ++ Sample.quota_message))
     = GenericException.
Proof.
  split; [repeat split|].
  apply (proj2 (analyze_skill_gap_error_kinds Sample.json_loads
                  Sample.both_keys Sample.no_user_key Sample.always_quota
                  3 initial_state)
           (JStr "system-key") "system" Sample.quota_message);
    reflexivity.
Defined.

(** ** check_if_analysis_needed *)

Lemma dt_gt_of_eqb (a b : datetime) :
  dt_eqb a b = true -> dt_gt a b = Returned false.
Proof.
  unfold dt_eqb, dt_gt.
  destruct (utcoffset a) as [oa|], (utcoffset b) as [ob|];
    try discriminate; intros H; apply Z.eqb_eq in H; f_equal;
    rewrite H, Z.gtb_ltb; apply Z.ltb_irrefl.
Qed.

Section CheckFacts.

Variable fromisoformat : string -> outcome datetime.

Local Abbreviation newer :=
  (newer_than_last_analysis fromisoformat).
Local Abbreviation body :=
  (check_if_analysis_needed_body fromisoformat).
Local Abbreviation check :=
  (check_if_analysis_needed fromisoformat).

Local Abbreviation change_steps := (change_steps fromisoformat).

Lemma str_truthy_nonempty (s : string) : s <> "" -> str_truthy s = true.
Proof. destruct s; [contradiction|reflexivity]. Qed.

Lemma first_row_not_200 (status : Z) (b : option json) :
  status <> 200%Z -> first_row status b = Returned None.
Proof.
  intros Hs. unfold first_row. apply Z.eqb_neq in Hs. now rewrite Hs.
Qed.

Lemma newer_no_stamp (field : string) (answer : http_result)
    (last : datetime) :
  no_stamp field answer -> newer answer field last = Returned false.
Proof.
  intros [status b Hs | | row rest [Hnull | Hmissing]];
    unfold newer_than_last_analysis; cbn.
  - now rewrite (first_row_not_200 status b Hs).
  - reflexivity.
  - now rewrite Hnull.
  - now rewrite Hmissing.
Qed.

Lemma newer_has_text (field s : string) (answer : http_result)
    (last : datetime) :
  has_text field s answer ->
  newer answer field last
  = (stamp_dt <- fromisoformat (replace_Z s) ;; dt_gt stamp_dt last).
Proof.
  intros [row [rest [-> [Hrow Hs]]]].
  unfold newer_than_last_analysis. cbn -[replace_Z]. rewrite Hrow.
  cbn -[replace_Z]. now rewrite (str_truthy_nonempty s Hs).
Qed.

Lemma newer_absent_or_tie (field : string) (answer : http_result)
    (last : datetime) :
  absent_or_tie fromisoformat field last answer ->
  newer answer field last = Returned false.
Proof.
  intros [Habsent | [s [dt [Hstamp [Hparse Htie]]]]].
  - now apply newer_no_stamp.
  - rewrite (newer_has_text _ _ _ _ Hstamp), Hparse. cbn.
    now apply dt_gt_of_eqb.
Qed.

Lemma newer_retrieval_failure (field : string) (answer : http_result)
    (last : datetime) :
  retrieval_failure fromisoformat field answer ->
  exists e, newer answer field last = Raised e.
Proof.
  intros [-> | [-> | [s [e [Hstamp Hparse]]]]].
  - now exists PyRequestException.
  - now exists PyJSONDecodeError.
  - exists e. now rewrite (newer_has_text _ _ _ _ Hstamp), Hparse.
Qed.

(** With a readable last-analysis time the body is steps 2 and 3. *)
Lemma body_with_last_analysis (s : string) (last : datetime)
    (analyses profiles github_connections : http_result) :
  has_text "analyzed_at" s analyses ->
  fromisoformat (replace_Z s) = Returned last ->
  body analyses profiles github_connections
  = change_steps profiles github_connections last.
Proof.
  intros [row [rest [-> [Hrow Hs]]]] Hparse.
  unfold check_if_analysis_needed_body. cbn -[replace_Z]. rewrite Hrow.
  cbn -[replace_Z]. rewrite (str_truthy_nonempty s Hs).
  cbn -[replace_Z]. now rewrite Hparse.
Qed.

(** The three ways the body can go. *)
Lemma body_cases (analyses profiles github_connections : http_result) :
  body analyses profiles github_connections = Returned true
  \/ (exists e, body analyses profiles github_connections = Raised e)
  \/ (exists last, body analyses profiles github_connections
                   = change_steps profiles github_connections last).
Proof.
  unfold check_if_analysis_needed_body.
  destruct (requests_get analyses) as [resp|e]; cbn; [|right; left; eauto].
  destruct (first_row (fst resp) (snd resp)) as [row|e]; cbn;
    [|right; left; eauto].
  destruct (match row with
            | Some r => getitem r "analyzed_at"
            | None => Returned JNull
            end) as [last_analysis|e]; cbn; [|right; left; eauto].
  destruct (truthy last_analysis); cbn; [|now left].
  destruct last_analysis; try now left.
  destruct (fromisoformat _) as [last|e]; cbn; [|right; left; eauto].
  right; right. now exists last.
Qed.

Lemma check_of_body_true (analyses profiles github_connections : http_result) :
  body analyses profiles github_connections = Returned true
  \/ (exists e, body analyses profiles github_connections = Raised e) ->
  check analyses profiles github_connections = Returned true.
Proof.
  unfold check_if_analysis_needed. intros [-> | [e ->]]; reflexivity.
Qed.

Lemma change_steps_true_or_raised (profiles github_connections : http_result)
    (last : datetime) :
  (exists e, newer profiles "resume_uploaded_at" last = Raised e)
  \/ (exists e, newer github_connections "last_sync_at" last = Raised e) ->
  change_steps profiles github_connections last = Returned true
  \/ exists e, change_steps profiles github_connections last = Raised e.
Proof.
  unfold change_steps. intros [[e ->] | [e Hsync]]; cbn.
  - right. eauto.
  - destruct (newer profiles _ last) as [[|]|e']; cbn.
    + now left.
    + rewrite Hsync. cbn. right. eauto.
    + right. eauto.
Qed.

End CheckFacts.

(** C4: when the last-analysis lookup yields no row (a status other than
    200, or a 200 answer with an empty or null payload) the function
    returns [True], whatever the profile and connection lookups would
    answer: they are not consulted. *)
Theorem check_if_analysis_needed_never_analyzed
    (fromisoformat : string -> outcome datetime) (status : Z)
    (payload : option json) (profiles github_connections : http_result) :
  first_row status payload = Returned None ->
  check_if_analysis_needed fromisoformat (Response status payload)
    profiles github_connections = Returned true.
Proof.
  intros Hrow.
  unfold check_if_analysis_needed, check_if_analysis_needed_body.
  cbn. now rewrite Hrow.
Qed.

Lemma check_if_analysis_needed_never_analyzed_witness :
  first_row 200 (Some (JArr [])) = Returned None
  /\ check_if_analysis_needed Iso.fromisoformat
       (Response 200 (Some (JArr [])))
       (Sample.one_row "resume_uploaded_at" "2024-01-02T00:00:00Z")
       ConnectionFailed = Returned true.
Proof.
  split; [reflexivity|].
  apply (check_if_analysis_needed_never_analyzed Iso.fromisoformat 200
           (Some (JArr []))). reflexivity.
Defined.

(** C5: with a readable last-analysis time, change signals that are each
    absent or equal to that time do not trigger: the function returns
    [False].  The comparison of lines 246 and 257 is a strict [>]. *)
Theorem check_if_analysis_needed_tie_is_not_newer
    (fromisoformat : string -> outcome datetime) (s : string)
    (last : datetime) (analyses profiles github_connections : http_result) :
  has_text "analyzed_at" s analyses ->
  fromisoformat (replace_Z s) = Returned last ->
  absent_or_tie fromisoformat "resume_uploaded_at" last profiles ->
  absent_or_tie fromisoformat "last_sync_at" last github_connections ->
  check_if_analysis_needed fromisoformat analyses profiles
    github_connections = Returned false.
Proof.
  intros Hstamp Hparse Hresume Hsync. unfold check_if_analysis_needed.
  rewrite (body_with_last_analysis _ _ _ _ _ _ Hstamp Hparse).
  unfold change_steps.
  rewrite (newer_absent_or_tie _ _ _ _ Hresume). cbn.
  now rewrite (newer_absent_or_tie _ _ _ _ Hsync).
Qed.

Lemma has_text_one_row (field : string) (c : ascii) (s : string) :
  has_text field (String c s) (Sample.one_row field (String c s)).
Proof.
  exists [(field, JStr (String c s))], []. split; [reflexivity|].
  split; [|discriminate]. cbn. now rewrite String.eqb_refl.
Defined.

Lemma check_if_analysis_needed_tie_is_not_newer_witness :
  (has_text "analyzed_at" "2024-01-05T00:00:00Z"
     (Sample.one_row "analyzed_at" "2024-01-05T00:00:00Z")
   /\ Iso.fromisoformat (replace_Z "2024-01-05T00:00:00Z")
      = Returned (mkDatetime 63840009600000000 (Some 0%Z))
   /\ absent_or_tie Iso.fromisoformat "resume_uploaded_at"
        (mkDatetime 63840009600000000 (Some 0%Z))
        (Sample.one_row "resume_uploaded_at" "2024-01-05T01:00:00+01:00")
   /\ absent_or_tie Iso.fromisoformat "last_sync_at"
        (mkDatetime 63840009600000000 (Some 0%Z)) Sample.no_rows)
  /\ check_if_analysis_needed Iso.fromisoformat
       (Sample.one_row "analyzed_at" "2024-01-05T00:00:00Z")
       (Sample.one_row "resume_uploaded_at" "2024-01-05T01:00:00+01:00")
       Sample.no_rows = Returned false.
Proof.
  assert (Ha : has_text "analyzed_at" "2024-01-05T00:00:00Z"
                 (Sample.one_row "analyzed_at" "2024-01-05T00:00:00Z"))
    by apply has_text_one_row.
  assert (Hp : Iso.fromisoformat (replace_Z "2024-01-05T00:00:00Z")
               = Returned (mkDatetime 63840009600000000 (Some 0%Z)))
    by (vm_compute; reflexivity).
  assert (Hr : absent_or_tie Iso.fromisoformat "resume_uploaded_at"
                 (mkDatetime 63840009600000000 (Some 0%Z))
                 (Sample.one_row "resume_uploaded_at"
                    "2024-01-05T01:00:00+01:00")).
  { right. exists "2024-01-05T01:00:00+01:00".
    exists (mkDatetime 63840013200000000 (Some 3600000000%Z)).
    split; [apply has_text_one_row|].
    split; vm_compute; reflexivity. }
  assert (Hs : absent_or_tie Iso.fromisoformat "last_sync_at"
                 (mkDatetime 63840009600000000 (Some 0%Z)) Sample.no_rows)
    by (left; apply no_stamp_empty).
  split; [repeat split; assumption|].
  exact (check_if_analysis_needed_tie_is_not_newer Iso.fromisoformat
           "2024-01-05T00:00:00Z" (mkDatetime 63840009600000000 (Some 0%Z))
           _ _ _ Ha Hp Hr Hs).
Defined.

(** C6: the function never raises; whenever its body raises it returns
    [True]; and so it returns [True] whenever one of the three lookups
    fails, be it the request that raises, a 200 answer whose body does
    not decode, or a timestamp text the reader rejects. *)
Theorem check_if_analysis_needed_fails_open
    (fromisoformat : string -> outcome datetime)
    (analyses profiles github_connections : http_result) :
  (exists b, check_if_analysis_needed fromisoformat analyses profiles
               github_connections = Returned b)
  /\ (forall e,
        check_if_analysis_needed_body fromisoformat analyses profiles
          github_connections = Raised e ->
        check_if_analysis_needed fromisoformat analyses profiles
          github_connections = Returned true)
  /\ (retrieval_failure fromisoformat "analyzed_at" analyses
      \/ retrieval_failure fromisoformat "resume_uploaded_at" profiles
      \/ retrieval_failure fromisoformat "last_sync_at" github_connections ->
      check_if_analysis_needed fromisoformat analyses profiles
        github_connections = Returned true).
Proof.
  split; [|split].
  - unfold check_if_analysis_needed.
    destruct (check_if_analysis_needed_body _ _ _ _); eauto.
  - intros e He. apply check_of_body_true. eauto.
  - intros Hfail. apply check_of_body_true.
    destruct (body_cases fromisoformat analyses profiles github_connections)
      as [Htrue | [Hraised | [last Hsteps]]]; [now left | now right |].
    destruct Hfail as [Ha | Hlater].
    + right. destruct Ha as [-> | [-> | [s [e [Hstamp Hparse]]]]].
      * now exists PyRequestException.
      * now exists PyJSONDecodeError.
      * exists e. destruct Hstamp as [row [rest [-> [Hrow Hs]]]].
        unfold check_if_analysis_needed_body. cbn -[replace_Z].
        rewrite Hrow. cbn -[replace_Z].
        rewrite (str_truthy_nonempty s Hs). cbn -[replace_Z].
        now rewrite Hparse.
    + rewrite Hsteps. apply change_steps_true_or_raised.
      destruct Hlater as [Hp | Hg];
        [left | right]; now apply newer_retrieval_failure.
Qed.

Lemma check_if_analysis_needed_fails_open_witness :
  (retrieval_failure Iso.fromisoformat "analyzed_at"
     (Sample.one_row "analyzed_at" "2024-01-05T00:00:00Z")
   \/ retrieval_failure Iso.fromisoformat "resume_uploaded_at"
        (Sample.one_row "resume_uploaded_at" "last tuesday")
   \/ retrieval_failure Iso.fromisoformat "last_sync_at" Sample.no_rows)
  /\ check_if_analysis_needed Iso.fromisoformat
       (Sample.one_row "analyzed_at" "2024-01-05T00:00:00Z")
       (Sample.one_row "resume_uploaded_at" "last tuesday")
       Sample.no_rows = Returned true.
Proof.
  assert (Hfail : retrieval_failure Iso.fromisoformat "resume_uploaded_at"
                    (Sample.one_row "resume_uploaded_at" "last tuesday")).
  { right; right. exists "last tuesday", (PyValueError Iso.invalid_isoformat).
    split; [apply has_text_one_row | vm_compute; reflexivity]. }
  split; [right; left; exact Hfail|].
  apply (proj2 (proj2 (check_if_analysis_needed_fails_open Iso.fromisoformat
                         (Sample.one_row "analyzed_at" "2024-01-05T00:00:00Z")
                         (Sample.one_row "resume_uploaded_at" "last tuesday")
                         Sample.no_rows))).
  right; left; exact Hfail.
Defined.

(** C10: with a readable last-analysis time, a profile or connection
    lookup that answers with a status other than 200, with an empty list,
    or with a null (or missing) timestamp field raises nothing and counts
    as no signal: when both lookups are of that kind the body itself
    returns [False], so the [except] branch is not taken. *)
Theorem check_if_analysis_needed_soft_absence_returns_false
    (fromisoformat : string -> outcome datetime) (s : string)
    (last : datetime) (analyses profiles github_connections : http_result) :
  has_text "analyzed_at" s analyses ->
  fromisoformat (replace_Z s) = Returned last ->
  no_stamp "resume_uploaded_at" profiles ->
  no_stamp "last_sync_at" github_connections ->
  check_if_analysis_needed_body fromisoformat analyses profiles
    github_connections = Returned false
  /\ check_if_analysis_needed fromisoformat analyses profiles
       github_connections = Returned false.
Proof.
  intros Hstamp Hparse Hresume Hsync.
  assert (Hbody : check_if_analysis_needed_body fromisoformat analyses
                    profiles github_connections = Returned false).
  { rewrite (body_with_last_analysis _ _ _ _ _ _ Hstamp Hparse).
    unfold change_steps.
    rewrite (newer_no_stamp _ _ _ _ Hresume). cbn.
    now rewrite (newer_no_stamp _ _ _ _ Hsync). }
  split; [assumption|].
  unfold check_if_analysis_needed. now rewrite Hbody.
Qed.

Lemma check_if_analysis_needed_soft_absence_returns_false_witness :
  (has_text "analyzed_at" "2024-01-05T00:00:00Z"
     (Sample.one_row "analyzed_at" "2024-01-05T00:00:00Z")
   /\ Iso.fromisoformat (replace_Z "2024-01-05T00:00:00Z")
      = Returned (mkDatetime 63840009600000000 (Some 0%Z))
   /\ no_stamp "resume_uploaded_at" (Response 503 None)
   /\ no_stamp "last_sync_at"
        (Response 200 (Some (JArr [JObj [("last_sync_at", JNull)]]))))
  /\ check_if_analysis_needed Iso.fromisoformat
       (Sample.one_row "analyzed_at" "2024-01-05T00:00:00Z")
       (Response 503 None)
       (Response 200 (Some (JArr [JObj [("last_sync_at", JNull)]])))
     = Returned false.
Proof.
  assert (Ha : has_text "analyzed_at" "2024-01-05T00:00:00Z"
                 (Sample.one_row "analyzed_at" "2024-01-05T00:00:00Z"))
    by apply has_text_one_row.
  assert (Hp : Iso.fromisoformat (replace_Z "2024-01-05T00:00:00Z")
               = Returned (mkDatetime 63840009600000000 (Some 0%Z)))
    by (vm_compute; reflexivity).
  assert (Hr : no_stamp "resume_uploaded_at" (Response 503 None))
    by (apply no_stamp_status; discriminate).
  assert (Hs : no_stamp "last_sync_at"
                 (Response 200 (Some (JArr [JObj [("last_sync_at", JNull)]]))))
    by (apply no_stamp_null; left; reflexivity).
  split; [repeat split; assumption|].
  exact (proj2 (check_if_analysis_needed_soft_absence_returns_false
                  Iso.fromisoformat "2024-01-05T00:00:00Z"
                  (mkDatetime 63840009600000000 (Some 0%Z))
                  _ _ _ Ha Hp Hr Hs)).
Defined.

(** ** The scenarios of the specification *)

(** A resume uploaded strictly after the last analysis triggers, whatever
    the connection lookup would answer. *)
Lemma check_if_analysis_needed_newer_resume
    (fromisoformat : string -> outcome datetime) (s r : string)
    (last resume_dt : datetime)
    (analyses profiles github_connections : http_result) :
  has_text "analyzed_at" s analyses ->
  fromisoformat (replace_Z s) = Returned last ->
  has_text "resume_uploaded_at" r profiles ->
  fromisoformat (replace_Z r) = Returned resume_dt ->
  dt_gt resume_dt last = Returned true ->
  check_if_analysis_needed fromisoformat analyses profiles
    github_connections = Returned true.
Proof.
  intros Hstamp Hparse Hresume Hrparse Hgt. unfold check_if_analysis_needed.
  rewrite (body_with_last_analysis _ _ _ _ _ _ Hstamp Hparse).
  unfold change_steps.
  rewrite (newer_has_text _ _ _ _ _ Hresume), Hrparse. cbn.
  now rewrite Hgt.
Qed.

Example scenario_user_A :
  check_if_analysis_needed Iso.fromisoformat
    (Sample.one_row "analyzed_at" "2024-01-01T00:00:00Z")
    (Sample.one_row "resume_uploaded_at" "2024-01-02T00:00:00Z")
    Sample.no_rows = Returned true.
Proof. vm_compute. reflexivity. Qed.

Example scenario_user_B :
  check_if_analysis_needed Iso.fromisoformat
    (Sample.one_row "analyzed_at" "2024-01-05T00:00:00Z")
    (Sample.one_row "resume_uploaded_at" "2024-01-01T00:00:00Z")
    (Response 200 (Some (JArr [JObj [("last_sync_at", JNull)]])))
  = Returned false.
Proof. vm_compute. reflexivity. Qed.

(** A naive and an aware timestamp do not compare: the [TypeError] is
    caught and the function answers [True]. *)
Example naive_against_aware_fails_open :
  check_if_analysis_needed Iso.fromisoformat
    (Sample.one_row "analyzed_at" "2024-01-05T00:00:00Z")
    (Sample.one_row "resume_uploaded_at" "2024-01-01T00:00:00")
    Sample.no_rows = Returned true.
Proof. vm_compute. reflexivity. Qed.

(** * Further properties of gemini_service.py *)

(** ** Dictionaries *)

Lemma assoc_get_set_same (k : string) (v : json) (l : list (string * json)) :
  assoc_get k (assoc_set k v l) = Some v.
Proof.
  induction l as [|[k' v'] l IH]; cbn.
  - now rewrite String.eqb_refl.
  - destruct (String.eqb k k') eqn:E; cbn.
    + now rewrite String.eqb_refl.
    + now rewrite E.
Qed.

Lemma assoc_get_set_other (k k' : string) (v : json)
    (l : list (string * json)) :
  k <> k' -> assoc_get k (assoc_set k' v l) = assoc_get k l.
Proof.
  intros Hne. apply String.eqb_neq in Hne.
  induction l as [|[k0 v0] l IH]; cbn.
  - now rewrite Hne.
  - destruct (String.eqb k' k0) eqn:E; cbn.
    + apply String.eqb_eq in E. subst k0. now rewrite Hne.
    + destruct (String.eqb k k0); [reflexivity|assumption].
Qed.

(** ** get_user_gemini_key *)

(** A key other than [None] can only be the [api_key_encrypted] field of
    the first row of a 200 answer that is a list of objects: every other
    answer (failed request, other status, undecodable or empty body, a
    body of another shape) yields [None]. *)
Theorem get_user_gemini_key_comes_from_first_row (answer : http_result)
    (key : json) :
  get_user_gemini_key answer = key ->
  key <> JNull ->
  exists row rest,
    answer = Response 200 (Some (JArr (JObj row :: rest)))
    /\ assoc_get "api_key_encrypted" row = Some key.
Proof.
  intros Hget Hkey. subst key. unfold get_user_gemini_key in *.
  destruct answer as [|status payload]; cbn in *; [contradiction|].
  unfold first_row in *.
  destruct (Z.eqb status 200) eqn:Hs; cbn in *; [|contradiction].
  apply Z.eqb_eq in Hs. subst status.
  destruct payload as [v|]; cbn in *; [|contradiction].
  destruct v as [| b | n | s | l | l]; cbn in *; try contradiction.
  - destruct b; cbn in *; contradiction.
  - destruct (negb (Z.eqb n 0)); cbn in *; contradiction.
  - destruct s; cbn in *; contradiction.
  - destruct l as [|r rest]; cbn in *; [contradiction|].
    destruct r as [| b | n | s | l' | row]; cbn in *; try contradiction.
    exists row, rest. split; [reflexivity|].
    destruct (assoc_get "api_key_encrypted" row); [reflexivity|contradiction].
  - destruct l; cbn in *; contradiction.
Qed.

Lemma get_user_gemini_key_comes_from_first_row_witness :
  get_user_gemini_key (Sample.user_key_stored 0) = JStr "user-key"
  /\ JStr "user-key" <> JNull
  /\ exists row rest,
       Sample.user_key_stored 0
       = Response 200 (Some (JArr (JObj row :: rest)))
       /\ assoc_get "api_key_encrypted" row = Some (JStr "user-key").
Proof.
  split; [reflexivity|]. split; [discriminate|].
  apply (get_user_gemini_key_comes_from_first_row
           (Sample.user_key_stored 0) (JStr "user-key"));
    [reflexivity|discriminate].
Defined.

(** ** get_api_key_for_user *)

Lemma get_api_key_for_user_source (settings : Settings)
    (answer : http_result) (k : json) (source : string) :
  get_api_key_for_user settings answer = Returned (k, source) ->
  source = "user" \/ source = "system".
Proof.
  unfold get_api_key_for_user.
  destruct (truthy _); [intros H; inversion H; now left|].
  destruct (str_truthy _); intros H; inversion H. now right.
Qed.

(** ** analyze_skill_gap: what a successful run returns *)

Section AnalyzeResults.

Variable json_loads : string -> option json.
Variable settings : Settings.
Variable user_api_keys : nat -> http_result.
Variable generate_content : nat -> option json -> gen_outcome.

Local Abbreviation analyze :=
  (analyze_skill_gap json_loads settings user_api_keys generate_content).

Lemma try_block_ok_is_tagged (key_source : string) (st : genai_state)
    (analysis : json) :
  try_block json_loads settings generate_content key_source st
  = TryOk analysis ->
  exists fields,
    analysis = JObj fields
    /\ assoc_get "model_used" fields = Some (JStr (GEMINI_MODEL settings))
    /\ assoc_get "api_key_source" fields = Some (JStr key_source).
Proof.
  unfold try_block.
  destruct (generate_content _ _) as [text|msg]; [|discriminate].
  destruct (match json_loads text with
            | Some v => v
            | None => _
            end) as [| b | n | s | l | fields]; cbn; try discriminate.
  intros H. inversion H. eexists. split; [reflexivity|].
  split; [apply assoc_get_set_same|].
  rewrite assoc_get_set_other by discriminate. apply assoc_get_set_same.
Qed.

Lemma analyze_result_names_model (fuel : nat) (st st' : genai_state)
    (analysis : json) :
  analyze fuel st = Done (Returned analysis) st' ->
  exists fields,
    analysis = JObj fields
    /\ assoc_get "model_used" fields = Some (JStr (GEMINI_MODEL settings)).
Proof.
  revert st. induction fuel as [|fuel IH]; intros st; [discriminate|].
  cbn [analyze_skill_gap].
  destruct (get_api_key_for_user settings (user_api_keys (lookups st)))
    as [[api_key key_source]|e]; [|discriminate].
  destruct (try_block _ _ _ _ _) as [a|error_msg] eqn:Htry.
  - intros H. inversion H. subst a.
    destruct (try_block_ok_is_tagged _ _ _ Htry) as [fields [-> [Hm _]]].
    now exists fields.
  - destruct (is_quota_error error_msg); [destruct (_ && _)|];
      try discriminate. apply IH.
Qed.

End AnalyzeResults.

(** Whatever [analyze_skill_gap] returns is a dict whose [model_used]
    entry is the configured model name and whose [api_key_source] entry
    is "user" or "system": the two assignments of lines 245-246 override
    entries of the same name in the model's own answer. *)
Theorem analyze_skill_gap_result_is_tagged
    (json_loads : string -> option json) (settings : Settings)
    (user_api_keys : nat -> http_result)
    (generate_content : nat -> option json -> gen_outcome)
    (fuel : nat) (st st' : genai_state) (analysis : json) :
  analyze_skill_gap json_loads settings user_api_keys generate_content
    fuel st = Done (Returned analysis) st' ->
  exists fields,
    analysis = JObj fields
    /\ assoc_get "model_used" fields = Some (JStr (GEMINI_MODEL settings))
    /\ (assoc_get "api_key_source" fields = Some (JStr "user")
        \/ assoc_get "api_key_source" fields = Some (JStr "system")).
Proof.
  revert st. induction fuel as [|fuel IH]; intros st; [discriminate|].
  cbn [analyze_skill_gap].
  destruct (get_api_key_for_user settings (user_api_keys (lookups st)))
    as [[api_key key_source]|e] eqn:Hkey; [|discriminate].
  destruct (try_block _ _ _ _ _) as [a|error_msg] eqn:Htry.
  - intros H. inversion H. subst a.
    destruct (try_block_ok_is_tagged _ _ _ _ _ _ Htry)
      as [fields [-> [Hm Hs]]].
    exists fields. split; [reflexivity|]. split; [assumption|].
    destruct (get_api_key_for_user_source _ _ _ _ Hkey) as [-> | ->];
      [now left | now right].
  - destruct (is_quota_error error_msg); [destruct (_ && _)|];
      try discriminate. apply IH.
Qed.

Lemma analyze_skill_gap_result_is_tagged_witness :
  analyze_skill_gap Sample.json_loads Sample.both_keys
    Sample.user_key_then_timeout Sample.quota_then_ok 4 initial_state
  = Done (Returned (JObj [("api_key_source", JStr "system");
                          ("model_used", JStr "gemini-1.5-pro")]))
         (mkState 2 (Some (JStr "system-key"))
                  [JStr "user-key"; JStr "system-key"])
  /\ exists fields,
       JObj [("api_key_source", JStr "system");
             ("model_used", JStr "gemini-1.5-pro")] = JObj fields
       /\ assoc_get "model_used" fields
          = Some (JStr (GEMINI_MODEL Sample.both_keys))
       /\ (assoc_get "api_key_source" fields = Some (JStr "user")
           \/ assoc_get "api_key_source" fields = Some (JStr "system")).
Proof.
  split; [reflexivity|].
  apply (analyze_skill_gap_result_is_tagged Sample.json_loads
           Sample.both_keys Sample.user_key_then_timeout
           Sample.quota_then_ok 4 initial_state
           (mkState 2 (Some (JStr "system-key"))
                    [JStr "user-key"; JStr "system-key"])).
  reflexivity.
Defined.

(** A model answer that is not JSON is not a failure: the text is kept
    under [raw_analysis] with [parse_error] set, tagged like any other
    result, and the run ends after that one call. *)
Theorem analyze_skill_gap_wraps_unparsed_text
    (json_loads : string -> option json) (settings : Settings)
    (user_api_keys : nat -> http_result)
    (generate_content : nat -> option json -> gen_outcome)
    (fuel : nat) (api_key : json) (key_source analysis_text : string) :
  get_api_key_for_user settings (user_api_keys 0)
  = Returned (api_key, key_source) ->
  generate_content 0 (Some api_key) = GenText analysis_text ->
  json_loads analysis_text = None ->
  analyze_skill_gap json_loads settings user_api_keys generate_content
    (S fuel) initial_state
  = Done (Returned (JObj [("raw_analysis", JStr analysis_text);
                          ("parse_error", JBool true);
                          ("api_key_source", JStr key_source);
                          ("model_used", JStr (GEMINI_MODEL settings))]))
         (mkState 1 (Some api_key) [api_key]).
Proof.
  intros Hkey Hgen Hjson. cbn [analyze_skill_gap]. cbn [lookups initial_state].
  rewrite Hkey. unfold try_block. cbn. now rewrite Hgen, Hjson.
Qed.

Lemma analyze_skill_gap_wraps_unparsed_text_witness :
  get_api_key_for_user Sample.both_keys (Sample.no_user_key 0)
  = Returned (JStr "system-key", "system")
  /\ (fun (_ : nat) (_ : option json) => GenText "Sorry, I cannot help.")
       0 (Some (JStr "system-key")) = GenText "Sorry, I cannot help."
  /\ Sample.json_loads "Sorry, I cannot help." = None
  /\ analyze_skill_gap Sample.json_loads Sample.both_keys
       Sample.no_user_key
       (fun _ _ => GenText "Sorry, I cannot help.") 3 initial_state
     = Done (Returned (JObj [("raw_analysis", JStr "Sorry, I cannot help.");
                             ("parse_error", JBool true);
                             ("api_key_source", JStr "system");
                             ("model_used", JStr "gemini-1.5-pro")]))
            (mkState 1 (Some (JStr "system-key")) [JStr "system-key"]).
Proof.
  split; [reflexivity|]. split; [reflexivity|]. split; [reflexivity|].
  apply (analyze_skill_gap_wraps_unparsed_text Sample.json_loads
           Sample.both_keys Sample.no_user_key
           (fun _ _ => GenText "Sorry, I cannot help.") 2
           (JStr "system-key") "system" "Sorry, I cannot help.");
    reflexivity.
Defined.

Lemma setitem_error_is_not_quota (v : json) :
  is_quota_error (setitem_error v) = false.
Proof. destruct v; reflexivity. Qed.

(** A model answer that is valid JSON but not an object (a list, a
    string, a number, null) makes the tagging of line 245 raise inside
    the [try]: the caller gets the generic exception with the text of
    that [TypeError], after one model call and without any retry, even
    under a user key with a system key configured. *)
Theorem analyze_skill_gap_rejects_non_object_json
    (json_loads : string -> option json) (settings : Settings)
    (user_api_keys : nat -> http_result)
    (generate_content : nat -> option json -> gen_outcome)
    (fuel : nat) (api_key : json) (key_source analysis_text : string)
    (v : json) :
  get_api_key_for_user settings (user_api_keys 0)
  = Returned (api_key, key_source) ->
  generate_content 0 (Some api_key) = GenText analysis_text ->
  json_loads analysis_text = Some v ->
  (forall fields, v <> JObj fields) ->
  analyze_skill_gap json_loads settings user_api_keys generate_content
    (S fuel) initial_state
  = Done (Raised (PyException (failure_prefix ++ setitem_error v)))
         (mkState 1 (Some api_key) [api_key]).
Proof.
  intros Hkey Hgen Hjson Hshape.
  assert (Htry : try_block json_loads settings generate_content key_source
                   (configure api_key
                      (mkState (S (lookups initial_state))
                         (configured initial_state) (calls initial_state)))
                 = TryFailed (setitem_error v)).
  { unfold try_block. cbn. rewrite Hgen, Hjson.
    destruct v; try reflexivity. now elim (Hshape l). }
  cbn [analyze_skill_gap].
  change (user_api_keys (lookups initial_state)) with (user_api_keys 0).
  rewrite Hkey, Htry.
  now rewrite setitem_error_is_not_quota.
Qed.

Lemma analyze_skill_gap_rejects_non_object_json_witness :
  get_api_key_for_user Sample.both_keys (Sample.user_key_stored 0)
  = Returned (JStr "user-key", "user")
  /\ (fun (_ : nat) (_ : option json) => GenText "[]")
       0 (Some (JStr "user-key")) = GenText "[]"
  /\ (fun s : string => if String.eqb s "[]" then Some (JArr []) else None)
       "[]" = Some (JArr [])
  /\ (forall fields, JArr [] <> JObj fields)
  /\ analyze_skill_gap
       (fun s => if String.eqb s "[]" then Some (JArr []) else None)
       Sample.both_keys Sample.user_key_stored
       (fun _ _ => GenText "[]") 3 initial_state
     = Done (Raised (PyException
               "Gemini analysis failed: list indices must be integers or slices, not str"))
            (mkState 1 (Some (JStr "user-key")) [JStr "user-key"]).
Proof.
  split; [reflexivity|]. split; [reflexivity|]. split; [reflexivity|].
  split; [discriminate|].
  apply (analyze_skill_gap_rejects_non_object_json
           (fun s => if String.eqb s "[]" then Some (JArr []) else None)
           Sample.both_keys Sample.user_key_stored
           (fun _ _ => GenText "[]") 2 (JStr "user-key") "user" "[]"
           (JArr [])); try reflexivity. discriminate.
Defined.

(** Without a usable key the function stops at line 72: the resolver's
    [ValueError] reaches the caller, [genai.configure] has not been
    called and the model has not been contacted. *)
Theorem analyze_skill_gap_without_key_calls_nothing
    (json_loads : string -> option json) (settings : Settings)
    (user_api_keys : nat -> http_result)
    (generate_content : nat -> option json -> gen_outcome) (fuel : nat) :
  truthy (get_user_gemini_key (user_api_keys 0)) = false ->
  GEMINI_API_KEY settings = "" ->
  analyze_skill_gap json_loads settings user_api_keys generate_content
    (S fuel) initial_state
  = Done (Raised (PyValueError no_key_message)) (mkState 1 None []).
Proof.
  intros Huser Hsys. cbn [analyze_skill_gap]. cbn [lookups initial_state].
  unfold get_api_key_for_user. now rewrite Huser, Hsys.
Qed.

Lemma analyze_skill_gap_without_key_calls_nothing_witness :
  truthy (get_user_gemini_key (Sample.no_user_key 0)) = false
  /\ GEMINI_API_KEY Sample.no_system_key = ""
  /\ analyze_skill_gap Sample.json_loads Sample.no_system_key
       Sample.no_user_key Sample.always_quota 9 initial_state
     = Done (Raised (PyValueError no_key_message)) (mkState 1 None []).
Proof.
  split; [reflexivity|]. split; [reflexivity|].
  apply (analyze_skill_gap_without_key_calls_nothing Sample.json_loads
           Sample.no_system_key Sample.no_user_key Sample.always_quota 8);
    reflexivity.
Defined.

(** ** The quota test *)

Lemma lower_app (a b : string) : lower (a ++ b) = lower a ++ lower b.
Proof. induction a as [|c a IH]; cbn; [reflexivity|now rewrite IH]. Qed.

Lemma prefix_nil (h : string) : String.prefix "" h = true.
Proof. now destruct h. Qed.
Lemma prefix_app_r (n h b : string) :
  String.prefix n h = true -> String.prefix n (h ++ b) = true.
Proof.
  revert h. induction n as [|c n IH]; intros h; [intros _; apply prefix_nil|].
  destruct h as [|c' h]; cbn; [discriminate|].
  destruct (ascii_dec c c'); [apply IH|discriminate].
Qed.
Lemma contains_unfold (n h : string) :
  contains n h = String.prefix n h
                 || match h with "" => false | String _ r => contains n r end.
Proof.
  destruct h as [|c h].
  - cbn [contains]. now destruct (String.prefix n "").
  - cbn [contains]. now destruct (String.prefix n (String c h)).
Qed.
Lemma contains_app_r (n h b : string) :
  contains n h = true -> contains n (h ++ b) = true.
Proof.
  induction h as [|c h IH]; rewrite (contains_unfold n), (contains_unfold n (_ ++ b));
    intros H; apply orb_true_iff in H; apply orb_true_iff.
  - destruct H as [H|H]; [|discriminate]. left. now apply prefix_app_r.
  - destruct H as [H|H].
    + left. now apply (prefix_app_r n (String c h) b).
    + right. cbn. now apply IH.
Qed.
Lemma contains_app_l (n a h : string) :
  contains n h = true -> contains n (a ++ h) = true.
Proof.
  intros H. induction a as [|c a IH]; [assumption|].
  rewrite contains_unfold. apply orb_true_iff. right. exact IH.
Qed.

(** The test is a substring test on the lowered text: any message that
    embeds a message taken for a quota error is taken for one too,
    whatever surrounds it. *)
Theorem is_quota_error_survives_embedding (before msg after : string) :
  is_quota_error msg = true ->
  is_quota_error (before ++ msg ++ after) = true.
Proof.
  unfold is_quota_error. rewrite !lower_app. intros H.
  apply orb_true_iff in H. apply orb_true_iff.
  destruct H as [H | H]; [left | right];
    apply contains_app_l, contains_app_r; exact H.
Qed.

Lemma is_quota_error_survives_embedding_witness :
  is_quota_error "Rate LIMIT reached" = true
  /\ is_quota_error ("HTTP 429: " ++ "Rate LIMIT reached" ++ " (retry later)")
     = true.
Proof.
  split; [reflexivity|].
  apply (is_quota_error_survives_embedding "HTTP 429: " "Rate LIMIT reached"
           " (retry later)"). reflexivity.
Defined.

(** The prefix put in front of a failure by the handler neither hides
    nor fakes a quota message: the text the caller receives passes the
    quota test exactly when the original text did. *)
Theorem is_quota_error_unchanged_by_failure_prefix (error_msg : string) :
  is_quota_error (failure_prefix ++ error_msg) = is_quota_error error_msg.
Proof.
  unfold is_quota_error, failure_prefix. rewrite lower_app. reflexivity.
Qed.

(** * Further properties of check_if_analysis_needed *)

Lemma check_if_analysis_needed_newer_resume_witness :
  (has_text "analyzed_at" "2024-01-01T00:00:00Z"
     (Sample.one_row "analyzed_at" "2024-01-01T00:00:00Z")
   /\ Iso.fromisoformat (replace_Z "2024-01-01T00:00:00Z")
      = Returned (mkDatetime 63839664000000000 (Some 0%Z))
   /\ has_text "resume_uploaded_at" "2024-01-02T00:00:00Z"
        (Sample.one_row "resume_uploaded_at" "2024-01-02T00:00:00Z")
   /\ Iso.fromisoformat (replace_Z "2024-01-02T00:00:00Z")
      = Returned (mkDatetime 63839750400000000 (Some 0%Z))
   /\ dt_gt (mkDatetime 63839750400000000 (Some 0%Z))
        (mkDatetime 63839664000000000 (Some 0%Z)) = Returned true)
  /\ check_if_analysis_needed Iso.fromisoformat
       (Sample.one_row "analyzed_at" "2024-01-01T00:00:00Z")
       (Sample.one_row "resume_uploaded_at" "2024-01-02T00:00:00Z")
       ConnectionFailed = Returned true.
Proof.
  assert (Ha : has_text "analyzed_at" "2024-01-01T00:00:00Z"
                 (Sample.one_row "analyzed_at" "2024-01-01T00:00:00Z"))
    by apply has_text_one_row.
  assert (Hp : Iso.fromisoformat (replace_Z "2024-01-01T00:00:00Z")
               = Returned (mkDatetime 63839664000000000 (Some 0%Z)))
    by (vm_compute; reflexivity).
  assert (Hr : has_text "resume_uploaded_at" "2024-01-02T00:00:00Z"
                 (Sample.one_row "resume_uploaded_at" "2024-01-02T00:00:00Z"))
    by apply has_text_one_row.
  assert (Hq : Iso.fromisoformat (replace_Z "2024-01-02T00:00:00Z")
               = Returned (mkDatetime 63839750400000000 (Some 0%Z)))
    by (vm_compute; reflexivity).
  assert (Hgt : dt_gt (mkDatetime 63839750400000000 (Some 0%Z))
                  (mkDatetime 63839664000000000 (Some 0%Z)) = Returned true)
    by reflexivity.
  split; [repeat split; assumption|].
  exact (check_if_analysis_needed_newer_resume Iso.fromisoformat
           "2024-01-01T00:00:00Z" "2024-01-02T00:00:00Z"
           (mkDatetime 63839664000000000 (Some 0%Z))
           (mkDatetime 63839750400000000 (Some 0%Z))
           _ _ ConnectionFailed Ha Hp Hr Hq Hgt).
Defined.

(** A sync that is strictly later than the last analysis triggers when
    the resume step found nothing newer. *)
Theorem check_if_analysis_needed_newer_sync
    (fromisoformat : string -> outcome datetime) (s g : string)
    (last sync_dt : datetime)
    (analyses profiles github_connections : http_result) :
  has_text "analyzed_at" s analyses ->
  fromisoformat (replace_Z s) = Returned last ->
  newer_than_last_analysis fromisoformat profiles "resume_uploaded_at" last
  = Returned false ->
  has_text "last_sync_at" g github_connections ->
  fromisoformat (replace_Z g) = Returned sync_dt ->
  dt_gt sync_dt last = Returned true ->
  check_if_analysis_needed fromisoformat analyses profiles
    github_connections = Returned true.
Proof.
  intros Hstamp Hparse Hresume Hsync Hsparse Hgt.
  unfold check_if_analysis_needed.
  rewrite (body_with_last_analysis _ _ _ _ _ _ Hstamp Hparse).
  unfold change_steps. rewrite Hresume. cbn.
  rewrite (newer_has_text _ _ _ _ _ Hsync), Hsparse. cbn.
  now rewrite Hgt.
Qed.

Lemma check_if_analysis_needed_newer_sync_witness :
  (has_text "analyzed_at" "2024-01-01T00:00:00Z"
     (Sample.one_row "analyzed_at" "2024-01-01T00:00:00Z")
   /\ Iso.fromisoformat (replace_Z "2024-01-01T00:00:00Z")
      = Returned (mkDatetime 63839664000000000 (Some 0%Z))
   /\ newer_than_last_analysis Iso.fromisoformat (Response 404 None)
        "resume_uploaded_at" (mkDatetime 63839664000000000 (Some 0%Z))
      = Returned false
   /\ has_text "last_sync_at" "2024-01-02T00:00:00Z"
        (Sample.one_row "last_sync_at" "2024-01-02T00:00:00Z")
   /\ Iso.fromisoformat (replace_Z "2024-01-02T00:00:00Z")
      = Returned (mkDatetime 63839750400000000 (Some 0%Z))
   /\ dt_gt (mkDatetime 63839750400000000 (Some 0%Z))
        (mkDatetime 63839664000000000 (Some 0%Z)) = Returned true)
  /\ check_if_analysis_needed Iso.fromisoformat
       (Sample.one_row "analyzed_at" "2024-01-01T00:00:00Z")
       (Response 404 None)
       (Sample.one_row "last_sync_at" "2024-01-02T00:00:00Z")
     = Returned true.
Proof.
  assert (Ha : has_text "analyzed_at" "2024-01-01T00:00:00Z"
                 (Sample.one_row "analyzed_at" "2024-01-01T00:00:00Z"))
    by apply has_text_one_row.
  assert (Hp : Iso.fromisoformat (replace_Z "2024-01-01T00:00:00Z")
               = Returned (mkDatetime 63839664000000000 (Some 0%Z)))
    by (vm_compute; reflexivity).
  assert (Hr : newer_than_last_analysis Iso.fromisoformat (Response 404 None)
                 "resume_uploaded_at"
                 (mkDatetime 63839664000000000 (Some 0%Z)) = Returned false)
    by reflexivity.
  assert (Hg : has_text "last_sync_at" "2024-01-02T00:00:00Z"
                 (Sample.one_row "last_sync_at" "2024-01-02T00:00:00Z"))
    by apply has_text_one_row.
  assert (Hq : Iso.fromisoformat (replace_Z "2024-01-02T00:00:00Z")
               = Returned (mkDatetime 63839750400000000 (Some 0%Z)))
    by (vm_compute; reflexivity).
  assert (Hgt : dt_gt (mkDatetime 63839750400000000 (Some 0%Z))
                  (mkDatetime 63839664000000000 (Some 0%Z)) = Returned true)
    by reflexivity.
  split; [repeat split; assumption|].
  exact (check_if_analysis_needed_newer_sync Iso.fromisoformat
           "2024-01-01T00:00:00Z" "2024-01-02T00:00:00Z"
           (mkDatetime 63839664000000000 (Some 0%Z))
           (mkDatetime 63839750400000000 (Some 0%Z))
           _ _ _ Ha Hp Hr Hg Hq Hgt).
Defined.

Lemma body_returns_false_inv (fromisoformat : string -> outcome datetime)
    (analyses profiles github_connections : http_result) :
  check_if_analysis_needed_body fromisoformat analyses profiles
    github_connections = Returned false ->
  exists s last,
    has_text "analyzed_at" s analyses
    /\ fromisoformat (replace_Z s) = Returned last
    /\ change_steps fromisoformat profiles github_connections last
       = Returned false.
Proof.
  unfold check_if_analysis_needed_body.
  destruct analyses as [|status payload]; cbn -[replace_Z]; [discriminate|].
  unfold first_row.
  destruct (Z.eqb status 200) eqn:Hs; cbn -[replace_Z]; [|discriminate].
  apply Z.eqb_eq in Hs. subst status.
  destruct payload as [v|]; cbn -[replace_Z]; [|discriminate].
  destruct (truthy v) eqn:Hv; cbn -[replace_Z]; [|discriminate].
  destruct v as [| b | n | t | l | l]; cbn -[replace_Z]; try discriminate.
  - destruct t; cbn -[replace_Z]; discriminate.
  - destruct l as [|r rest]; cbn -[replace_Z]; [discriminate|].
    destruct r as [| b | n | t | l' | row]; cbn -[replace_Z];
      try discriminate.
    destruct (assoc_get "analyzed_at" row) as [stamp|] eqn:Hrow;
      cbn -[replace_Z]; [|discriminate].
    destruct (truthy stamp) eqn:Hstamp; cbn -[replace_Z]; [|discriminate].
    destruct stamp as [| b | n | s | l' | l']; try discriminate.
    destruct (fromisoformat (replace_Z s)) as [last|e] eqn:Hparse;
      cbn -[replace_Z]; [|discriminate].
    intros Hsteps. exists s, last. split; [|split; [assumption|]].
    + exists row, rest. split; [reflexivity|]. split; [assumption|].
      intros ->. discriminate.
    + exact Hsteps.
Qed.

(** [False] means exactly this: the last analysis time was read and
    parsed, and both change steps ran to their end without finding
    anything newer.  No failure and no missing analysis record ever
    yields [False]. *)
Theorem check_if_analysis_needed_false_iff
    (fromisoformat : string -> outcome datetime)
    (analyses profiles github_connections : http_result) :
  check_if_analysis_needed fromisoformat analyses profiles
    github_connections = Returned false
  <-> exists s last,
        has_text "analyzed_at" s analyses
        /\ fromisoformat (replace_Z s) = Returned last
        /\ newer_than_last_analysis fromisoformat profiles
             "resume_uploaded_at" last = Returned false
        /\ newer_than_last_analysis fromisoformat github_connections
             "last_sync_at" last = Returned false.
Proof.
  split.
  - unfold check_if_analysis_needed.
    destruct (check_if_analysis_needed_body _ _ _ _) as [b|e] eqn:Hbody;
      [|discriminate].
    intros H. inversion H. subst b.
    destruct (body_returns_false_inv _ _ _ _ Hbody)
      as [s [last [Hstamp [Hparse Hsteps]]]].
    exists s, last. split; [assumption|]. split; [assumption|].
    unfold change_steps in Hsteps.
    destruct (newer_than_last_analysis _ profiles _ _) as [[|]|e];
      cbn in Hsteps; try discriminate.
    split; [reflexivity|].
    destruct (newer_than_last_analysis _ github_connections _ _) as [[|]|e];
      cbn in Hsteps; try discriminate. reflexivity.
  - intros [s [last [Hstamp [Hparse [Hresume Hsync]]]]].
    unfold check_if_analysis_needed.
    rewrite (body_with_last_analysis _ _ _ _ _ _ Hstamp Hparse).
    unfold change_steps. rewrite Hresume. cbn. now rewrite Hsync.
Qed.

(** A naive timestamp cannot be compared with an aware one: when the
    last analysis time and the resume time differ in that respect the
    comparison raises, and the function answers [True]. *)
Theorem check_if_analysis_needed_mixed_awareness
    (fromisoformat : string -> outcome datetime) (s r : string)
    (last resume_dt : datetime)
    (analyses profiles github_connections : http_result) :
  has_text "analyzed_at" s analyses ->
  fromisoformat (replace_Z s) = Returned last ->
  has_text "resume_uploaded_at" r profiles ->
  fromisoformat (replace_Z r) = Returned resume_dt ->
  (utcoffset last = None <-> utcoffset resume_dt <> None) ->
  check_if_analysis_needed fromisoformat analyses profiles
    github_connections = Returned true.
Proof.
  intros Hstamp Hparse Hresume Hrparse Hmixed.
  unfold check_if_analysis_needed.
  rewrite (body_with_last_analysis _ _ _ _ _ _ Hstamp Hparse).
  unfold change_steps.
  rewrite (newer_has_text _ _ _ _ _ Hresume), Hrparse. cbn.
  unfold dt_gt.
  destruct (utcoffset resume_dt) as [o|], (utcoffset last) as [o'|];
    try reflexivity; exfalso.
  - assert (H : Some o <> None) by discriminate.
    apply Hmixed in H. discriminate.
  - destruct Hmixed as [H _]. now apply (H eq_refl).
Qed.

Lemma check_if_analysis_needed_mixed_awareness_witness :
  (has_text "analyzed_at" "2024-01-05T00:00:00Z"
     (Sample.one_row "analyzed_at" "2024-01-05T00:00:00Z")
   /\ Iso.fromisoformat (replace_Z "2024-01-05T00:00:00Z")
      = Returned (mkDatetime 63840009600000000 (Some 0%Z))
   /\ has_text "resume_uploaded_at" "2024-01-01T00:00:00"
        (Sample.one_row "resume_uploaded_at" "2024-01-01T00:00:00")
   /\ Iso.fromisoformat (replace_Z "2024-01-01T00:00:00")
      = Returned (mkDatetime 63839664000000000 None)
   /\ (utcoffset (mkDatetime 63840009600000000 (Some 0%Z)) = None
       <-> utcoffset (mkDatetime 63839664000000000 None) <> None))
  /\ check_if_analysis_needed Iso.fromisoformat
       (Sample.one_row "analyzed_at" "2024-01-05T00:00:00Z")
       (Sample.one_row "resume_uploaded_at" "2024-01-01T00:00:00")
       Sample.no_rows = Returned true.
Proof.
  assert (Ha : has_text "analyzed_at" "2024-01-05T00:00:00Z"
                 (Sample.one_row "analyzed_at" "2024-01-05T00:00:00Z"))
    by apply has_text_one_row.
  assert (Hp : Iso.fromisoformat (replace_Z "2024-01-05T00:00:00Z")
               = Returned (mkDatetime 63840009600000000 (Some 0%Z)))
    by (vm_compute; reflexivity).
  assert (Hr : has_text "resume_uploaded_at" "2024-01-01T00:00:00"
                 (Sample.one_row "resume_uploaded_at" "2024-01-01T00:00:00"))
    by apply has_text_one_row.
  assert (Hq : Iso.fromisoformat (replace_Z "2024-01-01T00:00:00")
               = Returned (mkDatetime 63839664000000000 None))
    by (vm_compute; reflexivity).
  assert (Hm : utcoffset (mkDatetime 63840009600000000 (Some 0%Z)) = None
               <-> utcoffset (mkDatetime 63839664000000000 None) <> None).
  { cbn. split; [discriminate|]. intros H. now elim H. }
  split; [repeat split; try assumption; apply Hm|].
  exact (check_if_analysis_needed_mixed_awareness Iso.fromisoformat
           "2024-01-05T00:00:00Z" "2024-01-01T00:00:00"
           (mkDatetime 63840009600000000 (Some 0%Z))
           (mkDatetime 63839664000000000 None)
           _ _ Sample.no_rows Ha Hp Hr Hq Hm).
Defined.

(** A last-analysis time that is not text (a number, a list, a boolean,
    null) counts as never analyzed: the function answers [True] without
    looking at the change signals. *)
Theorem check_if_analysis_needed_non_text_time
    (fromisoformat : string -> outcome datetime)
    (row : list (string * json)) (rest : list json) (stamp : json)
    (profiles github_connections : http_result) :
  assoc_get "analyzed_at" row = Some stamp ->
  (forall s, stamp <> JStr s) ->
  check_if_analysis_needed fromisoformat
    (Response 200 (Some (JArr (JObj row :: rest))))
    profiles github_connections = Returned true.
Proof.
  intros Hrow Hshape.
  unfold check_if_analysis_needed, check_if_analysis_needed_body.
  cbn -[replace_Z]. rewrite Hrow. cbn -[replace_Z].
  destruct (truthy stamp); cbn -[replace_Z]; [|reflexivity].
  destruct stamp; try reflexivity. now elim (Hshape s).
Qed.

Lemma check_if_analysis_needed_non_text_time_witness :
  assoc_get "analyzed_at" [("analyzed_at", JNum 1704067200)]
  = Some (JNum 1704067200)
  /\ (forall s, JNum 1704067200 <> JStr s)
  /\ check_if_analysis_needed Iso.fromisoformat
       (Response 200 (Some (JArr [JObj [("analyzed_at", JNum 1704067200)]])))
       Sample.no_rows Sample.no_rows = Returned true.
Proof.
  split; [reflexivity|]. split; [discriminate|].
  apply (check_if_analysis_needed_non_text_time Iso.fromisoformat
           [("analyzed_at", JNum 1704067200)] [] (JNum 1704067200));
    [reflexivity|discriminate].
Defined.

Lemma replace_Z_app (a b : string) :
  replace_Z (a ++ b) = replace_Z a ++ replace_Z b.
Proof.
  induction a as [|c a IH]; cbn; [reflexivity|].
  destruct (Ascii.eqb c "Z"); rewrite IH; reflexivity.
Qed.

Lemma replace_Z_suffix (t : string) :
  replace_Z (t ++ "Z") = replace_Z (t ++ "+00:00").
Proof. now rewrite !replace_Z_app. Qed.

Lemma str_truthy_app_r (t : string) (c : ascii) (u : string) :
  str_truthy (t ++ String c u) = true.
Proof. now destruct t. Qed.

Lemma newer_than_last_analysis_Z_suffix
    (fromisoformat : string -> outcome datetime) (field t : string)
    (row : list (string * json)) (rest : list json) (last : datetime) :
  newer_than_last_analysis fromisoformat
    (Response 200 (Some (JArr (JObj ((field, JStr (t ++ "Z")) :: row)
                                 :: rest)))) field last
  = newer_than_last_analysis fromisoformat
      (Response 200 (Some (JArr (JObj ((field, JStr (t ++ "+00:00")) :: row)
                                   :: rest)))) field last.
Proof.
  unfold newer_than_last_analysis. cbn -[replace_Z String.append].
  rewrite String.eqb_refl. cbn -[replace_Z String.append].
  rewrite !str_truthy_app_r. now rewrite replace_Z_suffix.
Qed.

(** The trailing "Z" of a timestamp and the offset "+00:00" are read
    alike, in each of the three lookups and by any reader: the answer of
    the function is the same whichever of the two the store sends. *)
Theorem check_if_analysis_needed_Z_is_utc
    (fromisoformat : string -> outcome datetime) (ta tp tg : string)
    (ra rp rg : list (string * json)) (la lp lg : list json) :
  check_if_analysis_needed fromisoformat
    (Response 200
       (Some (JArr (JObj (("analyzed_at", JStr (ta ++ "Z")) :: ra) :: la))))
    (Response 200
       (Some (JArr (JObj (("resume_uploaded_at", JStr (tp ++ "Z")) :: rp)
                      :: lp))))
    (Response 200
       (Some (JArr (JObj (("last_sync_at", JStr (tg ++ "Z")) :: rg) :: lg))))
  = check_if_analysis_needed fromisoformat
      (Response 200
         (Some (JArr (JObj (("analyzed_at", JStr (ta ++ "+00:00")) :: ra)
                        :: la))))
      (Response 200
         (Some (JArr (JObj (("resume_uploaded_at", JStr (tp ++ "+00:00"))
                              :: rp) :: lp))))
      (Response 200
         (Some (JArr (JObj (("last_sync_at", JStr (tg ++ "+00:00")) :: rg)
                        :: lg)))).
Proof.
  unfold check_if_analysis_needed, check_if_analysis_needed_body.
  cbn -[replace_Z String.append newer_than_last_analysis].
  rewrite !str_truthy_app_r.
  cbn -[replace_Z String.append newer_than_last_analysis].
  rewrite replace_Z_suffix.
  destruct (fromisoformat (replace_Z (ta ++ "+00:00"))) as [last|e];
    cbn -[replace_Z String.append newer_than_last_analysis];
    [|reflexivity].
  now rewrite !newer_than_last_analysis_Z_suffix.
Qed.

(** * Properties of the rest of data_service.py *)

(** ** set_preferred_roles *)

(** The requests of the insertion loop for [roles], numbered from [i]. *)
Lemma insert_roles_returns (str_lower str_strip : string -> string)
    (post : list (string * json) -> http_result)
    (user_id : string) (roles : list string) :
  forall (i : nat) (sofar : list string) (sent : list store_request)
         (done : list string) (sent' : list store_request),
    insert_roles str_lower str_strip post user_id i roles sofar sent
    = (Returned done, sent') ->
    exists added,
      done = (sofar ++ added)%list
      /\ incl added roles
      /\ List.length added <= List.length roles
      /\ sent' = (sent ++ List.map
                    (fun p => PostRow "user_preferred_roles"
                                (role_data str_lower str_strip user_id
                                   (fst p) (snd p)))
                    (combine roles (seq i (List.length roles))))%list.
Proof.
  induction roles as [|role rest IH]; intros i sofar sent done sent' H.
  - cbn in H. inversion H. subst. exists []. rewrite !app_nil_r.
    repeat split; [apply incl_refl | cbn; lia].
  - cbn [insert_roles] in H.
    destruct (requests_send
                (post (role_data str_lower str_strip user_id role i)))
      as [response|e]; [|discriminate].
    apply IH in H. destruct H as [added [Hdone [Hincl [Hlen Hsent]]]].
    destruct (ok_or_created (fst response)).
    + exists (role :: added). rewrite <- app_assoc in Hdone.
      split; [exact Hdone|]. split.
      * intros x [-> | Hx]; [now left | right; now apply Hincl].
      * split; [cbn; lia|]. rewrite Hsent, <- app_assoc. reflexivity.
    + exists added. split; [exact Hdone|]. split.
      * intros x Hx. right. now apply Hincl.
      * split; [cbn; lia|]. rewrite Hsent, <- app_assoc. reflexivity.
Qed.

(** When [set_preferred_roles] returns, [count] is the number of roles
    inserted, at most three; every inserted role is one of the first
    three asked for; and the requests sent are the delete followed by one
    insertion for each of the first three roles, in order, with
    priorities 1, 2, 3, each row holding the role as given and the role
    as [role.lower().strip()] makes it.  A fourth role is never sent. *)
Theorem set_preferred_roles_sends_first_three
    (str_lower str_strip : string -> string) (delete : http_result)
    (post : list (string * json) -> http_result)
    (user_id : string) (roles : list string)
    (result : roles_result) (sent : list store_request) :
  set_preferred_roles str_lower str_strip delete post user_id roles
  = (Returned result, sent) ->
  count result = List.length (inserted result)
  /\ count result <= 3
  /\ incl (inserted result) (firstn 3 roles)
  /\ sent = DeleteRows "user_preferred_roles" user_id
            :: List.map
                 (fun p => PostRow "user_preferred_roles"
                             (role_data str_lower str_strip user_id
                                (fst p) (snd p)))
                 (combine (firstn 3 roles) [1; 2; 3]).
Proof.
  unfold set_preferred_roles.
  destruct (requests_send delete) as [response|e]; [|discriminate].
  destruct (insert_roles _ _ post user_id 1 (firstn 3 roles) [] _)
    as [[done|e] sent'] eqn:Hloop; [|discriminate].
  intros H. inversion H. subst. cbn [count inserted].
  destruct (insert_roles_returns _ _ _ _ _ _ _ _ _ _ Hloop)
    as [added [Hdone [Hincl [Hlen Hsent]]]].
  cbn in Hdone. subst done.
  assert (Hthree : List.length (firstn 3 roles) <= 3)
    by apply firstn_le_length.
  split; [reflexivity|]. split; [lia|]. split; [assumption|].
  rewrite Hsent. cbn [app]. f_equal. f_equal.
  destruct roles as [|a [|b [|c rest]]]; reflexivity.
Qed.

Lemma set_preferred_roles_sends_first_three_witness :
  set_preferred_roles lower AsciiText.strip (Response 204 None)
    (fun row => match assoc_get "priority" row with
                | Some (JNum 2) => Response 500 None
                | _ => Response 201 None
                end)
    "u1" [" Data Engineer"; "ML Engineer"; "SRE "; "Architect"]
  = (Returned (mkRolesResult [" Data Engineer"; "SRE "] 2),
     [DeleteRows "user_preferred_roles" "u1";
      PostRow "user_preferred_roles"
        [("user_id", JStr "u1"); ("role_name", JStr " Data Engineer");
         ("role_name_normalized", JStr "data engineer");
         ("priority", JNum 1)];
      PostRow "user_preferred_roles"
        [("user_id", JStr "u1"); ("role_name", JStr "ML Engineer");
         ("role_name_normalized", JStr "ml engineer");
         ("priority", JNum 2)];
      PostRow "user_preferred_roles"
        [("user_id", JStr "u1"); ("role_name", JStr "SRE ");
         ("role_name_normalized", JStr "sre");
         ("priority", JNum 3)]])
  /\ count (mkRolesResult [" Data Engineer"; "SRE "] 2) <= 3.
Proof.
  split; [reflexivity|].
  apply (set_preferred_roles_sends_first_three lower AsciiText.strip
           (Response 204 None)
           (fun row => match assoc_get "priority" row with
                       | Some (JNum 2) => Response 500 None
                       | _ => Response 201 None
                       end)
           "u1" [" Data Engineer"; "ML Engineer"; "SRE "; "Architect"]
           (mkRolesResult [" Data Engineer"; "SRE "] 2)
           [DeleteRows "user_preferred_roles" "u1";
            PostRow "user_preferred_roles"
              (role_data lower AsciiText.strip "u1" " Data Engineer" 1);
            PostRow "user_preferred_roles"
              (role_data lower AsciiText.strip "u1" "ML Engineer" 2);
            PostRow "user_preferred_roles"
              (role_data lower AsciiText.strip "u1" "SRE " 3)]).
  reflexivity.
Defined.

Lemma insert_roles_all_refused (str_lower str_strip : string -> string)
    (post : list (string * json) -> http_result)
    (user_id : string) (roles : list string) :
  (forall row, exists status payload,
      post row = Response status payload /\ ok_or_created status = false) ->
  forall i sofar sent,
    fst (insert_roles str_lower str_strip post user_id i roles sofar sent)
    = Returned sofar.
Proof.
  intros Hpost. induction roles as [|role rest IH]; intros i sofar sent.
  - reflexivity.
  - cbn [insert_roles].
    destruct (Hpost (role_data str_lower str_strip user_id role i))
      as [st [b [-> Hst]]].
    cbn. rewrite Hst. apply IH.
Qed.

(** The answers to the insertions are only used to fill [inserted]: when
    the store refuses every row, the function has already had the old
    roles deleted and still returns normally, with nothing inserted and
    a count of zero. *)
Theorem set_preferred_roles_refusals_are_silent
    (str_lower str_strip : string -> string)
    (status : Z) (payload : option json)
    (post : list (string * json) -> http_result)
    (user_id : string) (roles : list string) :
  (forall row, exists st b,
      post row = Response st b /\ ok_or_created st = false) ->
  fst (set_preferred_roles str_lower str_strip (Response status payload)
         post user_id roles)
  = Returned (mkRolesResult [] 0)
  /\ hd_error (snd (set_preferred_roles str_lower str_strip
                      (Response status payload) post user_id roles))
     = Some (DeleteRows "user_preferred_roles" user_id).
Proof.
  intros Hpost. unfold set_preferred_roles. cbn [requests_send requests_get].
  pose proof (insert_roles_all_refused str_lower str_strip post user_id
                (firstn 3 roles) Hpost
                1 [] [DeleteRows "user_preferred_roles" user_id]) as Hfst.
  destruct (insert_roles _ _ post user_id 1 (firstn 3 roles) [] _)
    as [[done|e] sent'] eqn:Hloop; cbn in Hfst; [|discriminate].
  inversion Hfst. subst done. split; [reflexivity|].
  destruct (insert_roles_returns _ _ _ _ _ _ _ _ _ _ Hloop)
    as [added [_ [_ [_ Hsent]]]].
  cbn [snd]. rewrite Hsent. reflexivity.
Qed.

Lemma set_preferred_roles_refusals_are_silent_witness :
  (forall row : list (string * json), exists st b,
      (fun _ : list (string * json) => Response 503 None) row
      = Response st b /\ ok_or_created st = false)
  /\ fst (set_preferred_roles lower AsciiText.strip (Response 204 None)
            (fun _ => Response 503 None) "u1" ["SRE"; "Architect"])
     = Returned (mkRolesResult [] 0)
  /\ hd_error (snd (set_preferred_roles lower AsciiText.strip
                      (Response 204 None)
                      (fun _ => Response 503 None) "u1"
                      ["SRE"; "Architect"]))
     = Some (DeleteRows "user_preferred_roles" "u1").
Proof.
  assert (H : forall row : list (string * json), exists st b,
             (fun _ : list (string * json) => Response 503 None) row
             = Response st b /\ ok_or_created st = false).
  { intros row. exists 503%Z, None. split; reflexivity. }
  split; [exact H|].
  exact (set_preferred_roles_refusals_are_silent lower AsciiText.strip
           204 None (fun _ => Response 503 None) "u1"
           ["SRE"; "Architect"] H).
Defined.

(** ** save_user_api_key *)

Lemma str_len_append (a b : string) :
  str_len (a ++ b) = str_len a + str_len b.
Proof.
  induction a as [|c a IH]; cbn [String.append str_len]; [reflexivity|].
  destruct (is_continuation c); rewrite IH; reflexivity.
Qed.

Lemma str_len_str_prefix_le (n : nat) (s : string) :
  str_len (str_prefix n s) <= n.
Proof.
  revert n. induction s as [|c s IH]; intros n; cbn [str_prefix str_len].
  - lia.
  - destruct (is_continuation c) eqn:Hc.
    + cbn [str_len]. rewrite Hc. apply IH.
    + destruct n as [|n]; cbn [str_len]; [lia|].
      rewrite Hc. specialize (IH n). lia.
Qed.

Lemma str_len_str_prefix (n : nat) (s : string) :
  n <= str_len s -> str_len (str_prefix n s) = n.
Proof.
  revert n. induction s as [|c s IH]; intros n; cbn [str_prefix str_len].
  - lia.
  - destruct (is_continuation c) eqn:Hc.
    + intros H. cbn [str_len]. rewrite Hc. now apply IH.
    + intros H. destruct n as [|n]; cbn [str_len]; [reflexivity|].
      rewrite Hc. rewrite IH; lia.
Qed.

Lemma str_prefix_is_prefix (n : nat) (s : string) :
  String.prefix (str_prefix n s) s = true.
Proof.
  revert n. induction s as [|c s IH]; intros n; cbn [str_prefix].
  - reflexivity.
  - destruct (is_continuation c).
    + cbn. destruct (ascii_dec c c); [apply IH|congruence].
    + destruct n as [|n]; [reflexivity|].
      cbn. destruct (ascii_dec c c); [apply IH|congruence].
Qed.

(** Text is counted and cut by character, not by byte: a key of nine
    two-byte characters is shown by its first eight, and an error text
    of sixty such characters passes the cut at one hundred whole. *)
Example text_is_cut_by_character :
  str_len "ééééééééé" = 9
  /\ key_prefix "ééééééééé" = "éééééééé..."
  /\ key_prefix "ééééé" = "ééééé"
  /\ py_iter (JStr "aé") = Returned [JStr "a"; JStr "é"]
  /\ (let text := String.concat "" (repeat "é" 60) in
      str_len text = 60 /\ str_prefix 100 text = text).
Proof. vm_compute. repeat split. Qed.

(** What [save_user_api_key] sends is what [get_user_gemini_key] reads:
    whenever the function returns, it sent a single request, a post
    reported as "created" or a patch reported as "updated", whose row
    holds the key itself under [api_key_encrypted], so a lookup answered
    with that row gives the key back unchanged, and a non-empty key is
    then resolved with source "user". *)
Theorem save_user_api_key_round_trip
    (sha256_hexdigest : string -> string) (existing write : http_result)
    (user_id api_key : string) (result : save_result)
    (sent : list store_request) :
  save_user_api_key sha256_hexdigest existing write user_id api_key
  = (Returned result, sent) ->
  exists row,
    (sent = [PostRow "user_api_keys" row] /\ save_status result = "created"
     \/ exists key_id,
          sent = [PatchRow "user_api_keys" key_id row]
          /\ save_status result = "updated")
    /\ get_user_gemini_key (Response 200 (Some (JArr [JObj row])))
       = JStr api_key
    /\ (api_key <> "" ->
        forall settings,
          get_api_key_for_user settings
            (Response 200 (Some (JArr [JObj row])))
          = Returned (JStr api_key, "user")).
Proof.
  unfold save_user_api_key.
  destruct (resp <- requests_get existing ;; first_row (fst resp) (snd resp))
    as [[row|]|e]; [| |discriminate].
  - destruct (getitem row "id") as [key_id|e]; [|discriminate].
    destruct (requests_send write) as [response|e]; [|discriminate].
    intros H. inversion H. subst.
    exists (key_data sha256_hexdigest user_id api_key).
    split; [right; exists key_id; split; reflexivity|].
    split; [reflexivity|].
    intros Hne settings. unfold get_api_key_for_user.
    replace (get_user_gemini_key _) with (JStr api_key) by reflexivity.
    cbn. destruct api_key; [contradiction|reflexivity].
  - destruct (requests_send write) as [response|e]; [|discriminate].
    intros H. inversion H. subst.
    exists (key_data sha256_hexdigest user_id api_key).
    split; [left; split; reflexivity|].
    split; [reflexivity|].
    intros Hne settings. unfold get_api_key_for_user.
    replace (get_user_gemini_key _) with (JStr api_key) by reflexivity.
    cbn. destruct api_key; [contradiction|reflexivity].
Qed.

Lemma save_user_api_key_round_trip_witness :
  save_user_api_key (fun _ => "hash") Sample.no_rows (Response 500 None)
    "u1" "AIzaSyD-1234567890"
  = (Returned (mkSaveResult "created" "AIzaSyD-..."),
     [PostRow "user_api_keys"
        (key_data (fun _ => "hash") "u1" "AIzaSyD-1234567890")])
  /\ exists row,
       ([PostRow "user_api_keys"
           (key_data (fun _ => "hash") "u1" "AIzaSyD-1234567890")]
        = [PostRow "user_api_keys" row]
        /\ save_status (mkSaveResult "created" "AIzaSyD-...") = "created"
        \/ exists key_id,
             [PostRow "user_api_keys"
                (key_data (fun _ => "hash") "u1" "AIzaSyD-1234567890")]
             = [PatchRow "user_api_keys" key_id row]
             /\ save_status (mkSaveResult "created" "AIzaSyD-...")
                = "updated")
       /\ get_user_gemini_key (Response 200 (Some (JArr [JObj row])))
          = JStr "AIzaSyD-1234567890"
       /\ ("AIzaSyD-1234567890" <> "" ->
           forall settings,
             get_api_key_for_user settings
               (Response 200 (Some (JArr [JObj row])))
             = Returned (JStr "AIzaSyD-1234567890", "user")).
Proof.
  split; [reflexivity|].
  apply (save_user_api_key_round_trip (fun _ => "hash") Sample.no_rows
           (Response 500 None) "u1" "AIzaSyD-1234567890"
           (mkSaveResult "created" "AIzaSyD-...")
           [PostRow "user_api_keys"
              (key_data (fun _ => "hash") "u1" "AIzaSyD-1234567890")]).
  reflexivity.
Defined.

(** ** store_analysis_result *)

Ltac step_bind H :=
  match type of H with
  | bind ?c _ = Returned _ =>
      let v := fresh "v" in
      let E := fresh "E" in
      destruct c as [v|] eqn:E; cbn [bind] in H; [|discriminate H]
  end.

Lemma analysis_data_model_version (user : json) (roles : list json)
    (fields : list (string * json)) (now_iso : string) (model : json)
    (data : list (string * json)) :
  assoc_get "model_used" fields = Some model ->
  analysis_data user roles (JObj fields) now_iso = Returned data ->
  assoc_get "model_version" data = Some model.
Proof.
  intros Hmodel H. unfold analysis_data in H.
  step_bind H. cbn [dict_get_default] in H. rewrite Hmodel in H.
  cbn [bind] in H.
  repeat step_bind H.
  inversion H. reflexivity.
Qed.

(** The row stored for an analysis that [analyze_skill_gap] returned
    always names the configured model: the default "gemini-2.5-pro" of
    line 87 is never used for such an analysis. *)
Theorem stored_model_version_is_configured_model
    (json_loads : string -> option json) (settings : Settings)
    (user_api_keys : nat -> http_result)
    (generate_content : nat -> option json -> gen_outcome)
    (fuel : nat) (st st' : genai_state) (analysis : json)
    (user : json) (roles : list json) (now_iso : string)
    (data : list (string * json)) :
  analyze_skill_gap json_loads settings user_api_keys generate_content
    fuel st = Done (Returned analysis) st' ->
  analysis_data user roles analysis now_iso = Returned data ->
  assoc_get "model_version" data = Some (JStr (GEMINI_MODEL settings)).
Proof.
  intros Hrun Hdata.
  destruct (analyze_result_names_model _ _ _ _ _ _ _ _ Hrun)
    as [fields [-> Hmodel]].
  exact (analysis_data_model_version _ _ _ _ _ _ Hmodel Hdata).
Qed.

Lemma stored_model_version_is_configured_model_witness :
  analyze_skill_gap Sample.json_loads Sample.both_keys
    Sample.no_user_key (fun _ _ => GenText "{}") 2 initial_state
  = Done (Returned (JObj [("api_key_source", JStr "system");
                          ("model_used", JStr "gemini-1.5-pro")]))
         (mkState 1 (Some (JStr "system-key")) [JStr "system-key"])
  /\ analysis_data (JStr "u1") [JStr "SRE"]
       (JObj [("api_key_source", JStr "system");
              ("model_used", JStr "gemini-1.5-pro")])
       "2024-01-05T00:00:00+00:00"
     = Returned [("user_id", JStr "u1");
                 ("target_job_title", JStr "SRE");
                 ("model_version", JStr "gemini-1.5-pro");
                 ("gap_percentage", JNum 0);
                 ("role_fit_score", JNum 0);
                 ("matched_skills", JArr []);
                 ("missing_skills", JArr []);
                 ("partial_skills", JArr []);
                 ("recommendations", JObj []);
                 ("market_demand_score", JNum 0);
                 ("trend_direction", JStr "stable");
                 ("status", JStr "completed");
                 ("analyzed_at", JStr "2024-01-05T00:00:00+00:00")]
  /\ assoc_get "model_version"
       [("user_id", JStr "u1");
        ("target_job_title", JStr "SRE");
        ("model_version", JStr "gemini-1.5-pro");
        ("gap_percentage", JNum 0);
        ("role_fit_score", JNum 0);
        ("matched_skills", JArr []);
        ("missing_skills", JArr []);
        ("partial_skills", JArr []);
        ("recommendations", JObj []);
        ("market_demand_score", JNum 0);
        ("trend_direction", JStr "stable");
        ("status", JStr "completed");
        ("analyzed_at", JStr "2024-01-05T00:00:00+00:00")]
     = Some (JStr (GEMINI_MODEL Sample.both_keys)).
Proof.
  split; [reflexivity|]. split; [reflexivity|].
  apply (stored_model_version_is_configured_model Sample.json_loads
           Sample.both_keys Sample.no_user_key (fun _ _ => GenText "{}")
           2 initial_state
           (mkState 1 (Some (JStr "system-key")) [JStr "system-key"])
           (JObj [("api_key_source", JStr "system");
                  ("model_used", JStr "gemini-1.5-pro")])
           (JStr "u1") [JStr "SRE"] "2024-01-05T00:00:00+00:00");
    reflexivity.
Defined.

Lemma texts_of_strings (roles : list string) :
  texts (List.map JStr roles) = Returned roles.
Proof.
  induction roles as [|r roles IH]; cbn; [reflexivity|now rewrite IH].
Qed.

Lemma unparsed_text_row (post : http_result)
    (user : json) (roles : list string)
    (analysis_text key_source model now_iso : string) :
  snd (store_analysis_result post user (List.map JStr roles)
         (JObj [("raw_analysis", JStr analysis_text);
                ("parse_error", JBool true);
                ("api_key_source", JStr key_source);
                ("model_used", JStr model)])
         now_iso)
  = [PostRow "skill_gap_analyses"
       [("user_id", user);
        ("target_job_title", JStr (join ", " roles));
        ("model_version", JStr model);
        ("gap_percentage", JNum 0);
        ("role_fit_score", JNum 0);
        ("matched_skills", JArr []);
        ("missing_skills", JArr []);
        ("partial_skills", JArr []);
        ("recommendations", JObj []);
        ("market_demand_score", JNum 0);
        ("trend_direction", JStr "stable");
        ("status", JStr "completed");
        ("analyzed_at", JStr now_iso)]].
Proof.
  unfold store_analysis_result, analysis_data, py_join.
  rewrite texts_of_strings. cbn.
  destruct (requests_send post); reflexivity.
Qed.

(** A model answer that could not be parsed is stored like any other
    analysis: [analyze_skill_gap] returns, and the row that
    [store_analysis_result] sends for what it returned has status
    "completed", gap and fit 0, no skills and no recommendations; nothing
    in the row records the parse failure. *)
Theorem unparsed_analysis_is_stored_as_completed
    (json_loads : string -> option json) (settings : Settings)
    (user_api_keys : nat -> http_result)
    (generate_content : nat -> option json -> gen_outcome)
    (fuel : nat) (api_key : json) (key_source analysis_text : string)
    (post : http_result) (user : json) (roles : list string)
    (now_iso : string) :
  get_api_key_for_user settings (user_api_keys 0)
  = Returned (api_key, key_source) ->
  generate_content 0 (Some api_key) = GenText analysis_text ->
  json_loads analysis_text = None ->
  exists analysis st,
    analyze_skill_gap json_loads settings user_api_keys generate_content
      (S fuel) initial_state = Done (Returned analysis) st
    /\ snd (store_analysis_result post user (List.map JStr roles) analysis
              now_iso)
       = [PostRow "skill_gap_analyses"
            [("user_id", user);
             ("target_job_title", JStr (join ", " roles));
             ("model_version", JStr (GEMINI_MODEL settings));
             ("gap_percentage", JNum 0);
             ("role_fit_score", JNum 0);
             ("matched_skills", JArr []);
             ("missing_skills", JArr []);
             ("partial_skills", JArr []);
             ("recommendations", JObj []);
             ("market_demand_score", JNum 0);
             ("trend_direction", JStr "stable");
             ("status", JStr "completed");
             ("analyzed_at", JStr now_iso)]].
Proof.
  intros Hkey Hgen Hjson.
  exists (JObj [("raw_analysis", JStr analysis_text);
                ("parse_error", JBool true);
                ("api_key_source", JStr key_source);
                ("model_used", JStr (GEMINI_MODEL settings))]),
         (mkState 1 (Some api_key) [api_key]).
  split; [|apply unparsed_text_row].
  cbn [analyze_skill_gap]. cbn [lookups initial_state].
  rewrite Hkey. unfold try_block. cbn. now rewrite Hgen, Hjson.
Qed.

Lemma unparsed_analysis_is_stored_as_completed_witness :
  get_api_key_for_user Sample.both_keys (Sample.no_user_key 0)
  = Returned (JStr "system-key", "system")
  /\ (fun (_ : nat) (_ : option json) => GenText "I am sorry.")
       0 (Some (JStr "system-key")) = GenText "I am sorry."
  /\ Sample.json_loads "I am sorry." = None
  /\ exists analysis st,
       analyze_skill_gap Sample.json_loads Sample.both_keys
         Sample.no_user_key (fun _ _ => GenText "I am sorry.") 1
         initial_state = Done (Returned analysis) st
       /\ snd (store_analysis_result (Response 201 None) (JStr "u1")
                 (List.map JStr ["SRE"; "Architect"]) analysis
                 "2024-01-05T00:00:00+00:00")
          = [PostRow "skill_gap_analyses"
               [("user_id", JStr "u1");
                ("target_job_title", JStr (join ", " ["SRE"; "Architect"]));
                ("model_version", JStr (GEMINI_MODEL Sample.both_keys));
                ("gap_percentage", JNum 0);
                ("role_fit_score", JNum 0);
                ("matched_skills", JArr []);
                ("missing_skills", JArr []);
                ("partial_skills", JArr []);
                ("recommendations", JObj []);
                ("market_demand_score", JNum 0);
                ("trend_direction", JStr "stable");
                ("status", JStr "completed");
                ("analyzed_at", JStr "2024-01-05T00:00:00+00:00")]].
Proof.
  split; [reflexivity|]. split; [reflexivity|]. split; [reflexivity|].
  apply (unparsed_analysis_is_stored_as_completed Sample.json_loads
           Sample.both_keys Sample.no_user_key
           (fun _ _ => GenText "I am sorry.") 0 (JStr "system-key")
           "system" "I am sorry." (Response 201 None) (JStr "u1")
           ["SRE"; "Architect"] "2024-01-05T00:00:00+00:00");
    reflexivity.
Defined.

(** A [skill_assessment] that is present but is not a dict (null, a
    list, a text) makes [store_analysis_result] raise [AttributeError]
    while it builds the row: nothing is sent to the store. *)
Theorem store_analysis_result_rejects_bad_assessment (post : http_result)
    (user : json) (roles : list string) (fields : list (string * json))
    (assessment : json) (now_iso : string) :
  assoc_get "skill_assessment" fields = Some assessment ->
  (forall l, assessment <> JObj l) ->
  store_analysis_result post user (List.map JStr roles) (JObj fields) now_iso
  = (Raised PyAttributeError, []).
Proof.
  intros Hfield Hshape.
  unfold store_analysis_result, analysis_data, py_join.
  rewrite texts_of_strings. cbn [bind dict_get_default].
  destruct (assoc_get "model_used" fields);
    destruct (assoc_get "overall_gap_percentage" fields);
    destruct (assoc_get "overall_fit_score" fields);
    rewrite Hfield; cbn [bind];
    (destruct assessment; try reflexivity; now elim (Hshape l)).
Qed.

Lemma store_analysis_result_rejects_bad_assessment_witness :
  assoc_get "skill_assessment"
    [("executive_summary", JStr "ok"); ("skill_assessment", JNull)]
  = Some JNull
  /\ (forall l, JNull <> JObj l)
  /\ store_analysis_result (Response 201 None) (JStr "u1")
       (List.map JStr ["SRE"])
       (JObj [("executive_summary", JStr "ok"); ("skill_assessment", JNull)])
       "2024-01-05T00:00:00+00:00"
     = (Raised PyAttributeError, []).
Proof.
  split; [reflexivity|]. split; [discriminate|].
  apply (store_analysis_result_rejects_bad_assessment (Response 201 None)
           (JStr "u1") ["SRE"]
           [("executive_summary", JStr "ok"); ("skill_assessment", JNull)]
           JNull "2024-01-05T00:00:00+00:00");
    [reflexivity|discriminate].
Defined.

(** * Properties of the uploads of pdf_service.py *)

Lemma public_report_url_not_empty (supabase_url filename : string) :
  public_report_url supabase_url filename <> "".
Proof. unfold public_report_url. destruct supabase_url; discriminate. Qed.

Lemma upload_to_supabase_storage_cases (supabase_url filename : string)
    (answer : http_result) :
  (upload_accepted answer
   /\ upload_to_supabase_storage supabase_url filename answer
      = public_report_url supabase_url filename)
  \/ (~ upload_accepted answer
      /\ upload_to_supabase_storage supabase_url filename answer = "").
Proof.
  unfold upload_to_supabase_storage, upload_accepted.
  destruct answer as [|status payload]; cbn.
  - right. split; [|reflexivity]. intros [st [b [H _]]]. discriminate.
  - destruct (ok_or_created status) eqn:Hok.
    + left. split; [|reflexivity]. now exists status, payload.
    + right. split; [|reflexivity].
      intros [st [b [H Hst]]]. inversion H. subst. congruence.
Qed.

(** [upload_to_supabase_storage] never raises; it returns the empty text
    exactly when the upload was not accepted (the request raised, or the
    status is neither 200 nor 201), and the public URL of the file
    otherwise. *)
Theorem upload_to_supabase_storage_empty_iff_refused
    (supabase_url filename : string) (answer : http_result) :
  (upload_to_supabase_storage supabase_url filename answer = ""
   <-> ~ upload_accepted answer)
  /\ (upload_accepted answer ->
      upload_to_supabase_storage supabase_url filename answer
      = supabase_url ++ "/storage/v1/object/public/reports/" ++ filename).
Proof.
  destruct (upload_to_supabase_storage_cases supabase_url filename answer)
    as [[Hacc Hurl] | [Hrej Hempty]].
  - split; [split|intros _; exact Hurl].
    + intros H. rewrite Hurl in H.
      now apply public_report_url_not_empty in H.
    + intros H. now elim H.
  - split; [split; [intros _; exact Hrej | intros _; exact Hempty]|].
    intros H. now elim Hrej.
Qed.

Lemma upload_to_supabase_storage_empty_iff_refused_witness :
  upload_accepted (Response 201 None)
  /\ upload_to_supabase_storage "https://x.supabase.co" "r.pdf"
       (Response 201 None)
     = "https://x.supabase.co" ++ "/storage/v1/object/public/reports/"
       ++ "r.pdf".
Proof.
  assert (H : upload_accepted (Response 201 None))
    by (exists 201%Z, None; split; reflexivity).
  split; [exact H|].
  exact (proj2 (upload_to_supabase_storage_empty_iff_refused
                  "https://x.supabase.co" "r.pdf" (Response 201 None)) H).
Defined.

(** [upload_to_s3] never raises either: it hands back the presigned URL
    when the S3 calls succeed, and what the storage fallback gives when
    they raise; so an empty result means that S3 returned an empty URL or
    that S3 raised and the storage refused the file too. *)
Theorem upload_to_s3_empty_only_if_both_fail (s3 : outcome string)
    (supabase_url filename : string) (answer : http_result) :
  upload_to_s3 s3 supabase_url filename answer = "" ->
  s3 = Returned ""
  \/ ((exists e, s3 = Raised e) /\ ~ upload_accepted answer).
Proof.
  unfold upload_to_s3. destruct s3 as [url|e].
  - intros ->. now left.
  - intros H. right. split; [now exists e|].
    destruct (upload_to_supabase_storage_cases supabase_url filename answer)
      as [[_ Hurl] | [Hrej _]]; [|exact Hrej].
    rewrite Hurl in H. now apply public_report_url_not_empty in H.
Qed.

Lemma upload_to_s3_empty_only_if_both_fail_witness :
  upload_to_s3 (Raised PyRequestException) "https://x.supabase.co" "r.pdf"
    (Response 403 None) = ""
  /\ (Raised PyRequestException = Returned ""
      \/ ((exists e, Raised PyRequestException = @Raised string e)
          /\ ~ upload_accepted (Response 403 None))).
Proof.
  split; [reflexivity|].
  apply (upload_to_s3_empty_only_if_both_fail (Raised PyRequestException)
           "https://x.supabase.co" "r.pdf" (Response 403 None)).
  reflexivity.
Defined.

(** * Properties of key_service.py *)

Section KeyServiceFacts.

Variable py_format : json -> string.

Local Abbreviation load := (load_keys py_format).
Local Abbreviation fetch := (_fetch_all_keys py_format).

Lemma load_keys_app (good rest : list json) (cache : list (string * json)) :
  load (good ++ rest) cache
  = match load good cache with
    | (Returned _, cache') => load rest cache'
    | (Raised e, cache') => (Raised e, cache')
    end.
Proof.
  revert cache. induction good as [|key good IH]; intros cache;
    [reflexivity|].
  cbn [load_keys app].
  destruct (service_name <- getitem key "service_name" ;; _)
    as [[identifier key_value]|e]; [apply IH|reflexivity].
Qed.

Lemma load_keys_malformed (row : json) (rest : list json)
    (cache : list (string * json)) :
  malformed_key_row row ->
  exists e, load (row :: rest) cache = (Raised e, cache).
Proof.
  intros [[e H] | [[e H] | [e H]]]; cbn [load_keys].
  - rewrite H. cbn. now exists e.
  - destruct (getitem row "service_name") as [a|e']; cbn;
      [rewrite H; cbn; now exists e | now exists e'].
  - destruct (getitem row "service_name") as [a|e']; cbn;
      [|now exists e'].
    destruct (getitem row "key_name") as [b|e']; cbn; [|now exists e'].
    rewrite H. cbn. now exists e.
Qed.

Lemma fetch_fresh (now now' : Z) (answer : http_result) (st : key_cache) :
  cache_is_fresh now st = true ->
  fetch now now' answer st = (_key_cache st, st, false).
Proof. intros H. unfold _fetch_all_keys. now rewrite H. Qed.

Lemma fetch_loaded (now now' : Z) (rows : list json) (st : key_cache)
    (cache : list (string * json)) (u : unit) :
  cache_is_fresh now st = false ->
  load rows [] = (Returned u, cache) ->
  fetch now now' (Response 200 (Some (JArr rows))) st
  = (cache, mkKeyCache cache (Some now'), true).
Proof.
  intros Hstale Hload. unfold _fetch_all_keys. rewrite Hstale. cbn.
  now rewrite Hload.
Qed.

End KeyServiceFacts.

(** For five minutes after a successful load the store is not asked
    again: a second call made less than [CACHE_DURATION] after the first
    one stored its clock reading sends no request and hands back the
    same keys, whatever the store would answer by then. *)
Theorem fetch_all_keys_reuses_cache_for_five_minutes
    (py_format : json -> string) (now0 now1 now2 now3 : Z)
    (rows : list json) (cache : list (string * json)) (st0 : key_cache)
    (later_answer : http_result) :
  cache_is_fresh now0 st0 = false ->
  load_keys py_format rows [] = (Returned tt, cache) ->
  (now2 - now1 < CACHE_DURATION)%Z ->
  exists st1,
    _fetch_all_keys py_format now0 now1 (Response 200 (Some (JArr rows))) st0
    = (cache, st1, true)
    /\ _fetch_all_keys py_format now2 now3 later_answer st1
       = (cache, st1, false).
Proof.
  intros Hstale Hload Hsoon.
  exists (mkKeyCache cache (Some now1)). split.
  - exact (fetch_loaded py_format now0 now1 rows st0 cache tt Hstale Hload).
  - apply (fetch_fresh py_format now2 now3 later_answer
             (mkKeyCache cache (Some now1))).
    unfold cache_is_fresh. cbn. now apply Z.ltb_lt.
Qed.

Lemma fetch_all_keys_reuses_cache_for_five_minutes_witness :
  cache_is_fresh 1000 (mkKeyCache [] None) = false
  /\ load_keys (fun v => match v with JStr s => s | _ => "" end)
       [key_row ("gemini", "GEMINI_API_KEY", JStr "k1")] []
     = (Returned tt, [("gemini_GEMINI_API_KEY", JStr "k1")])
  /\ (299000000 - 2000 < CACHE_DURATION)%Z
  /\ exists st1,
       _fetch_all_keys (fun v => match v with JStr s => s | _ => "" end)
         1000 2000
         (Response 200
            (Some (JArr [key_row ("gemini", "GEMINI_API_KEY", JStr "k1")])))
         (mkKeyCache [] None)
       = ([("gemini_GEMINI_API_KEY", JStr "k1")], st1, true)
       /\ _fetch_all_keys (fun v => match v with JStr s => s | _ => "" end)
            299000000 299000001 ConnectionFailed st1
          = ([("gemini_GEMINI_API_KEY", JStr "k1")], st1, false).
Proof.
  split; [reflexivity|]. split; [reflexivity|].
  split; [reflexivity|].
  apply (fetch_all_keys_reuses_cache_for_five_minutes
           (fun v => match v with JStr s => s | _ => "" end)
           1000 2000 299000000 299000001
           [key_row ("gemini", "GEMINI_API_KEY", JStr "k1")]
           [("gemini_GEMINI_API_KEY", JStr "k1")]
           (mkKeyCache [] None) ConnectionFailed); reflexivity.
Defined.

(** A refresh that fails before the answer is decoded (the request
    raises, the status is not 200, the body is not JSON) changes
    nothing: the stale keys are handed back and the timestamp is left as
    it was, so the next call tries again. *)
Theorem fetch_all_keys_failed_refresh_keeps_cache
    (py_format : json -> string) (now now' : Z) (answer : http_result)
    (st : key_cache) :
  cache_is_fresh now st = false ->
  answer = ConnectionFailed
  \/ (exists status payload,
         answer = Response status payload /\ status <> 200%Z)
  \/ answer = Response 200 None ->
  _fetch_all_keys py_format now now' answer st = (_key_cache st, st, true).
Proof.
  intros Hstale Hfail. unfold _fetch_all_keys. rewrite Hstale.
  destruct Hfail as [-> | [[status [payload [-> Hs]]] | ->]]; cbn.
  - reflexivity.
  - apply Z.eqb_neq in Hs. now rewrite Hs.
  - reflexivity.
Qed.

Lemma fetch_all_keys_failed_refresh_keeps_cache_witness :
  cache_is_fresh 900000000
    (mkKeyCache [("gemini_GEMINI_API_KEY", JStr "k1")] (Some 1000%Z)) = false
  /\ (Response 503 None = ConnectionFailed
      \/ (exists status payload,
             Response 503 None = Response status payload
             /\ status <> 200%Z)
      \/ Response 503 None = Response 200 None)
  /\ _fetch_all_keys (fun _ => "") 900000000 900000001 (Response 503 None)
       (mkKeyCache [("gemini_GEMINI_API_KEY", JStr "k1")] (Some 1000%Z))
     = ([("gemini_GEMINI_API_KEY", JStr "k1")],
        mkKeyCache [("gemini_GEMINI_API_KEY", JStr "k1")] (Some 1000%Z),
        true).
Proof.
  assert (H : Response 503 None = ConnectionFailed
              \/ (exists status payload,
                     Response 503 None = Response status payload
                     /\ status <> 200%Z)
              \/ Response 503 None = Response 200 None).
  { right; left. exists 503%Z, None. split; [reflexivity|discriminate]. }
  split; [reflexivity|]. split; [exact H|].
  exact (fetch_all_keys_failed_refresh_keeps_cache (fun _ => "")
           900000000 900000001 (Response 503 None)
           (mkKeyCache [("gemini_GEMINI_API_KEY", JStr "k1")] (Some 1000%Z))
           eq_refl H).
Defined.

(** A refresh that fails while the rows are read is different: the
    cache has already been emptied at line 43, so on the first malformed
    row the function hands back only the rows read before it, the keys
    cached earlier are gone, and the timestamp is not renewed. *)
Theorem fetch_all_keys_malformed_row_drops_cache
    (py_format : json -> string) (now now' : Z)
    (good : list json) (bad : json) (rest : list json)
    (cache : list (string * json)) (st : key_cache) :
  cache_is_fresh now st = false ->
  load_keys py_format good [] = (Returned tt, cache) ->
  malformed_key_row bad ->
  _fetch_all_keys py_format now now'
    (Response 200 (Some (JArr (good ++ bad :: rest)))) st
  = (cache, mkKeyCache cache (_cache_timestamp st), true).
Proof.
  intros Hstale Hgood Hbad. unfold _fetch_all_keys. rewrite Hstale. cbn.
  rewrite load_keys_app, Hgood.
  destruct (load_keys_malformed py_format bad rest cache Hbad) as [e ->].
  reflexivity.
Qed.

Lemma fetch_all_keys_malformed_row_drops_cache_witness :
  cache_is_fresh 900000000
    (mkKeyCache [("gemini_GEMINI_API_KEY", JStr "k1")] (Some 1000%Z)) = false
  /\ load_keys (fun _ => "") [] [] = (Returned tt, [])
  /\ malformed_key_row (JObj [("service_name", JStr "gemini")])
  /\ _fetch_all_keys (fun _ => "") 900000000 900000001
       (Response 200
          (Some (JArr ([] ++ JObj [("service_name", JStr "gemini")] :: []))))
       (mkKeyCache [("gemini_GEMINI_API_KEY", JStr "k1")] (Some 1000%Z))
     = ([], mkKeyCache [] (Some 1000%Z), true).
Proof.
  assert (Hbad : malformed_key_row (JObj [("service_name", JStr "gemini")])).
  { right; left. now exists PyKeyError. }
  split; [reflexivity|]. split; [reflexivity|]. split; [exact Hbad|].
  exact (fetch_all_keys_malformed_row_drops_cache (fun _ => "")
           900000000 900000001 [] (JObj [("service_name", JStr "gemini")]) []
           [] (mkKeyCache [("gemini_GEMINI_API_KEY", JStr "k1")]
                 (Some 1000%Z))
           eq_refl eq_refl Hbad).
Defined.

Section KeyLookup.

Variable py_format : json -> string.
Hypothesis py_format_text : forall s, py_format (JStr s) = s.

Lemma load_keys_well_formed (rows : list (string * string * json))
    (cache : list (string * json)) :
  load_keys py_format (List.map key_row rows) cache
  = (Returned tt, fold_left cache_row rows cache).
Proof.
  revert cache. induction rows as [|[[service_name key_name] v] rows IH];
    intros cache; [reflexivity|].
  cbn [List.map load_keys key_row fold_left].
  cbn [getitem assoc_get String.eqb Ascii.eqb Bool.eqb bind].
  unfold key_identifier. rewrite !py_format_text. apply IH.
Qed.

Lemma assoc_get_loaded (identifier : string)
    (rows : list (string * string * json)) (cache : list (string * json)) :
  assoc_get identifier (fold_left cache_row rows cache)
  = match last_value identifier rows with
    | Some v => Some v
    | None => assoc_get identifier cache
    end.
Proof.
  revert cache. induction rows as [|t rows IH] using rev_ind; intros cache;
    [reflexivity|].
  rewrite fold_left_app. cbn [fold_left]. unfold last_value.
  rewrite rev_app_distr. cbn [rev app find].
  unfold cache_row at 1.
  destruct (String.eqb identifier (row_identifier t)) eqn:E.
  - apply String.eqb_eq in E. subst identifier. cbn [option_map].
    apply assoc_get_set_same.
  - apply String.eqb_neq in E. rewrite assoc_get_set_other by exact E.
    apply IH.
Qed.

End KeyLookup.

(** On a stale cache and a 200 answer made of well-formed rows,
    [get_api_key] reads the store: it returns the value of the last row
    stored under that service and key name when that value is truthy,
    else the fallback when it is truthy, else the empty text; rows cached
    before the refresh play no part. *)
Theorem get_api_key_reads_last_loaded_row
    (py_format : json -> string) (now now' : Z)
    (rows : list (string * string * json)) (st : key_cache)
    (service_name key_name : string) (fallback : json) :
  (forall s, py_format (JStr s) = s) ->
  cache_is_fresh now st = false ->
  fst (get_api_key py_format now now'
         (Response 200 (Some (JArr (List.map key_row rows)))) st
         service_name key_name fallback)
  = py_or (py_or (match last_value (service_name ++ "_" ++ key_name) rows with
                  | Some v => v
                  | None => JNull
                  end) fallback) (JStr "").
Proof.
  intros Hformat Hstale. unfold get_api_key.
  rewrite (fetch_loaded py_format now now' (List.map key_row rows) st
             (fold_left cache_row rows []) tt Hstale
             (load_keys_well_formed py_format Hformat rows [])).
  cbn [fst]. unfold key_identifier. rewrite !Hformat.
  rewrite (assoc_get_loaded (service_name ++ "_" ++ key_name) rows []).
  now destruct (last_value _ rows).
Qed.

Lemma get_api_key_reads_last_loaded_row_witness :
  (forall s, (fun v => match v with JStr s => s | _ => "" end) (JStr s) = s)
  /\ cache_is_fresh 900000000
       (mkKeyCache [("gemini_GEMINI_API_KEY", JStr "old")] (Some 1000%Z))
     = false
  /\ fst (get_api_key (fun v => match v with JStr s => s | _ => "" end)
            900000000 900000001
            (Response 200
               (Some (JArr (List.map key_row
                              [("gemini", "GEMINI_API_KEY", JStr "k1");
                               ("serp", "SERP_API_KEY", JStr "s1");
                               ("gemini", "GEMINI_API_KEY", JStr "")]))))
            (mkKeyCache [("gemini_GEMINI_API_KEY", JStr "old")]
               (Some 1000%Z))
            "gemini" "GEMINI_API_KEY" (JStr "from-env"))
     = JStr "from-env".
Proof.
  split; [reflexivity|]. split; [reflexivity|].
  rewrite (get_api_key_reads_last_loaded_row
             (fun v => match v with JStr s => s | _ => "" end)
             900000000 900000001
             [("gemini", "GEMINI_API_KEY", JStr "k1");
              ("serp", "SERP_API_KEY", JStr "s1");
              ("gemini", "GEMINI_API_KEY", JStr "")]
             (mkKeyCache [("gemini_GEMINI_API_KEY", JStr "old")]
                (Some 1000%Z))
             "gemini" "GEMINI_API_KEY" (JStr "from-env")
             (fun s => eq_refl) eq_refl).
  reflexivity.
Defined.

(** * Properties of core/auth.py *)

(** [verify_token] has two outcomes only.  Either it returns the claims
    of a decoded payload whose [sub] is present and truthy, and then
    [get_current_user_id] is that [sub]; or it raises an [HTTPException]
    whose status is 401, whichever of the four ways the body failed. *)
Theorem verify_token_accepts_or_401
    (str_http_exception : Z -> string -> string) (decoded : jwt_outcome) :
  match verify_token str_http_exception decoded with
  | inr data =>
      truthy (get_current_user_id data) = true
      /\ exists payload,
           decoded = JwtPayload payload
           /\ assoc_get "sub" payload = Some (get_current_user_id data)
  | inl (HTTPException status _) => status = 401%Z
  end.
Proof.
  unfold verify_token, verify_token_body, get_current_user_id.
  destruct decoded as [payload | | msg | msg]; try reflexivity.
  unfold payload_get at 1 2.
  destruct (assoc_get "sub" payload) as [sub|] eqn:Hsub; cbn;
    [|reflexivity].
  destruct (truthy sub) eqn:Ht; cbn; [|reflexivity].
  split; [assumption|]. now exists payload.
Qed.

(** The detail written at line 39 for a token without a user id does
    not reach the client as written: the [HTTPException] is raised
    inside the [try], is caught by the last handler and is raised again
    with the detail "Authentication failed: " followed by its [str]. *)
Theorem verify_token_missing_sub_is_rewrapped
    (str_http_exception : Z -> string -> string)
    (payload : list (string * json)) :
  truthy (payload_get payload "sub" JNull) = false ->
  verify_token str_http_exception (JwtPayload payload)
  = inl (HTTPException 401
           ("Authentication failed: "
            ++ str_http_exception 401%Z "Invalid token: no user ID")).
Proof.
  intros Hsub. unfold verify_token, verify_token_body. now rewrite Hsub.
Qed.

Lemma verify_token_missing_sub_is_rewrapped_witness :
  truthy (payload_get [("email", JStr "a@b.c"); ("sub", JStr "")] "sub" JNull)
  = false
  /\ verify_token (fun status detail => detail)
       (JwtPayload [("email", JStr "a@b.c"); ("sub", JStr "")])
     = inl (HTTPException 401
              ("Authentication failed: "
               ++ (fun (status : Z) (detail : string) => detail) 401%Z
                    "Invalid token: no user ID")).
Proof.
  split; [reflexivity|].
  apply (verify_token_missing_sub_is_rewrapped (fun status detail => detail)
           [("email", JStr "a@b.c"); ("sub", JStr "")]).
  reflexivity.
Defined.

(** * Properties of routers/cron.py *)


Section CronFacts.

Variable fromisoformat : string -> outcome datetime.
Variable py_format : json -> string.
Variable describe : exn -> string.
Variable SUPABASE_URL : string.

Local Abbreviation loop :=
  (cron_loop fromisoformat py_format describe SUPABASE_URL).

(** Every user handled by the loop adds exactly one entry, to the
    results or to the errors, and the error texts are cut at 100
    characters. *)
Lemma cron_loop_partitions (world : nat -> cron_world) (users : list json) :
  forall i done failed done' failed',
    loop world i users done failed = Returned (done', failed') ->
    exists d f,
      done' = (done ++ d)%list /\ failed' = (failed ++ f)%list
      /\ List.length d + List.length f = List.length users
      /\ Forall (fun e => str_len (error_text e) <= 100) f.
Proof.
  induction users as [|user rest IH]; intros i done failed done' failed' H.
  - cbn in H. inversion H. subst. exists [], []. rewrite !app_nil_r.
    repeat split. constructor.
  - cbn [cron_loop] in H.
    destruct (dict_get user "id") as [user_id|e]; cbn [bind] in H;
      [|discriminate].
    destruct (dict_get_default user "full_name" _) as [n|e]; cbn [bind] in H;
      [|discriminate].
    destruct (dict_get_default user "email" _) as [m|e]; cbn [bind] in H;
      [|discriminate].
    destruct (process_user _ _ _ _ _) as [entry|e].
    + apply IH in H. destruct H as [d [f [Hd [Hf [Hlen Hcut]]]]].
      exists (entry :: d), f. rewrite <- app_assoc in Hd.
      repeat split; try assumption. cbn. lia.
    + apply IH in H. destruct H as [d [f [Hd [Hf [Hlen Hcut]]]]].
      exists d, (mkErrorEntry user_id
                   (str_prefix 100 (str_exn describe e)) :: f).
      rewrite <- app_assoc in Hf.
      repeat split; try assumption; [cbn; lia|].
      constructor; [apply str_len_str_prefix_le | assumption].
Qed.

(** An exception raised while a user is processed never stops the loop:
    over users that are all dicts it always runs to its end. *)
Lemma cron_loop_completes (world : nat -> cron_world) (users : list json) :
  Forall (fun user => exists fields, user = JObj fields) users ->
  forall i done failed,
    exists lists, loop world i users done failed = Returned lists.
Proof.
  induction 1 as [|user rest [fields ->] _ IH]; intros i done failed.
  - now eexists.
  - cbn [cron_loop dict_get dict_get_default].
    destruct (assoc_get "id" fields); destruct (assoc_get "full_name" fields);
      destruct (assoc_get "email" fields); cbn [bind];
      destruct (process_user _ _ _ _ _); apply IH.
Qed.

End CronFacts.



(** Whatever the collaborators do while the users are processed, the
    batch is not aborted: once the users (a list of dicts) and the two
    shared lookups have been fetched, [run_weekly_analysis] returns its
    summary; exceptions raised for a user end up in the errors. *)
Theorem run_weekly_analysis_survives_user_failures
    (fromisoformat : string -> outcome datetime)
    (py_format : json -> string) (describe : exn -> string)
    (SUPABASE_URL : string)
    (users_answer trends_answer discussions_answer : http_result)
    (world : nat -> cron_world) (rows : list json) (trends talks : json) :
  get_all_users_for_cron users_answer = Returned (JArr rows) ->
  rows <> [] ->
  Forall (fun user => exists fields, user = JObj fields) rows ->
  get_skill_trends trends_answer = Returned trends ->
  get_recent_discussions discussions_answer = Returned talks ->
  exists summary,
    run_weekly_analysis fromisoformat py_format describe SUPABASE_URL
      users_answer trends_answer discussions_answer world
    = Returned (Completed summary)
    /\ processed summary + errors summary = List.length rows.
Proof.
  intros Husers Hne Hdicts Htrends Htalks. unfold run_weekly_analysis.
  rewrite Husers. cbn [bind truthy].
  destruct rows as [|row rows]; [contradiction|]. cbn [negb].
  rewrite Htrends, Htalks. cbn [bind py_iter].
  destruct (cron_loop_completes fromisoformat py_format describe
              SUPABASE_URL world (row :: rows) Hdicts 0 [] [])
    as [[done failed] Hloop].
  rewrite Hloop. cbn [bind fst snd]. eexists. split; [reflexivity|].
  cbn [processed errors].
  destruct (cron_loop_partitions _ _ _ _ _ _ _ _ _ _ _ Hloop)
    as [d [f [Hd [Hf [Hlen _]]]]].
  cbn in Hd, Hf. subst done failed. exact Hlen.
Qed.

Lemma run_weekly_analysis_survives_user_failures_witness :
  get_all_users_for_cron (Response 200 (Some CronSample.users))
  = Returned (JArr [JObj [("id", JStr "u0")]; JObj [("id", JStr "u1")];
                    JObj [("id", JStr "u2")]])
  /\ [JObj [("id", JStr "u0")]; JObj [("id", JStr "u1")];
      JObj [("id", JStr "u2")]] <> []
  /\ Forall (fun user => exists fields, user = JObj fields)
       [JObj [("id", JStr "u0")]; JObj [("id", JStr "u1")];
        JObj [("id", JStr "u2")]]
  /\ get_skill_trends Sample.no_rows = Returned (JArr [])
  /\ get_recent_discussions (Response 500 None) = Returned (JArr [])
  /\ exists summary,
       run_weekly_analysis Iso.fromisoformat CronSample.py_format
         CronSample.describe "https://x.supabase.co"
         (Response 200 (Some CronSample.users)) Sample.no_rows
         (Response 500 None) (fun _ => CronSample.without_key)
       = Returned (Completed summary)
       /\ processed summary + errors summary = 3.
Proof.
  assert (Hd : Forall (fun user => exists fields, user = JObj fields)
                 [JObj [("id", JStr "u0")]; JObj [("id", JStr "u1")];
                  JObj [("id", JStr "u2")]]).
  { repeat constructor; eexists; reflexivity. }
  split; [reflexivity|]. split; [discriminate|]. split; [exact Hd|].
  split; [reflexivity|]. split; [reflexivity|].
  apply (run_weekly_analysis_survives_user_failures Iso.fromisoformat
           CronSample.py_format CronSample.describe "https://x.supabase.co"
           (Response 200 (Some CronSample.users)) Sample.no_rows
           (Response 500 None) (fun _ => CronSample.without_key)
           [JObj [("id", JStr "u0")]; JObj [("id", JStr "u1")];
            JObj [("id", JStr "u2")]] (JArr []) (JArr []));
    [reflexivity | discriminate | exact Hd | reflexivity | reflexivity].
Defined.

(** A user is skipped with the reason "No new data" exactly when
    [check_if_analysis_needed] answers [False] for that user; so a user
    who was never analyzed, or for whom a lookup of the check failed, is
    never skipped for that reason. *)
Theorem process_user_skips_for_no_new_data_iff
    (fromisoformat : string -> outcome datetime)
    (py_format : json -> string) (SUPABASE_URL : string)
    (user_id skipped_id : json) (w : cron_world) :
  process_user fromisoformat py_format SUPABASE_URL user_id w
  = Returned (Skipped skipped_id no_new_data)
  <-> (skipped_id = user_id
       /\ check_if_analysis_needed fromisoformat (cw_analyses w)
            (cw_profiles w) (cw_github_connections w) = Returned false).
Proof.
  unfold process_user.
  destruct (check_if_analysis_needed fromisoformat (cw_analyses w)
              (cw_profiles w) (cw_github_connections w))
    as [needed|e] eqn:Hcheck.
  - cbn [bind]. destruct needed; cbn [negb].
    + split; [|intros [_ H]; discriminate].
      intros H. exfalso.
      destruct (get_user_preferred_roles (cw_preferred_roles w))
        as [[|r roles]|e]; cbn [bind] in H; try discriminate.
      destruct (get_user_skills (cw_skills w)) as [skills|e];
        cbn [bind] in H; [|discriminate].
      destruct (negb (truthy skills)); [discriminate|].
      destruct (cw_analysis w) as [analysis|e]; cbn [bind] in H;
        [|discriminate].
      destruct (fst (store_analysis_result _ _ _ _ _)) as [aid|e];
        cbn [bind] in H; [|discriminate].
      destruct (cw_pdf_size w) as [size|e]; cbn [bind] in H;
        [|discriminate].
      destruct (fst (store_report_record _ _ _ _ _ _ _)) as [rid|e];
        cbn [bind] in H; [|discriminate].
      destruct (dict_get_default analysis _ _) as [fit|e];
        cbn [bind] in H; discriminate.
    + split.
      * intros H. inversion H. now split.
      * intros [-> _]. reflexivity.
  - unfold check_if_analysis_needed in Hcheck.
    destruct (check_if_analysis_needed_body _ _ _ _); discriminate.
Qed.

(** * Properties of routers/analysis.py *)

(** ** POST /roles *)

Lemma set_preferred_roles_requests (str_lower str_strip : string -> string)
    (delete : http_result)
    (post : list (string * json) -> http_result)
    (user_id : string) (roles : list string)
    (result : roles_result) (sent : list store_request) :
  set_preferred_roles str_lower str_strip delete post user_id roles
  = (Returned result, sent) ->
  sent = DeleteRows "user_preferred_roles" user_id
         :: List.map
              (fun p => PostRow "user_preferred_roles"
                          (role_data str_lower str_strip user_id
                             (fst p) (snd p)))
              (combine (firstn 3 roles) [1; 2; 3]).
Proof.
  unfold set_preferred_roles.
  destruct (requests_send delete) as [response|e]; [|discriminate].
  destruct (insert_roles _ _ post user_id 1 (firstn 3 roles) [] _)
    as [[done|e] sent'] eqn:Hloop; [|discriminate].
  intros H. inversion H. subst.
  destruct (insert_roles_returns _ _ _ _ _ _ _ _ _ _ Hloop)
    as [added [_ [_ [_ Hsent]]]].
  rewrite Hsent. cbn [app]. f_equal. f_equal.
  destruct roles as [|a [|b [|c rest]]]; reflexivity.
Qed.

(** The endpoint refuses more than three roles with a 400 before
    anything is sent to the store, so the roles on record are left
    alone; and when it responds, one insertion was sent for every role
    of the request, none having been cut off, each row holding the role
    as given and the role as [role.lower().strip()] makes it. *)
Theorem set_user_preferred_roles_all_or_nothing
    (str_lower str_strip : string -> string) (delete : http_result)
    (post : list (string * json) -> http_result)
    (user_id : string) (roles : list string) :
  (3 < List.length roles ->
   set_user_preferred_roles str_lower str_strip delete post user_id roles
   = (HttpError 400 "Maximum 3 roles allowed", []))
  /\ (forall result sent,
        set_user_preferred_roles str_lower str_strip delete post user_id
          roles
        = (Respond result, sent) ->
        List.length roles <= 3
        /\ sent = DeleteRows "user_preferred_roles" user_id
                  :: List.map
                       (fun p => PostRow "user_preferred_roles"
                                   (role_data str_lower str_strip user_id
                                      (fst p) (snd p)))
                       (combine roles (seq 1 (List.length roles)))).
Proof.
  unfold set_user_preferred_roles. split.
  - intros H. apply Nat.ltb_lt in H. now rewrite H.
  - intros result sent.
    destruct (Nat.ltb_spec 3 (List.length roles)) as [Hlong|Hshort];
      [discriminate|].
    destruct (set_preferred_roles _ _ delete post user_id roles)
      as [[r|e] s] eqn:Hset; [|discriminate].
    intros H. inversion H. subst. split; [exact Hshort|].
    rewrite (set_preferred_roles_requests _ _ _ _ _ _ _ _ Hset).
    f_equal. f_equal.
    destruct roles as [|a [|b [|c [|d rest]]]]; try reflexivity.
    cbn in Hshort. lia.
Qed.

Lemma set_user_preferred_roles_all_or_nothing_witness :
  3 < List.length ["a"; "b"; "c"; "d"]
  /\ set_user_preferred_roles lower AsciiText.strip ConnectionFailed
       (fun _ => ConnectionFailed) "u1" ["a"; "b"; "c"; "d"]
     = (HttpError 400 "Maximum 3 roles allowed", []).
Proof.
  assert (H : 3 < List.length ["a"; "b"; "c"; "d"]) by (cbn; lia).
  split; [exact H|].
  exact (proj1 (set_user_preferred_roles_all_or_nothing lower
                  AsciiText.strip ConnectionFailed
                  (fun _ => ConnectionFailed) "u1" ["a"; "b"; "c"; "d"]) H).
Defined.

(** ** POST /api-key *)

(** A key of fewer than ten characters is refused with a 400 before the
    store is contacted.  When the endpoint responds, the key has at least
    ten characters, so the prefix shown is always cut: its first eight
    characters followed by three dots, eleven characters in all; and the
    message is "API key created" or "API key updated".  Characters are
    counted as Python counts them, not bytes. *)
Theorem set_gemini_api_key_shows_eight_characters
    (sha256_hexdigest : string -> string) (existing write : http_result)
    (user_id api_key : string) :
  (str_len api_key < 10 ->
   set_gemini_api_key sha256_hexdigest existing write user_id api_key
   = (HttpError 400 "Invalid API key format", []))
  /\ (forall response sent,
        set_gemini_api_key sha256_hexdigest existing write user_id api_key
        = (Respond response, sent) ->
        10 <= str_len api_key
        /\ response_key_prefix response = str_prefix 8 api_key ++ "..."
        /\ str_len (str_prefix 8 api_key) = 8
        /\ String.prefix (str_prefix 8 api_key) api_key = true
        /\ str_len (response_key_prefix response) = 11
        /\ (response_message response = "API key created"
            \/ response_message response = "API key updated")).
Proof.
  unfold set_gemini_api_key. split.
  - intros H. apply Nat.ltb_lt in H. rewrite H. now rewrite orb_true_r.
  - intros response sent.
    destruct (Nat.ltb_spec (str_len api_key) 10) as [Hshort|Hlong];
      [now rewrite orb_true_r|].
    destruct (negb (str_truthy api_key)); [discriminate|]. cbn [orb].
    unfold save_user_api_key.
    assert (Hprefix : key_prefix api_key = str_prefix 8 api_key ++ "...").
    { unfold key_prefix.
      destruct (Nat.ltb_spec 8 (str_len api_key)); [reflexivity|lia]. }
    assert (Height : str_len (str_prefix 8 api_key) = 8)
      by (apply str_len_str_prefix; lia).
    assert (Hlen : str_len (key_prefix api_key) = 11).
    { rewrite Hprefix, str_len_append, Height. reflexivity. }
    pose proof (str_prefix_is_prefix 8 api_key) as Hcut.
    destruct (resp <- requests_get existing ;; first_row (fst resp) (snd resp))
      as [[row|]|e]; [| |discriminate].
    + destruct (getitem row "id") as [key_id|e]; [|discriminate].
      destruct (requests_send write) as [r|e]; [|discriminate].
      intros H. inversion H. subst. cbn [response_key_prefix
        response_message save_prefix save_status].
      repeat split; auto.
    + destruct (requests_send write) as [r|e]; [|discriminate].
      intros H. inversion H. subst. cbn [response_key_prefix
        response_message save_prefix save_status].
      repeat split; auto.
Qed.

Lemma set_gemini_api_key_shows_eight_characters_witness :
  str_len "ééééé" < 10
  /\ set_gemini_api_key (fun _ => "hash") Sample.no_rows (Response 201 None)
       "u1" "ééééé"
     = (HttpError 400 "Invalid API key format", []).
Proof.
  assert (H : str_len "ééééé" < 10) by (vm_compute; lia).
  split; [exact H|].
  exact (proj1 (set_gemini_api_key_shows_eight_characters (fun _ => "hash")
                  Sample.no_rows (Response 201 None) "u1" "ééééé") H).
Defined.

(** A key of eleven two-byte characters is saved and shown by its first
    eight characters. *)
Example set_gemini_api_key_accepts_eleven_characters :
  set_gemini_api_key (fun _ => "hash") Sample.no_rows (Response 201 None)
    "u1" "ééééééééééé"
  = (Respond (mkApiKeyResponse "API key created" "éééééééé..."),
     [PostRow "user_api_keys"
        (key_data (fun _ => "hash") "u1" "ééééééééééé")]).
Proof. reflexivity. Qed.

(** ** POST /generate *)

Ltac step_ebind H :=
  match type of H with
  | ebind (lift ?c) _ = inl (RaisedHTTP _ _) =>
      let v := fresh "v" in
      destruct c as [v|]; cbn [ebind lift] in H; [|discriminate H]
  end.

Lemma generate_analysis_body_http (str_lower str_strip : string -> string)
    (SUPABASE_URL : string)
    (request_roles : option (list string)) (user_id : string)
    (w : analysis_world) (status : Z) (detail : string) :
  generate_analysis_body str_lower str_strip SUPABASE_URL request_roles
    user_id w
  = inl (RaisedHTTP status detail) ->
  (status = 404%Z /\ detail = "User profile not found"
   /\ exists profile, get_user_profile (aw_profile w) = Returned profile
                      /\ truthy profile = false)
  \/ (status = 400%Z /\ detail = no_roles_detail
      /\ get_user_preferred_roles (aw_preferred_roles w) = Returned [])
  \/ (status = 400%Z /\ detail = no_skills_detail
      /\ exists skills, get_user_skills (aw_skills w) = Returned skills
                        /\ truthy skills = false).
Proof.
  unfold generate_analysis_body. intros H.
  destruct (get_user_profile (aw_profile w)) as [profile|e] eqn:Hprofile;
    cbn [ebind lift] in H; [|discriminate].
  destruct (truthy profile) eqn:Htruthy; cbn [negb] in H.
  2:{ inversion H. left. repeat split. now exists profile. }
  do 2 step_ebind H.
  assert (Hafter :
    forall roles : list json,
      generate_analysis_steps SUPABASE_URL user_id w roles
      = inl (RaisedHTTP status detail) ->
      status = 400%Z /\ detail = no_skills_detail
      /\ exists skills, get_user_skills (aw_skills w) = Returned skills
                        /\ truthy skills = false).
  { intros roles H'. unfold generate_analysis_steps in H'.
    destruct (get_user_skills (aw_skills w)) as [skills|e] eqn:Hskills;
      cbn [ebind lift] in H'; [|discriminate].
    destruct (truthy skills) eqn:Hs; cbn [negb] in H'.
    2:{ inversion H'. repeat split. now exists skills. }
    repeat step_ebind H'. discriminate. }
  destruct request_roles as [[|r rs]|].
  - destruct (get_user_preferred_roles (aw_preferred_roles w))
      as [[|x roles]|e] eqn:Hroles; cbn [ebind lift] in H;
      [|right; right; exact (Hafter _ H)|discriminate].
    inversion H. right; left. repeat split.
  - destruct (fst (set_preferred_roles _ _ _ _ _ _)) as [saved|e];
      cbn [ebind lift] in H; [|discriminate].
    right; right. exact (Hafter _ H).
  - destruct (get_user_preferred_roles (aw_preferred_roles w))
      as [[|x roles]|e] eqn:Hroles; cbn [ebind lift] in H;
      [|right; right; exact (Hafter _ H)|discriminate].
    inversion H. right; left. repeat split.
Qed.

(** The endpoint fails with three statuses only: 404 when the profile
    lookup gives nothing, 400 when the store holds no preferred role
    (and the request names none) or no skill, and 500 with a detail
    starting with "Analysis failed: " for every exception raised along
    the way. *)
Theorem generate_analysis_error_statuses
    (str_lower str_strip : string -> string)
    (describe : exn -> string) (SUPABASE_URL : string)
    (request_roles : option (list string)) (user_id : string)
    (w : analysis_world) (status : Z) (detail : string) :
  generate_analysis str_lower str_strip describe SUPABASE_URL
    request_roles user_id w
  = HttpError status detail ->
  (status = 404%Z /\ detail = "User profile not found"
   /\ exists profile, get_user_profile (aw_profile w) = Returned profile
                      /\ truthy profile = false)
  \/ (status = 400%Z /\ detail = no_roles_detail
      /\ get_user_preferred_roles (aw_preferred_roles w) = Returned [])
  \/ (status = 400%Z /\ detail = no_skills_detail
      /\ exists skills, get_user_skills (aw_skills w) = Returned skills
                        /\ truthy skills = false)
  \/ (status = 500%Z
      /\ exists e, detail = "Analysis failed: " ++ str_exn describe e).
Proof.
  unfold generate_analysis.
  destruct (generate_analysis_body str_lower str_strip SUPABASE_URL
              request_roles user_id w)
    as [[s d|e]|response] eqn:Hbody; [| |discriminate].
  - intros H. inversion H. subst s d.
    destruct (generate_analysis_body_http _ _ _ _ _ _ _ _ Hbody)
      as [H404 | [Hroles | Hskills]]; auto.
  - intros H. inversion H. right; right; right. split; [reflexivity|].
    now exists e.
Qed.

Lemma generate_analysis_error_statuses_witness :
  generate_analysis lower AsciiText.strip (fun _ => "")
    "https://x.supabase.co" None "u1"
    (mkAnalysisWorld (Sample.one_row "full_name" "Ada") ConnectionFailed
       (fun _ => ConnectionFailed) Sample.no_rows Sample.no_rows
       Sample.no_rows Sample.no_rows Sample.no_rows
       (Raised (PyValueError no_key_message)) "" ConnectionFailed
       (Raised PyTypeError) "" ConnectionFailed "" ConnectionFailed)
  = HttpError 400 no_roles_detail
  /\ ((400%Z = 404%Z /\ no_roles_detail = "User profile not found"
       /\ exists profile,
            get_user_profile (Sample.one_row "full_name" "Ada")
            = Returned profile /\ truthy profile = false)
      \/ (400%Z = 400%Z /\ no_roles_detail = no_roles_detail
          /\ get_user_preferred_roles Sample.no_rows = Returned [])
      \/ (400%Z = 400%Z /\ no_roles_detail = no_skills_detail
          /\ exists skills, get_user_skills Sample.no_rows = Returned skills
                            /\ truthy skills = false)
      \/ (400%Z = 500%Z
          /\ exists e, no_roles_detail
                       = "Analysis failed: " ++ str_exn (fun _ => "") e)).
Proof.
  split; [reflexivity|].
  apply (generate_analysis_error_statuses lower AsciiText.strip
           (fun _ => "") "https://x.supabase.co" None "u1"
           (mkAnalysisWorld (Sample.one_row "full_name" "Ada")
              ConnectionFailed (fun _ => ConnectionFailed) Sample.no_rows
              Sample.no_rows Sample.no_rows Sample.no_rows Sample.no_rows
              (Raised (PyValueError no_key_message)) "" ConnectionFailed
              (Raised PyTypeError) "" ConnectionFailed "" ConnectionFailed)
           400 no_roles_detail).
  reflexivity.
Defined.


